(** * GCloudIoTMqtt: connection manager and dispatcher of the Cloud IoT MQTT session

    Shallow embedding of [src/GCloudIoTMqtt.h] and [src/GCloudIoTMqtt.cpp].

    The class [GCloudIoTMqtt] is embedded as a record holding its private
    members; every method is a computation in a small state/error/writer
    monad: the state is the session together with the objects it points to,
    the error is a dereference of a null pointer (or a double [delete]), and
    the written output is the list of calls made to the collaborators that
    live outside the class (the MQTT client library, the device object, the
    application callbacks), in program order. One assignment is logged in
    that list as well, the arming of the backoff window, so that its place
    among the calls is part of what a method is proved to do.

    Values read from the outside during a call (the clock [millis()], the
    token expiry [device->getExpMillis()], the outcome of the MQTT handshake,
    [random()], the WiFi status) are arguments of the embedded method,
    gathered in one record per method, one field per reading site.

    Not embedded: the diagnostic output of [GCIOT_DEBUG_LOG], the error code
    accessors [getLastErrorCode] and [getLastErrorCodeAsString], which only
    read the MQTT library, and what application callbacks do when called (a
    call is recorded, its body is not run). The [device] pointer is taken to
    be non-null. *)

From Stdlib Require Import ZArith List String Bool Lia.
Import ListNotations.
Local Open Scope Z_scope.

(** ** Machine integers

    The target is the ESP8266 (the transport is
    [BearSSL::WiFiClientSecure]): [unsigned long] is 32 bits wide and
    arithmetic on it wraps around. *)

Definition ULONG_MODULUS : Z := 2 ^ 32.

Definition to_ulong (z : Z) : Z := z mod ULONG_MODULUS.

Definition is_ulong (z : Z) : Prop := 0 <= z < ULONG_MODULUS.

(** ** Constants of [GCloudIoTMqtt.cpp] *)

Definition EXP_BACKOFF_FACTOR : Z := 2.
Definition EXP_BACKOFF_MIN_MS : Z := 1000.
Definition EXP_BACKOFF_MAX_MS : Z := 32000.
Definition EXP_BACKOFF_JITTER_MS : Z := 500.

(** The two broker hosts and the two CA certificates are macros of
    [CloudIoTCore.h]; only their identity matters here. *)

Inductive broker_host : Type :=
| CLOUD_IOT_CORE_MQTT_HOST_LTS
| CLOUD_IOT_CORE_MQTT_HOST.

Inductive ca_cert : Type :=
| CLOUD_IOT_CORE_LTS_PRIMARY_CA
| CLOUD_IOT_CORE_LTS_BACKUP_CA.

(** Connect return codes of the MQTT library ([lwmqtt_return_code_t]), as
    they are named in [getLastConnectReturnCodeAsString]. *)

Inductive lwmqtt_return_code_t : Type :=
| LWMQTT_CONNECTION_ACCEPTED
| LWMQTT_UNACCEPTABLE_PROTOCOL
| LWMQTT_IDENTIFIER_REJECTED
| LWMQTT_SERVER_UNAVAILABLE
| LWMQTT_BAD_USERNAME_OR_PASSWORD
| LWMQTT_NOT_AUTHORIZED
| LWMQTT_UNKNOWN_RETURN_CODE.

(** ** Data model *)

(** Address of a heap object. *)
Definition handle : Type := nat.

(** [MQTTClientCallbackSimple]: an application function, identified by its
    address. A null pointer is [None]. *)
Definition MQTTClientCallbackSimple : Type := nat.

(** [CloudIoTCoreDevice], referenced and not owned. The token is identified
    by its generation number: [createJWT] mints the next one. *)
Record CloudIoTCoreDevice : Type := mkDevice {
  getClientId : string;
  getDeviceId : string;
  getEventsTopic : string;
  getStateTopic : string;
  getCommandsTopic : string;
  getConfigTopic : string;
  getJWT : nat
}.

(** [MQTTClientWithCookie]: the protocol client, an object of the MQTT
    library extended with the back pointer [_cookie_] to the session.
    [mq_cookie] tells whether that pointer is non-null. *)
Record MQTTClientWithCookie : Type := mkClient {
  mq_addr : handle;
  mq_cookie : bool;
  mq_connected : bool;
  mq_returnCode : lwmqtt_return_code_t;
  mq_host : option broker_host
}.

(** The private members of [GCloudIoTMqtt] (same names), the device it
    points to, and the heap ([live] objects, next free address). *)
Record World : Type := mkWorld {
  backoff_ms : Z;
  backoff_until_millis : Z;
  logConnect : bool;
  useLts : bool;
  autoReconnect : bool;
  mqttClient : option MQTTClientWithCookie;
  certList : option handle;
  netClient : option handle;
  device : CloudIoTCoreDevice;
  commandCB : option MQTTClientCallbackSimple;
  configCB : option MQTTClientCallbackSimple;
  messageCB : option MQTTClientCallbackSimple;
  live : list handle;
  next_handle : handle
}.

(** Calls made to the collaborators, and [EvBackoffArmed], which is not a
    call: it logs the assignment [backoff_until_millis = millis() +
    backoff_ms] with the value assigned. *)
Inductive Event : Type :=
| EvCreateJWT
| EvBackoffArmed (until : Z)
| EvCertAppend (cl : handle) (c : ca_cert)
| EvSetTrustAnchors (net cl : handle)
| EvSetOptions (keepAlive : Z) (cleanSession : bool) (timeout : Z)
| EvBegin (host : broker_host)
| EvOnMessageAdvanced
| EvMqttConnect (clientId : string) (jwt : nat) (skip : bool)
| EvMqttDisconnect
| EvMqttLoop
| EvSubscribe (topic : string) (qos : Z)
| EvPublish (topic payload : string) (retained : bool) (qos : Z)
| EvCallback (cb : MQTTClientCallbackSimple) (topic payload : string).

(** ** Field updates *)

Definition set_backoff_ms (v : Z) (w : World) : World :=
  mkWorld v (backoff_until_millis w) (logConnect w) (useLts w)
    (autoReconnect w) (mqttClient w) (certList w) (netClient w) (device w)
    (commandCB w) (configCB w) (messageCB w) (live w) (next_handle w).

Definition set_backoff_until_millis (v : Z) (w : World) : World :=
  mkWorld (backoff_ms w) v (logConnect w) (useLts w)
    (autoReconnect w) (mqttClient w) (certList w) (netClient w) (device w)
    (commandCB w) (configCB w) (messageCB w) (live w) (next_handle w).

Definition set_logConnect (v : bool) (w : World) : World :=
  mkWorld (backoff_ms w) (backoff_until_millis w) v (useLts w)
    (autoReconnect w) (mqttClient w) (certList w) (netClient w) (device w)
    (commandCB w) (configCB w) (messageCB w) (live w) (next_handle w).

Definition set_useLts (v : bool) (w : World) : World :=
  mkWorld (backoff_ms w) (backoff_until_millis w) (logConnect w) v
    (autoReconnect w) (mqttClient w) (certList w) (netClient w) (device w)
    (commandCB w) (configCB w) (messageCB w) (live w) (next_handle w).

Definition set_autoReconnect (v : bool) (w : World) : World :=
  mkWorld (backoff_ms w) (backoff_until_millis w) (logConnect w) (useLts w)
    v (mqttClient w) (certList w) (netClient w) (device w)
    (commandCB w) (configCB w) (messageCB w) (live w) (next_handle w).

Definition set_mqttClient (v : option MQTTClientWithCookie) (w : World) : World :=
  mkWorld (backoff_ms w) (backoff_until_millis w) (logConnect w) (useLts w)
    (autoReconnect w) v (certList w) (netClient w) (device w)
    (commandCB w) (configCB w) (messageCB w) (live w) (next_handle w).

Definition set_certList (v : option handle) (w : World) : World :=
  mkWorld (backoff_ms w) (backoff_until_millis w) (logConnect w) (useLts w)
    (autoReconnect w) (mqttClient w) v (netClient w) (device w)
    (commandCB w) (configCB w) (messageCB w) (live w) (next_handle w).

Definition set_netClient (v : option handle) (w : World) : World :=
  mkWorld (backoff_ms w) (backoff_until_millis w) (logConnect w) (useLts w)
    (autoReconnect w) (mqttClient w) (certList w) v (device w)
    (commandCB w) (configCB w) (messageCB w) (live w) (next_handle w).

Definition set_device (v : CloudIoTCoreDevice) (w : World) : World :=
  mkWorld (backoff_ms w) (backoff_until_millis w) (logConnect w) (useLts w)
    (autoReconnect w) (mqttClient w) (certList w) (netClient w) v
    (commandCB w) (configCB w) (messageCB w) (live w) (next_handle w).

Definition set_commandCB (v : option MQTTClientCallbackSimple) (w : World) : World :=
  mkWorld (backoff_ms w) (backoff_until_millis w) (logConnect w) (useLts w)
    (autoReconnect w) (mqttClient w) (certList w) (netClient w) (device w)
    v (configCB w) (messageCB w) (live w) (next_handle w).

Definition set_configCB (v : option MQTTClientCallbackSimple) (w : World) : World :=
  mkWorld (backoff_ms w) (backoff_until_millis w) (logConnect w) (useLts w)
    (autoReconnect w) (mqttClient w) (certList w) (netClient w) (device w)
    (commandCB w) v (messageCB w) (live w) (next_handle w).

Definition set_messageCB (v : option MQTTClientCallbackSimple) (w : World) : World :=
  mkWorld (backoff_ms w) (backoff_until_millis w) (logConnect w) (useLts w)
    (autoReconnect w) (mqttClient w) (certList w) (netClient w) (device w)
    (commandCB w) (configCB w) v (live w) (next_handle w).

Definition set_live (v : list handle) (w : World) : World :=
  mkWorld (backoff_ms w) (backoff_until_millis w) (logConnect w) (useLts w)
    (autoReconnect w) (mqttClient w) (certList w) (netClient w) (device w)
    (commandCB w) (configCB w) (messageCB w) v (next_handle w).

Definition set_next_handle (v : handle) (w : World) : World :=
  mkWorld (backoff_ms w) (backoff_until_millis w) (logConnect w) (useLts w)
    (autoReconnect w) (mqttClient w) (certList w) (netClient w) (device w)
    (commandCB w) (configCB w) (messageCB w) (live w) v.

Definition set_connected (b : bool) (c : MQTTClientWithCookie) : MQTTClientWithCookie :=
  mkClient (mq_addr c) (mq_cookie c) b (mq_returnCode c) (mq_host c).

Definition set_returnCode (rc : lwmqtt_return_code_t) (c : MQTTClientWithCookie)
  : MQTTClientWithCookie :=
  mkClient (mq_addr c) (mq_cookie c) (mq_connected c) rc (mq_host c).

Definition set_host (h : broker_host) (c : MQTTClientWithCookie) : MQTTClientWithCookie :=
  mkClient (mq_addr c) (mq_cookie c) (mq_connected c) (mq_returnCode c) (Some h).

(** ** The monad of methods *)

Definition M (A : Type) : Type := World -> option (A * World * list Event).

Definition ret {A} (a : A) : M A := fun w => Some (a, w, []).

Definition bind {A B} (m : M A) (k : A -> M B) : M B :=
  fun w =>
    match m w with
    | None => None
    | Some (a, w1, e1) =>
        match k a w1 with
        | None => None
        | Some (b, w2, e2) => Some (b, w2, e1 ++ e2)
        end
    end.

Notation "x <- m ;; k" := (bind m (fun x => k))
  (at level 61, m at next level, right associativity).
Notation "m ;; k" := (bind m (fun _ => k))
  (at level 61, right associativity).

(** Dereference of a null pointer, double [delete]. *)
Definition crash {A} : M A := fun _ => None.

Definition gets {A} (f : World -> A) : M A := fun w => Some (f w, w, []).

Definition modify (f : World -> World) : M unit := fun w => Some (tt, f w, []).

Definition emit (e : Event) : M unit := fun w => Some (tt, w, [e]).

(** [new T()] and [delete p]. *)
Definition new_object : M handle :=
  fun w =>
    let h := next_handle w in
    Some (h, set_next_handle (S h) (set_live (h :: live w) w), []).

Definition delete_object (h : handle) : M unit :=
  fun w =>
    if in_dec Nat.eq_dec h (live w)
    then Some (tt, set_live (remove Nat.eq_dec h (live w)) w, [])
    else crash w.

(** ** Collaborators

    The Arduino [String], the device object and the MQTT client library are
    not part of the class; they are embedded at their interface. *)

(** Arduino's [String::startsWith]: [s.startsWith(s2)] compares the first
    [s2.length()] characters of [s] with [s2]. *)
Definition startsWith (s s2 : string) : bool :=
  if (String.length s <? String.length s2)%nat then false
  else String.eqb (substring 0 (String.length s2) s) s2.

(** [device->createJWT()]: the device mints the next token. *)
Definition next_token (d : CloudIoTCoreDevice) : CloudIoTCoreDevice :=
  mkDevice (getClientId d) (getDeviceId d) (getEventsTopic d)
    (getStateTopic d) (getCommandsTopic d) (getConfigTopic d) (S (getJWT d)).

Definition createJWT : M unit :=
  emit EvCreateJWT;;
  modify (fun w => set_device (next_token (device w)) w).

(** [this->mqttClient->...]: the pointer is dereferenced. *)
Definition with_client {A} (f : MQTTClientWithCookie -> M A) : M A :=
  fun w =>
    match mqttClient w with
    | None => crash w
    | Some c => f c w
    end.

Definition update_client (f : MQTTClientWithCookie -> MQTTClientWithCookie) : M unit :=
  with_client (fun c => modify (set_mqttClient (Some (f c)))).

(** [MQTTClient::connected()]. *)
Definition mq_is_connected : M bool := with_client (fun c => ret (mq_connected c)).

(** [MQTTClient::returnCode()]. *)
Definition mq_get_returnCode : M lwmqtt_return_code_t :=
  with_client (fun c => ret (mq_returnCode c)).

(** [MQTTClient::connect(clientId, username, password, skip)]. The
    handshake returns [result] and leaves the return code [rc]; the client
    reports connected afterwards when the handshake succeeded and the
    transport is still up ([alive]). *)
Definition mq_connect (clientId : string) (jwt : nat) (skip : bool)
    (result alive : bool) (rc : lwmqtt_return_code_t) : M bool :=
  emit (EvMqttConnect clientId jwt skip);;
  update_client (fun c => set_returnCode rc (set_connected (result && alive) c));;
  ret result.

(** [MQTTClient::disconnect()]: closes the connection; the result tells
    whether there was one and the exchange succeeded ([ok]). *)
Definition mq_disconnect (ok : bool) : M bool :=
  was <- mq_is_connected;;
  emit EvMqttDisconnect;;
  update_client (set_connected false);;
  ret (was && ok).

(** [MQTTClient::subscribe(topic, qos)] and
    [MQTTClient::publish(topic, payload, retained, qos)]: they fail on a
    client that is not connected, and otherwise return the outcome [ok] of
    the exchange. *)
Definition mq_subscribe (ok : bool) (topic : string) (qos : Z) : M bool :=
  up <- mq_is_connected;;
  emit (EvSubscribe topic qos);;
  ret (up && ok).

Definition mq_publish (ok : bool) (topic payload : string) (retained : bool) (qos : Z)
  : M bool :=
  up <- mq_is_connected;;
  emit (EvPublish topic payload retained qos);;
  ret (up && ok).

(** [MQTTClient::begin(host, port, netClient)]. *)
Definition mq_begin (h : broker_host) : M unit :=
  emit (EvBegin h);;
  update_client (set_host h).

(** The transport drops the connection (a step of the environment; also what
    the library does when an exchange fails). *)
Definition link_down : M unit :=
  fun w =>
    match mqttClient w with
    | None => Some (tt, w, [])
    | Some c => Some (tt, set_mqttClient (Some (set_connected false c)) w, [])
    end.

(** ** Readings taken during [connect] and [loop] *)

Record connect_obs : Type := mkConnectObs {
  co_now : Z;                   (* millis(), expiry test of connect *)
  co_exp : Z;                   (* device->getExpMillis(), same test *)
  co_result : bool;             (* value of mqttClient->connect(...) *)
  co_alive : bool;              (* transport still up when it returns *)
  co_rc : lwmqtt_return_code_t; (* return code left by the handshake *)
  co_jitter : Z;                (* random(EXP_BACKOFF_JITTER_MS) *)
  co_now_arm : Z                (* millis(), where backoff_until_millis is set *)
}.

Record loop_obs : Type := mkLoopObs {
  lo_now : Z;                   (* millis(), in the conditions of loop *)
  lo_exp : Z;                   (* device->getExpMillis(), first condition *)
  lo_net : bool;                (* isNetworkConnected() *)
  lo_disc_ok : bool;            (* outcome of mqttClient->disconnect() *)
  lo_conn : connect_obs;        (* readings of the connect call, if any *)
  lo_inbox : list (string * string) (* messages pumped by mqttClient->loop() *)
}.

(** ** Methods of [GCloudIoTMqtt] *)

(** State left by the member initialisers and the constructor. *)
Definition GCloudIoTMqtt (dev : CloudIoTCoreDevice) : World :=
  mkWorld 0 0 true true false None None None dev None None None [] 0%nat.

Definition setup (bufsize keepAlive_sec timeout_ms : Z) : M bool :=
  net <- new_object;;
  modify (set_netClient (Some net));;
  cl <- new_object;;
  modify (set_certList (Some cl));;
  emit (EvCertAppend cl CLOUD_IOT_CORE_LTS_PRIMARY_CA);;
  emit (EvCertAppend cl CLOUD_IOT_CORE_LTS_BACKUP_CA);;
  emit (EvSetTrustAnchors net cl);;
  mq <- new_object;;
  modify (set_mqttClient
            (Some (mkClient mq true false LWMQTT_CONNECTION_ACCEPTED None)));;
  emit (EvSetOptions keepAlive_sec true timeout_ms);;
  modify (set_backoff_until_millis 0);;
  modify (set_backoff_ms 0);;
  modify (set_useLts true);;
  lts <- gets useLts;;
  (if lts then mq_begin CLOUD_IOT_CORE_MQTT_HOST_LTS
   else mq_begin CLOUD_IOT_CORE_MQTT_HOST);;
  emit EvOnMessageAdvanced;;
  ret true.

Definition cleanup : M unit :=
  mc <- gets mqttClient;;
  match mc with
  | Some c =>
      mq_disconnect true;;   (* result discarded *)
      delete_object (mq_addr c);;
      modify (set_mqttClient None)
  | None => ret tt
  end;;
  nc <- gets netClient;;
  match nc with
  | Some h => delete_object h;; modify (set_netClient None)
  | None => ret tt
  end;;
  cl <- gets certList;;
  match cl with
  | Some h => delete_object h;; modify (set_certList None)
  | None => ret tt
  end.

(** [~GCloudIoTMqtt()]. *)
Definition destructor : M unit := cleanup.

Definition publishTelemetry (ok : bool) (data : string) : M bool :=
  d <- gets device;;
  mq_publish ok (getEventsTopic d) data false 0.

Definition publishTelemetry_qos (ok : bool) (data : string) (qos : Z) : M bool :=
  d <- gets device;;
  mq_publish ok (getEventsTopic d) data false qos.

Definition publishTelemetry_raw (ok : bool) (data : string) (length : Z) : M bool :=
  d <- gets device;;
  mq_publish ok (getEventsTopic d) (substring 0 (Z.to_nat length) data) false 0.

Definition publishTelemetry_sub (ok : bool) (subtopic data : string) : M bool :=
  d <- gets device;;
  mq_publish ok (getEventsTopic d ++ subtopic)%string data false 0.

Definition publishTelemetry_sub_qos (ok : bool) (subtopic data : string) (qos : Z)
  : M bool :=
  d <- gets device;;
  mq_publish ok (getEventsTopic d ++ subtopic)%string data false qos.

Definition publishTelemetry_sub_raw (ok : bool) (subtopic data : string) (length : Z)
  : M bool :=
  d <- gets device;;
  mq_publish ok (getEventsTopic d ++ subtopic)%string
    (substring 0 (Z.to_nat length) data) false 0.

Definition publishState (ok : bool) (data : string) : M bool :=
  d <- gets device;;
  mq_publish ok (getStateTopic d) data false 0.

Definition publishState_raw (ok : bool) (data : string) (length : Z) : M bool :=
  d <- gets device;;
  mq_publish ok (getStateTopic d) (substring 0 (Z.to_nat length) data) false 0.

Definition onConnect : M unit :=
  lc <- gets logConnect;;
  if lc then
    d <- gets device;;
    publishState true "connected";;   (* results discarded *)
    publishTelemetry_sub true "/events" (getDeviceId d ++ "-connected")%string;;
    ret tt
  else ret tt.

(** The test [(millis() + 60000) > device->getExpMillis()]. The sum is an
    [unsigned long]; the expiry is taken to be one too (its declaration is
    in [CloudIoTCoreDevice.h]). *)
Definition jwt_expiring (now exp : Z) : bool := to_ulong (now + 60000) >? exp.

(** The [switch] on the return code after a failed attempt. *)
Definition regenerate_on_auth_failure : M unit :=
  rc <- mq_get_returnCode;;
  match rc with
  | LWMQTT_BAD_USERNAME_OR_PASSWORD
  | LWMQTT_NOT_AUTHORIZED => createJWT
  | _ => ret tt
  end.

(** The backoff policy and the arming of the window. [jitter] is the value
    of [random(EXP_BACKOFF_JITTER_MS)], [now] the value of [millis()].
    [backoff_ms] is an [int]: the policy cannot overflow it (lemma
    [next_backoff_fits_int]); the sum with the clock is an [unsigned long]
    and wraps. *)
Definition arm_backoff (jitter now : Z) : M unit :=
  b <- gets backoff_ms;;
  (if b <? EXP_BACKOFF_MIN_MS then
     modify (set_backoff_ms (EXP_BACKOFF_MIN_MS + jitter))
   else if b <? EXP_BACKOFF_MAX_MS then
     modify (set_backoff_ms (b * EXP_BACKOFF_FACTOR + jitter))
   else ret tt);;
  b' <- gets backoff_ms;;
  modify (set_backoff_until_millis (to_ulong (now + b')));;
  emit (EvBackoffArmed (to_ulong (now + b'))).

Definition connect (auto_reconnect skip : bool) (o : connect_obs) : M bool :=
  modify (set_autoReconnect true);;
  (if jwt_expiring (co_now o) (co_exp o) then createJWT else ret tt);;
  d <- gets device;;
  result <- mq_connect (getClientId d) (getJWT d) skip
              (co_result o) (co_alive o) (co_rc o);;
  up <- (if result then mq_is_connected else ret false);;
  if result && up then
    modify (set_backoff_ms 0);;
    mq_subscribe true (getConfigTopic d) 1;;     (* results discarded *)
    mq_subscribe true (getCommandsTopic d) 0;;
    onConnect;;
    ret true
  else
    regenerate_on_auth_failure;;
    arm_backoff (co_jitter o) (co_now_arm o);;
    ret false.

Definition connected : M bool := mq_is_connected.

Definition disconnect (ok : bool) : M bool :=
  modify (set_autoReconnect false);;
  mq_disconnect ok.

Definition onMessageReceived (topic payload : string) : M unit :=
  d <- gets device;;
  if startsWith (getCommandsTopic d) topic then
    cb <- gets commandCB;;
    match cb with
    | Some f => emit (EvCallback f topic payload)
    | None => ret tt
    end
  else if startsWith (getConfigTopic d) topic then
    cb <- gets configCB;;
    match cb with
    | Some f => emit (EvCallback f topic payload)
    | None => ret tt
    end
  else
    cb <- gets messageCB;;
    match cb with
    | Some f => emit (EvCallback f topic payload)
    | None => ret tt
    end.

(** A [String] built from a character pointer: the characters of the buffer
    up to its first zero byte. The buffer is given with its content; the
    library ends it with a zero byte, so the text ends with the content at
    the latest. *)
Fixpoint c_str (buffer : string) : string :=
  match buffer with
  | EmptyString => EmptyString
  | String a rest =>
      if Ascii.eqb a Ascii.zero then EmptyString else String a (c_str rest)
  end.

(** [gciot_onMessageAdv]: the library's message notification, forwarded to
    the session found behind the cookie. Topic and payload are turned into
    [String]s from the character buffers; [length] is not used. *)
Definition gciot_onMessageAdv (client : MQTTClientWithCookie)
    (topic bytes : string) (length : Z) : M unit :=
  let topic_str := c_str topic in
  let payload_str := c_str bytes in
  if mq_cookie client then onMessageReceived topic_str payload_str else ret tt.

(** [MQTTClient::loop()]: pumps the inbound messages of a connected client
    through the registered notification, each with its topic, its payload
    bytes and their number. *)
Fixpoint deliver (client : MQTTClientWithCookie) (inbox : list (string * string))
  : M unit :=
  match inbox with
  | [] => ret tt
  | (topic, bytes) :: rest =>
      gciot_onMessageAdv client topic bytes (Z.of_nat (String.length bytes));;
      deliver client rest
  end.

Definition mq_loop (inbox : list (string * string)) : M unit :=
  with_client (fun c =>
    emit EvMqttLoop;;
    if mq_connected c then deliver c inbox else ret tt).

(** The test [millis() > this->backoff_until_millis]. *)
Definition backoff_elapsed (now backoff_until : Z) : bool := now >? backoff_until.

Definition loop (o : loop_obs) : M unit :=
  up <- mq_is_connected;;
  (if up && jwt_expiring (lo_now o) (lo_exp o) then
     mq_disconnect (lo_disc_ok o);;
     ar <- gets autoReconnect;;
     connect ar false (lo_conn o);;
     ret tt
   else
     ar <- gets autoReconnect;;
     up' <- mq_is_connected;;
     until <- gets backoff_until_millis;;
     if ar && negb up' && backoff_elapsed (lo_now o) until then
       if lo_net o then connect true false (lo_conn o);; ret tt
       else ret tt
     else ret tt);;
  mq_loop (lo_inbox o).

Definition setLogConnect (enabled : bool) : M unit := modify (set_logConnect enabled).
Definition setUseLts (enabled : bool) : M unit := modify (set_useLts enabled).
Definition setCommandCallback (cb : option MQTTClientCallbackSimple) : M unit :=
  modify (set_commandCB cb).
Definition setConfigCallback (cb : option MQTTClientCallbackSimple) : M unit :=
  modify (set_configCB cb).
Definition setMessageCallback (cb : option MQTTClientCallbackSimple) : M unit :=
  modify (set_messageCB cb).

Definition getLastConnectReturnCode : M lwmqtt_return_code_t := mq_get_returnCode.

Definition getLastConnectReturnCodeAsString : M string :=
  rc <- mq_get_returnCode;;
  ret (match rc with
       | LWMQTT_CONNECTION_ACCEPTED => "OK"
       | LWMQTT_UNACCEPTABLE_PROTOCOL => "LWMQTT_UNACCEPTABLE_PROTOCOLL"
       | LWMQTT_IDENTIFIER_REJECTED => "LWMQTT_IDENTIFIER_REJECTED"
       | LWMQTT_SERVER_UNAVAILABLE => "LWMQTT_SERVER_UNAVAILABLE"
       | LWMQTT_BAD_USERNAME_OR_PASSWORD => "LWMQTT_BAD_USERNAME_OR_PASSWORD"
       | LWMQTT_NOT_AUTHORIZED => "LWMQTT_NOT_AUTHORIZED"
       | LWMQTT_UNKNOWN_RETURN_CODE => "LWMQTT_UNKNOWN_RETURN_CODE"
       end)%string.

(** ** Derived notions used in the statements *)

(** Events of a call to [h(topic, payload)] through a callback member that
    may be null. *)
Definition invoke_if_registered (h : option MQTTClientCallbackSimple)
    (topic payload : string) : list Event :=
  match h with
  | Some f => [EvCallback f topic payload]
  | None => []
  end.

Definition is_subscribe (e : Event) : bool :=
  match e with EvSubscribe _ _ => true | _ => false end.

Definition is_publish (e : Event) : bool :=
  match e with EvPublish _ _ _ _ => true | _ => false end.

Definition is_createJWT (e : Event) : bool :=
  match e with EvCreateJWT => true | _ => false end.

Definition is_mqtt_connect (e : Event) : bool :=
  match e with EvMqttConnect _ _ _ => true | _ => false end.

Definition is_mqtt_disconnect (e : Event) : bool :=
  match e with EvMqttDisconnect => true | _ => false end.

Definition is_callback (e : Event) : bool :=
  match e with EvCallback _ _ _ => true | _ => false end.

(** A connect attempt fails when the test [result && connected()] fails. *)
Definition attempt_succeeds (o : connect_obs) : bool := co_result o && co_alive o.

(** Token generation used by a connect attempt, and the events of its
    expiry test. *)
Definition jwt_at_connect (w : World) (o : connect_obs) : nat :=
  if jwt_expiring (co_now o) (co_exp o)
  then S (getJWT (device w)) else getJWT (device w).

Definition refresh_events (o : connect_obs) : list Event :=
  if jwt_expiring (co_now o) (co_exp o) then [EvCreateJWT] else [].

(** Value of [backoff_ms] after one application of the backoff policy. *)
Definition next_backoff (b jitter : Z) : Z :=
  if b <? EXP_BACKOFF_MIN_MS then EXP_BACKOFF_MIN_MS + jitter
  else if b <? EXP_BACKOFF_MAX_MS then b * EXP_BACKOFF_FACTOR + jitter
  else b.

Definition is_auth_failure (rc : lwmqtt_return_code_t) : bool :=
  match rc with
  | LWMQTT_BAD_USERNAME_OR_PASSWORD | LWMQTT_NOT_AUTHORIZED => true
  | _ => false
  end.

(** The session after the expiry test of [connect]. *)
Definition after_refresh (o : connect_obs) (w : World) : World :=
  if jwt_expiring (co_now o) (co_exp o)
  then set_device (next_token (device w)) w else w.

(** The session when [mqttClient->connect] has returned. *)
Definition after_handshake (o : connect_obs) (c : MQTTClientWithCookie) (w : World)
  : World :=
  set_mqttClient
    (Some (set_returnCode (co_rc o) (set_connected (attempt_succeeds o) c)))
    (after_refresh o (set_autoReconnect true w)).

(** The session after the [switch] on the return code, and its events. *)
Definition after_auth_check (o : connect_obs) (w : World) : World :=
  if is_auth_failure (co_rc o)
  then set_device (next_token (device w)) w else w.

Definition auth_events (o : connect_obs) : list Event :=
  if is_auth_failure (co_rc o) then [EvCreateJWT] else [].

(** Outcome of [connect] on a session whose protocol client is [c]. *)
Definition connect_world (o : connect_obs) (c : MQTTClientWithCookie) (w : World)
  : World :=
  if attempt_succeeds o then set_backoff_ms 0 (after_handshake o c w)
  else
    set_backoff_until_millis
      (to_ulong (co_now_arm o + next_backoff (backoff_ms w) (co_jitter o)))
      (set_backoff_ms (next_backoff (backoff_ms w) (co_jitter o))
         (after_auth_check o (after_handshake o c w))).

Definition announce_events (w : World) : list Event :=
  if logConnect w
  then [EvPublish (getStateTopic (device w)) "connected" false 0;
        EvPublish (getEventsTopic (device w) ++ "/events")%string
          (getDeviceId (device w) ++ "-connected")%string false 0]
  else [].

Definition connect_events (skip : bool) (o : connect_obs) (w : World) : list Event :=
  refresh_events o ++
  EvMqttConnect (getClientId (device w)) (jwt_at_connect w o) skip ::
  (if attempt_succeeds o
   then EvSubscribe (getConfigTopic (device w)) 1 ::
        EvSubscribe (getCommandsTopic (device w)) 0 ::
        announce_events w
   else auth_events o ++
        [EvBackoffArmed
           (to_ulong (co_now_arm o + next_backoff (backoff_ms w) (co_jitter o)))]).

(** Handler calls made for one arrived message, and for a batch. *)
Definition routed_calls (w : World) (topic payload : string) : list Event :=
  if String.prefix topic (getCommandsTopic (device w))
  then invoke_if_registered (commandCB w) topic payload
  else if String.prefix topic (getConfigTopic (device w))
  then invoke_if_registered (configCB w) topic payload
  else invoke_if_registered (messageCB w) topic payload.

Definition pumped_calls (w : World) (c : MQTTClientWithCookie)
    (inbox : list (string * string)) : list Event :=
  if mq_connected c && mq_cookie c
  then flat_map (fun m => routed_calls w (c_str (fst m)) (c_str (snd m))) inbox
  else [].

(** ** Runs of the session *)

(** A series of [connect] calls, given with their arguments and readings;
    the result lists [backoff_ms] as it stands after each call. *)
Fixpoint connect_attempts (calls : list (bool * bool * connect_obs)) : M (list Z) :=
  match calls with
  | [] => ret []
  | (auto_reconnect, skip, o) :: rest =>
      connect auto_reconnect skip o;;
      b <- gets backoff_ms;;
      bs <- connect_attempts rest;;
      ret (b :: bs)
  end.

(** The backoff ladder without jitter: MIN doubled [k] times, capped. *)
Definition ladder (k : nat) : Z :=
  Z.min (EXP_BACKOFF_MIN_MS * 2 ^ Z.of_nat k) EXP_BACKOFF_MAX_MS.

(** [backoff_ms] after [n] consecutive failures without jitter, counted
    from a session that is not backing off. *)
Definition backoff_after (n : nat) : Z :=
  match n with
  | O => 0
  | S k => ladder k
  end.

(** The public operations, and the one step of the environment. *)
Inductive Op : Type :=
| OpSetup (bufsize keepAlive_sec timeout_ms : Z)
| OpCleanup
| OpConnect (auto_reconnect skip : bool) (o : connect_obs)
| OpConnected
| OpDisconnect (ok : bool)
| OpLoop (lo : loop_obs)
| OpPublishTelemetry (ok : bool) (data : string)
| OpPublishTelemetryQos (ok : bool) (data : string) (qos : Z)
| OpPublishTelemetryRaw (ok : bool) (data : string) (length : Z)
| OpPublishTelemetrySub (ok : bool) (subtopic data : string)
| OpPublishTelemetrySubQos (ok : bool) (subtopic data : string) (qos : Z)
| OpPublishTelemetrySubRaw (ok : bool) (subtopic data : string) (length : Z)
| OpPublishState (ok : bool) (data : string)
| OpPublishStateRaw (ok : bool) (data : string) (length : Z)
| OpSetLogConnect (enabled : bool)
| OpSetUseLts (enabled : bool)
| OpSetMessageCallback (cb : option MQTTClientCallbackSimple)
| OpSetCommandCallback (cb : option MQTTClientCallbackSimple)
| OpSetConfigCallback (cb : option MQTTClientCallbackSimple)
| OpGetLastConnectReturnCode
| OpGetLastConnectReturnCodeAsString
| OpOnMessageReceived (topic payload : string)
| OpIsNetworkConnected
| OpLinkDown.

Definition run_op (op : Op) : M unit :=
  match op with
  | OpSetup b k t => setup b k t;; ret tt
  | OpCleanup => cleanup
  | OpConnect ar skip o => connect ar skip o;; ret tt
  | OpConnected => connected;; ret tt
  | OpDisconnect ok => disconnect ok;; ret tt
  | OpLoop lo => loop lo
  | OpPublishTelemetry ok d => publishTelemetry ok d;; ret tt
  | OpPublishTelemetryQos ok d q => publishTelemetry_qos ok d q;; ret tt
  | OpPublishTelemetryRaw ok d n => publishTelemetry_raw ok d n;; ret tt
  | OpPublishTelemetrySub ok s d => publishTelemetry_sub ok s d;; ret tt
  | OpPublishTelemetrySubQos ok s d q => publishTelemetry_sub_qos ok s d q;; ret tt
  | OpPublishTelemetrySubRaw ok s d n => publishTelemetry_sub_raw ok s d n;; ret tt
  | OpPublishState ok d => publishState ok d;; ret tt
  | OpPublishStateRaw ok d n => publishState_raw ok d n;; ret tt
  | OpSetLogConnect b => setLogConnect b
  | OpSetUseLts b => setUseLts b
  | OpSetMessageCallback cb => setMessageCallback cb
  | OpSetCommandCallback cb => setCommandCallback cb
  | OpSetConfigCallback cb => setConfigCallback cb
  | OpGetLastConnectReturnCode => getLastConnectReturnCode;; ret tt
  | OpGetLastConnectReturnCodeAsString => getLastConnectReturnCodeAsString;; ret tt
  | OpOnMessageReceived t p => onMessageReceived t p
  | OpIsNetworkConnected => ret tt
  | OpLinkDown => link_down
  end.

(** Sessions that a program can reach from the constructor. *)
Inductive reachable (dev : CloudIoTCoreDevice) : World -> Prop :=
| reachable_new : reachable dev (GCloudIoTMqtt dev)
| reachable_step (w w' : World) (op : Op) (evs : list Event) :
    reachable dev w ->
    run_op op w = Some (tt, w', evs) ->
    reachable dev w'.

(** Objects the session owns, through its three owning pointers. *)
Definition owned (w : World) : list handle :=
  match mqttClient w with Some c => [mq_addr c] | None => [] end ++
  match netClient w with Some h => [h] | None => [] end ++
  match certList w with Some h => [h] | None => [] end.

(** The owning pointers are distinct and point to live objects. *)
Definition owned_live (w : World) : Prop :=
  NoDup (owned w) /\ incl (owned w) (live w).

Definition is_begin (e : Event) : bool :=
  match e with EvBegin _ => true | _ => false end.

(** ** Sample sessions *)

Definition sample_device : CloudIoTCoreDevice :=
  mkDevice "projects/p/locations/l/registries/r/devices/d1" "d1"
    "/devices/d1/events" "/devices/d1/state"
    "/devices/d1/commands" "/devices/d1/config" 0.

Definition result_world {A} (r : option (A * World * list Event)) (otherwise : World)
  : World :=
  match r with
  | Some (_, w, _) => w
  | None => otherwise
  end.

Definition result_events {A} (r : option (A * World * list Event)) : list Event :=
  match r with
  | Some (_, _, e) => e
  | None => []
  end.

(** A session after [setup], not yet connected. *)
Definition sample_session : World :=
  result_world (setup 512 180 1000 (GCloudIoTMqtt sample_device))
    (GCloudIoTMqtt sample_device).

Definition sample_client : MQTTClientWithCookie :=
  mkClient 2%nat true false LWMQTT_CONNECTION_ACCEPTED (Some CLOUD_IOT_CORE_MQTT_HOST_LTS).

(** A successful attempt at time 5 s with a token valid until 3600 s. *)
Definition obs_accepted : connect_obs :=
  mkConnectObs 5000 3600000 true true LWMQTT_CONNECTION_ACCEPTED 0 5200.

(** A rejected attempt, without and with jitter. *)
Definition obs_not_authorized : connect_obs :=
  mkConnectObs 5000 3600000 false false LWMQTT_NOT_AUTHORIZED 0 5200.

Definition obs_unavailable (jitter : Z) : connect_obs :=
  mkConnectObs 5000 3600000 false false LWMQTT_SERVER_UNAVAILABLE jitter 5200.

(** The sample session once connected. *)
Definition sample_connected : World :=
  result_world (connect true false obs_accepted sample_session) sample_session.

Definition sample_connected_client : MQTTClientWithCookie :=
  mkClient 2%nat true true LWMQTT_CONNECTION_ACCEPTED (Some CLOUD_IOT_CORE_MQTT_HOST_LTS).

(** The sample session after a rejected attempt: the window is armed at
    5200 ms for 1000 ms. *)
Definition sample_backing_off : World :=
  result_world (connect true false obs_not_authorized sample_session) sample_session.

Definition sample_rejected_client : MQTTClientWithCookie :=
  mkClient 2%nat true false LWMQTT_NOT_AUTHORIZED (Some CLOUD_IOT_CORE_MQTT_HOST_LTS).

(** A tick at 6000 ms, link up. *)
Definition tick_before_deadline : loop_obs :=
  mkLoopObs 6000 3600000 true true obs_accepted [].

(** A tick on the connected sample session exactly 60 s before the expiry
    of its token. *)
Definition tick_at_margin : loop_obs :=
  mkLoopObs 3540000 3600000 true true obs_accepted [].

(** The same tick one millisecond later; the connect it triggers reads the
    clock 20 ms after it. *)
Definition tick_past_margin : loop_obs :=
  mkLoopObs 3540001 3600000 true true
    (mkConnectObs 3540021 3600000 true true LWMQTT_CONNECTION_ACCEPTED 0 3540300) [].

(** The backing-off sample session, armed again 500 ms before the counter
    wraps, and a tick one millisecond after that. *)
Definition sample_armed_near_wrap : World :=
  result_world (arm_backoff 0 4294966796 sample_backing_off) sample_backing_off.

Definition tick_after_wrap_arming : loop_obs :=
  mkLoopObs 4294966797 3600000 true true obs_accepted [].

(** What [mqttClient->connected()] would answer, false without a client. *)
Definition client_up (w : World) : bool :=
  match mqttClient w with
  | Some c => mq_connected c
  | None => false
  end.

(** The protocol client is connected only under auto-reconnect. *)
Definition up_implies_autoReconnect (w : World) : Prop :=
  client_up w = true -> autoReconnect w = true.

(** The session left by a cleanup that meets no error. *)
Definition released (w : World) : World :=
  let l1 := match mqttClient w with
            | Some c => remove Nat.eq_dec (mq_addr c) (live w)
            | None => live w
            end in
  let l2 := match netClient w with
            | Some h => remove Nat.eq_dec h l1
            | None => l1
            end in
  let l3 := match certList w with
            | Some h => remove Nat.eq_dec h l2
            | None => l2
            end in
  set_certList None (set_netClient None (set_mqttClient None (set_live l3 w))).

(** The heap is well formed: what the session owns is live, and live
    addresses are below the next free one. *)
Definition heap_ok (w : World) : Prop :=
  owned_live w /\ forall h, In h (live w) -> (h < next_handle w)%nat.

(** The session left by [setup], and the calls it makes. *)
Definition after_setup (w : World) : World :=
  let n := next_handle w in
  mkWorld 0 0 (logConnect w) true (autoReconnect w)
    (Some (mkClient (S (S n)) true false LWMQTT_CONNECTION_ACCEPTED
             (Some CLOUD_IOT_CORE_MQTT_HOST_LTS)))
    (Some (S n)) (Some n) (device w)
    (commandCB w) (configCB w) (messageCB w)
    (S (S n) :: S n :: n :: live w) (S (S (S n))).

Definition setup_events (keepAlive_sec timeout_ms : Z) (w : World) : list Event :=
  let n := next_handle w in
  [EvCertAppend (S n) CLOUD_IOT_CORE_LTS_PRIMARY_CA;
   EvCertAppend (S n) CLOUD_IOT_CORE_LTS_BACKUP_CA;
   EvSetTrustAnchors n (S n);
   EvSetOptions keepAlive_sec true timeout_ms;
   EvBegin CLOUD_IOT_CORE_MQTT_HOST_LTS;
   EvOnMessageAdvanced].

(** ** Relations kept by methods *)

(** Every run of [m] that returns relates the session before to the
    session after by [R]. *)
Definition keeps {A} (R : World -> World -> Prop) (m : M A) : Prop :=
  forall w a w' e, m w = Some (a, w', e) -> R w w'.

(** The relation kept by everything but connect and disconnect: the flag
    is the same and the protocol client has not come up. *)
Definition flag_frame (w w' : World) : Prop :=
  autoReconnect w' = autoReconnect w /\
  (client_up w' = true -> client_up w = true).

(** The relation kept by everything but setup and cleanup: the heap and
    what the session owns in it are the same. *)
Definition heap_frame (w w' : World) : Prop :=
  owned w' = owned w /\ live w' = live w /\ next_handle w' = next_handle w.

(** ** Error labels *)

(** Error codes of the MQTT library ([lwmqtt_err_t]) as
    [getLastErrorCodeAsString] tells them apart: the thirteen codes its
    [switch] names, and any other value (success included), which takes the
    [default] branch. *)
Inductive lwmqtt_err_t : Type :=
| LWMQTT_BUFFER_TOO_SHORT
| LWMQTT_VARNUM_OVERFLOW
| LWMQTT_NETWORK_FAILED_CONNECT
| LWMQTT_NETWORK_TIMEOUT
| LWMQTT_NETWORK_FAILED_READ
| LWMQTT_NETWORK_FAILED_WRITE
| LWMQTT_REMAINING_LENGTH_OVERFLOW
| LWMQTT_REMAINING_LENGTH_MISMATCH
| LWMQTT_MISSING_OR_WRONG_PACKET
| LWMQTT_CONNECTION_DENIED
| LWMQTT_FAILED_SUBSCRIPTION
| LWMQTT_SUBACK_ARRAY_OVERFLOW
| LWMQTT_PONG_TIMEOUT
| lwmqtt_err_unlisted.

(** [getLastErrorCodeAsString], [lastError] being the value of
    [mqttClient->lastError()]. *)
Definition getLastErrorCodeAsString (lastError : lwmqtt_err_t) : M string :=
  with_client (fun _ =>
    ret (match lastError with
         | LWMQTT_BUFFER_TOO_SHORT => "LWMQTT_BUFFER_TOO_SHORT"
         | LWMQTT_VARNUM_OVERFLOW => "LWMQTT_VARNUM_OVERFLOW"
         | LWMQTT_NETWORK_FAILED_CONNECT => "LWMQTT_NETWORK_FAILED_CONNECT"
         | LWMQTT_NETWORK_TIMEOUT => "LWMQTT_NETWORK_TIMEOUT"
         | LWMQTT_NETWORK_FAILED_READ => "LWMQTT_NETWORK_FAILED_READ"
         | LWMQTT_NETWORK_FAILED_WRITE => "LWMQTT_NETWORK_FAILED_WRITE"
         | LWMQTT_REMAINING_LENGTH_OVERFLOW => "LWMQTT_REMAINING_LENGTH_OVERFLOW"
         | LWMQTT_REMAINING_LENGTH_MISMATCH => "LWMQTT_REMAINING_LENGTH_MISMATCH"
         | LWMQTT_MISSING_OR_WRONG_PACKET => "LWMQTT_MISSING_OR_WRONG_PACKET"
         | LWMQTT_CONNECTION_DENIED => "LWMQTT_CONNECTION_DENIED"
         | LWMQTT_FAILED_SUBSCRIPTION => "LWMQTT_FAILED_SUBSCRIPTION"
         | LWMQTT_SUBACK_ARRAY_OVERFLOW => "LWMQTT_SUBACK_ARRAY_OVERFLOW"
         | LWMQTT_PONG_TIMEOUT => "LWMQTT_PONG_TIMEOUT"
         | lwmqtt_err_unlisted => "Unknown error"
         end)%string).

(** ** Further runs and derived notions *)

(** Operations that dereference [mqttClient]. *)
Definition needs_client (op : Op) : bool :=
  match op with
  | OpSetup _ _ _ | OpCleanup
  | OpSetLogConnect _ | OpSetUseLts _
  | OpSetMessageCallback _ | OpSetCommandCallback _ | OpSetConfigCallback _
  | OpOnMessageReceived _ _ | OpIsNetworkConnected | OpLinkDown => false
  | _ => true
  end.

(** A series of operations, and a series of ticks. *)
Fixpoint run_ops (ops : list Op) : M unit :=
  match ops with
  | [] => ret tt
  | op :: rest => run_op op;; run_ops rest
  end.

Fixpoint ticks (los : list loop_obs) : M unit :=
  match los with
  | [] => ret tt
  | lo :: rest => loop lo;; ticks rest
  end.

(** [random(EXP_BACKOFF_JITTER_MS)] yields a value from 0 to 499. *)
Definition jitter_in_range (o : connect_obs) : Prop :=
  0 <= co_jitter o < EXP_BACKOFF_JITTER_MS.

Definition op_jitter_in_range (op : Op) : Prop :=
  match op with
  | OpConnect _ _ o => jitter_in_range o
  | OpLoop lo => jitter_in_range (lo_conn lo)
  | _ => True
  end.

(** The largest value the policy can give [backoff_ms]: the last doubling
    below MAX, with the largest jitter. *)
Definition BACKOFF_CEILING : Z :=
  (EXP_BACKOFF_MAX_MS - 1) * EXP_BACKOFF_FACTOR + (EXP_BACKOFF_JITTER_MS - 1).

(** Two states of the device with the same identifiers and topics. *)
Definition same_identity (d d' : CloudIoTCoreDevice) : Prop :=
  getClientId d' = getClientId d /\ getDeviceId d' = getDeviceId d /\
  getEventsTopic d' = getEventsTopic d /\ getStateTopic d' = getStateTopic d /\
  getCommandsTopic d' = getCommandsTopic d /\ getConfigTopic d' = getConfigTopic d.

(** The device keeps its identity and its token generation does not go
    back. *)
Definition device_frame (w w' : World) : Prop :=
  same_identity (device w) (device w') /\
  (getJWT (device w) <= getJWT (device w'))%nat.

(** The registrations made by the application: the three handlers and the
    announce flag. *)
Definition registrations (w : World)
  : option MQTTClientCallbackSimple * option MQTTClientCallbackSimple *
    option MQTTClientCallbackSimple * bool :=
  (commandCB w, configCB w, messageCB w, logConnect w).

Definition registrations_frame (w w' : World) : Prop :=
  registrations w' = registrations w.

(** The handler [onMessageReceived] selects for a topic. *)
Definition selected_handler (w : World) (topic : string)
  : option MQTTClientCallbackSimple :=
  if startsWith (getCommandsTopic (device w)) topic then commandCB w
  else if startsWith (getConfigTopic (device w)) topic then configCB w
  else messageCB w.

(** A publish that is not retained and goes to the state topic or under the
    events topic of device [d]; any event that is not a publish. *)
Definition publish_well_targeted (d : CloudIoTCoreDevice) (e : Event) : Prop :=
  match e with
  | EvPublish topic _ retained _ =>
      retained = false /\
      (topic = getStateTopic d \/ String.prefix (getEventsTopic d) topic = true)
  | _ => True
  end.

(** Every run of [m] that returns has made only calls that satisfy [P]. *)
Definition emits {A} (P : Event -> Prop) (m : M A) : Prop :=
  forall w a w' e, m w = Some (a, w', e) -> Forall P e.

Definition not_a_publish (e : Event) : Prop := is_publish e = false.

(** Token generation of the handshake in a list of calls, if there is one. *)
Fixpoint handshake_token (evs : list Event) : option nat :=
  match evs with
  | [] => None
  | EvMqttConnect _ jwt _ :: _ => Some jwt
  | _ :: rest => handshake_token rest
  end.

(** The sample session with its three handlers registered. *)
Definition sample_with_handlers : World :=
  set_messageCB (Some 30%nat)
    (set_configCB (Some 20%nat) (set_commandCB (Some 10%nat) sample_connected)).

(** A rejected attempt with the largest jitter. *)
Definition obs_not_authorized_jitter : connect_obs :=
  mkConnectObs 5000 3600000 false false LWMQTT_NOT_AUTHORIZED 499 5200.

(** The device is the very same. *)
Definition device_same (w w' : World) : Prop := device w' = device w.

(** Number of tokens a connect attempt mints: one if the expiry test
    holds, one more if the attempt fails on an authentication code. *)
Definition tokens_minted (o : connect_obs) : nat :=
  (if jwt_expiring (co_now o) (co_exp o) then 1 else 0) +
  (if negb (attempt_succeeds o) && is_auth_failure (co_rc o) then 1 else 0).

(** [backoff_ms] is 0 (not backing off) or between MIN and the ceiling,
    and [backoff_until_millis] fits the counter. *)
Definition backoff_in_bounds (w : World) : Prop :=
  (backoff_ms w = 0 \/ EXP_BACKOFF_MIN_MS <= backoff_ms w <= BACKOFF_CEILING) /\
  is_ulong (backoff_until_millis w).

(** The backoff fields are the same. *)
Definition backoff_same (w w' : World) : Prop :=
  backoff_ms w' = backoff_ms w /\
  backoff_until_millis w' = backoff_until_millis w.

(** A tick past the margin whose connect is rejected. *)
Definition tick_refresh_rejected : loop_obs :=
  mkLoopObs 3540001 3600000 true true
    (mkConnectObs 3540021 3600000 false false LWMQTT_SERVER_UNAVAILABLE 250 3541000)
    [].

(** Values of [backoff_ms] along a run of failures that starts at [b] and
    draws the jitters [js]. *)
Fixpoint backoff_run (b : Z) (js : list Z) : list Z :=
  match js with
  | [] => []
  | j :: rest => next_backoff b j :: backoff_run (next_backoff b j) rest
  end.

(** A tick 60001 ms before the counter wraps, on a token that expires
    7296 ms before the wrap; the connect it triggers reads the clock 5 ms
    later, the same expiry, and succeeds. *)
Definition tick_wrap_between : loop_obs :=
  mkLoopObs 4294907295 4294960000 true true
    (mkConnectObs 4294907300 4294960000 true true LWMQTT_CONNECTION_ACCEPTED 0
       4294907400) [].

(** * Properties *)

(** ** Strings *)

Lemma startsWith_prefix (s s2 : string) : startsWith s s2 = String.prefix s2 s.
Proof.
  unfold startsWith. revert s.
  induction s2 as [|a s2 IH]; intros s.
  - destruct s; reflexivity.
  - destruct s as [|b s].
    + reflexivity.
    + specialize (IH s). simpl String.length.
      change (S (String.length s) <? S (String.length s2))%nat
        with (String.length s <? String.length s2)%nat.
      simpl.
      destruct (String.length s <? String.length s2)%nat eqn:E.
      * destruct (Ascii.ascii_dec a b); auto.
      * destruct (Ascii.ascii_dec a b) as [->|n].
        -- rewrite Ascii.eqb_refl. exact IH.
        -- destruct (Ascii.eqb_spec b a); congruence.
Qed.

(** ** Dispatcher *)

Lemma onMessageReceived_run (w : World) (topic payload : string) :
  onMessageReceived topic payload w = Some (tt, w, routed_calls w topic payload).
Proof.
  unfold onMessageReceived, routed_calls, bind, gets, emit, ret.
  rewrite !startsWith_prefix.
  destruct (String.prefix topic (getCommandsTopic (device w)));
    [destruct (commandCB w)|
     destruct (String.prefix topic (getConfigTopic (device w)));
     [destruct (configCB w)|destruct (messageCB w)]];
    reflexivity.
Qed.

Lemma routed_calls_callbacks (w : World) (topic payload : string) (e : Event) :
  In e (routed_calls w topic payload) -> is_callback e = true.
Proof.
  unfold routed_calls, invoke_if_registered.
  destruct (String.prefix topic (getCommandsTopic (device w)));
    [destruct (commandCB w)|
     destruct (String.prefix topic (getConfigTopic (device w)));
     [destruct (configCB w)|destruct (messageCB w)]];
    simpl; intuition (subst; reflexivity).
Qed.

(** C4. [onMessageReceived] never fails, leaves the session unchanged and
    routes the message by the first test that passes: when the commands
    topic starts with the arrived topic, to the command handler if there is
    one (no call otherwise); else when the config topic starts with the
    arrived topic, to the config handler if there is one (no call
    otherwise); else to the generic handler if there is one (no call
    otherwise). The calls made are handler calls only, at most one, and
    exactly one when the selected handler is registered. The test is
    "registered topic starts with arrived topic". *)
Theorem onMessageReceived_routing (w : World) (topic payload : string) :
  let d := device w in
  let selected :=
    if startsWith (getCommandsTopic d) topic then commandCB w
    else if startsWith (getConfigTopic d) topic then configCB w
    else messageCB w in
  onMessageReceived topic payload w =
    Some (tt, w,
          match selected with
          | Some f => [EvCallback f topic payload]
          | None => []
          end) /\
  (forall s t, startsWith s t = true <-> exists rest, s = (t ++ rest)%string).
Proof.
  intros d selected; subst d selected. split.
  - rewrite onMessageReceived_run. unfold routed_calls, invoke_if_registered.
    rewrite !startsWith_prefix.
    destruct (String.prefix topic (getCommandsTopic (device w)));
      [|destruct (String.prefix topic (getConfigTopic (device w)))];
      reflexivity.
  - intros s t. rewrite startsWith_prefix. split.
    + intros H. apply prefix_correct in H.
      exists (substring (String.length t) (String.length s - String.length t) s).
      revert s H. induction t as [|a t IH]; intros s H.
      * simpl. rewrite Nat.sub_0_r. clear H.
        induction s as [|b s IHs]; simpl; [reflexivity|].
        destruct s; simpl in *; congruence.
      * destruct s as [|b s]; simpl in H; [discriminate|].
        injection H as -> H. simpl. f_equal. apply IH, H.
    + intros [rest ->]. apply prefix_correct.
      induction t as [|a t IH]; simpl.
      * destruct rest; reflexivity.
      * f_equal. exact IH.
Qed.

(** ** Connect: the two outcomes *)

Ltac unfold_methods :=
  unfold connect, loop, disconnect, cleanup, onConnect, regenerate_on_auth_failure,
    arm_backoff, publishState, publishTelemetry_sub, mq_loop, mq_subscribe,
    mq_publish, mq_connect, mq_disconnect, mq_begin, mq_is_connected,
    mq_get_returnCode, update_client, with_client, createJWT, delete_object,
    new_object, bind, ret, gets, modify, emit, crash.

Ltac unfold_methods_in H :=
  unfold connect, loop, disconnect, cleanup, onConnect, regenerate_on_auth_failure,
    arm_backoff, publishState, publishTelemetry_sub, mq_loop, mq_subscribe,
    mq_publish, mq_connect, mq_disconnect, mq_begin, mq_is_connected,
    mq_get_returnCode, update_client, with_client, createJWT, delete_object,
    new_object, bind, ret, gets, modify, emit, crash in H.


Lemma next_backoff_fits_int (b jitter : Z) :
  - 2 ^ 31 <= b < 2 ^ 31 ->
  0 <= jitter < EXP_BACKOFF_JITTER_MS ->
  - 2 ^ 31 <= next_backoff b jitter < 2 ^ 31 /\
  (EXP_BACKOFF_MIN_MS <= b < EXP_BACKOFF_MAX_MS ->
   b * EXP_BACKOFF_FACTOR + jitter < 2 ^ 31).
Proof.
  unfold next_backoff, EXP_BACKOFF_MIN_MS, EXP_BACKOFF_MAX_MS,
    EXP_BACKOFF_FACTOR, EXP_BACKOFF_JITTER_MS.
  intros Hb Hj.
  destruct (Z.ltb_spec b 1000); [lia|].
  destruct (Z.ltb_spec b 32000); lia.
Qed.

Lemma regenerate_on_auth_failure_run (w : World) (c : MQTTClientWithCookie) :
  mqttClient w = Some c ->
  regenerate_on_auth_failure w =
  if is_auth_failure (mq_returnCode c)
  then Some (tt, set_device (next_token (device w)) w, [EvCreateJWT])
  else Some (tt, w, []).
Proof.
  intros Hc. unfold_methods. rewrite Hc.
  destruct (mq_returnCode c); reflexivity.
Qed.

Lemma connect_success_run (auto_reconnect skip : bool) (o : connect_obs)
    (w : World) (c : MQTTClientWithCookie) :
  mqttClient w = Some c ->
  attempt_succeeds o = true ->
  connect auto_reconnect skip o w =
  Some (true,
        set_backoff_ms 0 (after_handshake o c w),
        refresh_events o ++
        [EvMqttConnect (getClientId (device w)) (jwt_at_connect w o) skip;
         EvSubscribe (getConfigTopic (device w)) 1;
         EvSubscribe (getCommandsTopic (device w)) 0] ++
        (if logConnect w
         then [EvPublish (getStateTopic (device w)) "connected" false 0;
               EvPublish (getEventsTopic (device w) ++ "/events")%string
                 (getDeviceId (device w) ++ "-connected")%string false 0]
         else [])).
Proof.
  intros Hc Hok. unfold attempt_succeeds in Hok.
  apply andb_true_iff in Hok as [Hr Ha].
  destruct w; simpl in Hc; subst.
  unfold_methods.
  unfold after_handshake, after_refresh, refresh_events, jwt_at_connect,
    attempt_succeeds.
  rewrite Hr, Ha. simpl.
  destruct (jwt_expiring (co_now o) (co_exp o)); simpl;
    destruct logConnect0; reflexivity.
Qed.

Lemma connect_failure_run (auto_reconnect skip : bool) (o : connect_obs)
    (w : World) (c : MQTTClientWithCookie) :
  mqttClient w = Some c ->
  attempt_succeeds o = false ->
  connect auto_reconnect skip o w =
  Some (false,
        set_backoff_until_millis
          (to_ulong (co_now_arm o + next_backoff (backoff_ms w) (co_jitter o)))
          (set_backoff_ms (next_backoff (backoff_ms w) (co_jitter o))
             (after_auth_check o (after_handshake o c w))),
        refresh_events o ++
        EvMqttConnect (getClientId (device w)) (jwt_at_connect w o) skip ::
        auth_events o ++
        [EvBackoffArmed
           (to_ulong (co_now_arm o + next_backoff (backoff_ms w) (co_jitter o)))]).
Proof.
  intros Hc Hok.
  destruct w; simpl in Hc; subst.
  unfold connect, after_auth_check, auth_events.
  unfold after_handshake, after_refresh, refresh_events, jwt_at_connect.
  rewrite Hok. unfold attempt_succeeds in Hok.
  unfold bind at 1 2 3 4 5.
  destruct (jwt_expiring (co_now o) (co_exp o)); simpl;
    unfold_methods; unfold next_backoff; simpl;
    destruct (co_result o); simpl in *; rewrite ?Hok; simpl;
    destruct (co_rc o); simpl;
    (destruct (backoff_ms0 <? EXP_BACKOFF_MIN_MS); simpl;
     [|destruct (backoff_ms0 <? EXP_BACKOFF_MAX_MS); simpl]);
    reflexivity.
Qed.

Lemma connect_run (auto_reconnect skip : bool) (o : connect_obs)
    (w : World) (c : MQTTClientWithCookie) :
  mqttClient w = Some c ->
  connect auto_reconnect skip o w =
  Some (attempt_succeeds o, connect_world o c w, connect_events skip o w).
Proof.
  intros Hc. unfold connect_world, connect_events, announce_events.
  destruct (attempt_succeeds o) eqn:E.
  - rewrite (connect_success_run _ _ _ _ _ Hc E). reflexivity.
  - rewrite (connect_failure_run _ _ _ _ _ Hc E). reflexivity.
Qed.

Lemma connect_world_client (o : connect_obs) (c : MQTTClientWithCookie) (w : World) :
  mqttClient (connect_world o c w) =
  Some (set_returnCode (co_rc o) (set_connected (attempt_succeeds o) c)).
Proof.
  unfold connect_world, after_auth_check, after_handshake.
  destruct (attempt_succeeds o); [reflexivity|].
  destruct (is_auth_failure (co_rc o)); reflexivity.
Qed.

Lemma connect_world_autoReconnect (o : connect_obs) (c : MQTTClientWithCookie)
    (w : World) :
  autoReconnect (connect_world o c w) = true.
Proof.
  unfold connect_world, after_auth_check, after_handshake, after_refresh.
  destruct (attempt_succeeds o), (is_auth_failure (co_rc o)),
    (jwt_expiring (co_now o) (co_exp o)); reflexivity.
Qed.

Lemma connect_world_backoff_ms (o : connect_obs) (c : MQTTClientWithCookie)
    (w : World) :
  backoff_ms (connect_world o c w) =
  if attempt_succeeds o then 0 else next_backoff (backoff_ms w) (co_jitter o).
Proof.
  unfold connect_world. destruct (attempt_succeeds o); reflexivity.
Qed.

Lemma connect_world_backoff_until (o : connect_obs) (c : MQTTClientWithCookie)
    (w : World) :
  backoff_until_millis (connect_world o c w) =
  if attempt_succeeds o then backoff_until_millis w
  else to_ulong (co_now_arm o + next_backoff (backoff_ms w) (co_jitter o)).
Proof.
  unfold connect_world, after_handshake, after_refresh.
  destruct (attempt_succeeds o); [|reflexivity].
  destruct (jwt_expiring (co_now o) (co_exp o)); reflexivity.
Qed.

(** ** The message pump *)

Lemma deliver_run (c : MQTTClientWithCookie) (inbox : list (string * string))
    (w : World) :
  deliver c inbox w =
  Some (tt, w,
        if mq_cookie c
        then flat_map (fun m => routed_calls w (c_str (fst m)) (c_str (snd m)))
               inbox
        else []).
Proof.
  induction inbox as [|[topic payload] rest IH]; simpl.
  - destruct (mq_cookie c); reflexivity.
  - unfold bind, gciot_onMessageAdv.
    destruct (mq_cookie c).
    + rewrite onMessageReceived_run, IH. reflexivity.
    + unfold ret. rewrite IH. reflexivity.
Qed.

Lemma mq_loop_run (inbox : list (string * string)) (w : World)
    (c : MQTTClientWithCookie) :
  mqttClient w = Some c ->
  mq_loop inbox w = Some (tt, w, EvMqttLoop :: pumped_calls w c inbox).
Proof.
  intros Hc. unfold mq_loop, with_client, bind, emit, pumped_calls. rewrite Hc.
  destruct (mq_connected c); simpl.
  - rewrite deliver_run. reflexivity.
  - reflexivity.
Qed.

Lemma pumped_calls_callbacks (w : World) (c : MQTTClientWithCookie)
    (inbox : list (string * string)) (e : Event) :
  In e (pumped_calls w c inbox) -> is_callback e = true.
Proof.
  unfold pumped_calls. destruct (mq_connected c && mq_cookie c); [|intros []].
  rewrite in_flat_map. intros [m [_ H]]. eapply routed_calls_callbacks, H.
Qed.

(** ** The tick: its three cases *)

Lemma bind_run {A B} (m : M A) (k : A -> M B) (w w1 : World) (a : A)
    (e1 : list Event) :
  m w = Some (a, w1, e1) ->
  bind m k w =
  match k a w1 with
  | Some (b, w2, e2) => Some (b, w2, e1 ++ e2)
  | None => None
  end.
Proof. intros H. unfold bind. rewrite H. reflexivity. Qed.

Lemma mq_is_connected_run (w : World) (c : MQTTClientWithCookie) :
  mqttClient w = Some c -> mq_is_connected w = Some (mq_connected c, w, []).
Proof. intros H. unfold mq_is_connected, with_client, ret. rewrite H. reflexivity. Qed.

Lemma mq_disconnect_run (ok : bool) (w : World) (c : MQTTClientWithCookie) :
  mqttClient w = Some c ->
  mq_disconnect ok w =
  Some (mq_connected c && ok, set_mqttClient (Some (set_connected false c)) w,
        [EvMqttDisconnect]).
Proof. intros H. unfold_methods. rewrite !H. reflexivity. Qed.

Lemma connect_events_client (skip : bool) (o : connect_obs)
    (v : option MQTTClientWithCookie) (w : World) :
  connect_events skip o (set_mqttClient v w) = connect_events skip o w.
Proof. reflexivity. Qed.

(** The tick finds the client connected and the token about to expire. *)
Lemma loop_refresh_run (lo : loop_obs) (w : World) (c : MQTTClientWithCookie) :
  mqttClient w = Some c ->
  mq_connected c = true ->
  jwt_expiring (lo_now lo) (lo_exp lo) = true ->
  let c0 := set_connected false c in
  let w1 := connect_world (lo_conn lo) c0 (set_mqttClient (Some c0) w) in
  let c1 := set_returnCode (co_rc (lo_conn lo))
              (set_connected (attempt_succeeds (lo_conn lo)) c0) in
  loop lo w =
  Some (tt, w1,
        EvMqttDisconnect :: connect_events false (lo_conn lo) w ++
        EvMqttLoop :: pumped_calls w1 c1 (lo_inbox lo)).
Proof.
  intros Hc Hup Hexp c0 w1 c1.
  assert (Hc0 : mqttClient (set_mqttClient (Some c0) w) = Some c0) by reflexivity.
  pose proof (connect_run (autoReconnect w) false (lo_conn lo) _ _ Hc0) as Hrun.
  pose proof (mq_loop_run (lo_inbox lo) w1 c1 (connect_world_client _ _ _)) as Hpump.
  unfold loop.
  rewrite (bind_run _ _ _ _ _ _ (mq_is_connected_run _ _ Hc)).
  rewrite Hup, Hexp. simpl andb. cbv iota.
  erewrite bind_run.
  2:{ rewrite (bind_run _ _ _ _ _ _ (mq_disconnect_run _ _ _ Hc)).
      unfold bind at 1. unfold gets at 1.
      change (autoReconnect (set_mqttClient (Some (set_connected false c)) w))
        with (autoReconnect w).
      rewrite (bind_run _ _ _ _ _ _ Hrun). unfold ret. reflexivity. }
  fold w1. rewrite Hpump. simpl. rewrite ?app_nil_r.
  reflexivity.
Qed.

(** The tick finds the client connected and the token fresh, or finds it
    disconnected: the first branch is not taken. *)
Lemma loop_no_refresh_run (lo : loop_obs) (w : World) (c : MQTTClientWithCookie) :
  mqttClient w = Some c ->
  mq_connected c && jwt_expiring (lo_now lo) (lo_exp lo) = false ->
  let retry :=
    autoReconnect w && negb (mq_connected c) &&
    backoff_elapsed (lo_now lo) (backoff_until_millis w) && lo_net lo in
  let w1 := if retry then connect_world (lo_conn lo) c w else w in
  let c1 := if retry
            then set_returnCode (co_rc (lo_conn lo))
                   (set_connected (attempt_succeeds (lo_conn lo)) c)
            else c in
  loop lo w =
  Some (tt, w1,
        (if retry then connect_events false (lo_conn lo) w else []) ++
        EvMqttLoop :: pumped_calls w1 c1 (lo_inbox lo)).
Proof.
  intros Hc Hno retry w1 c1.
  pose proof (connect_run true false (lo_conn lo) _ _ Hc) as Hrun.
  assert (Hc1 : mqttClient w1 = Some c1).
  { unfold w1, c1. destruct retry; [apply connect_world_client|exact Hc]. }
  pose proof (mq_loop_run (lo_inbox lo) w1 c1 Hc1) as Hpump.
  unfold loop.
  rewrite (bind_run _ _ _ _ _ _ (mq_is_connected_run _ _ Hc)).
  rewrite Hno. cbv iota.
  erewrite (bind_run _ _ w w1 tt (if retry then _ else [])).
  2:{ unfold bind at 1. unfold gets at 1.
      rewrite (bind_run _ _ _ _ _ _ (mq_is_connected_run _ _ Hc)).
      unfold bind at 1. unfold gets at 1.
      unfold w1, retry.
      destruct (autoReconnect w && negb (mq_connected c) &&
                backoff_elapsed (lo_now lo) (backoff_until_millis w)); simpl.
      - destruct (lo_net lo); simpl.
        + rewrite (bind_run _ _ _ _ _ _ Hrun). unfold ret.
          rewrite !app_nil_r. reflexivity.
        + reflexivity.
      - reflexivity. }
  rewrite Hpump. simpl. reflexivity.
Qed.

Lemma sample_session_client : mqttClient sample_session = Some sample_client.
Proof. reflexivity. Qed.

Lemma sample_connected_has_client :
  mqttClient sample_connected = Some sample_connected_client.
Proof. reflexivity. Qed.

Lemma connect_events_one_handshake (skip : bool) (o : connect_obs) (w : World) :
  existsb is_mqtt_connect (connect_events skip o w) = true.
Proof.
  unfold connect_events, refresh_events.
  destruct (jwt_expiring (co_now o) (co_exp o)); reflexivity.
Qed.

Lemma pumped_calls_no_handshake (w : World) (c : MQTTClientWithCookie)
    (inbox : list (string * string)) :
  existsb is_mqtt_connect (pumped_calls w c inbox) = false.
Proof.
  destruct (existsb is_mqtt_connect (pumped_calls w c inbox)) eqn:E; [|reflexivity].
  apply existsb_exists in E as [e [Hin He]].
  apply pumped_calls_callbacks in Hin. destruct e; discriminate.
Qed.

(** ** Successful connect *)

(** C6. A connect whose handshake succeeds and whose client reports
    connected returns true and issues, after the handshake, exactly two
    subscriptions, the config topic at QoS 1 then the commands topic at
    QoS 0, followed by one state publish and one telemetry publish when
    [logConnect] is true and by no publish when it is false. *)
Theorem connect_success_side_effects (auto_reconnect skip : bool)
    (o : connect_obs) (w : World) (c : MQTTClientWithCookie) :
  mqttClient w = Some c ->
  co_result o = true ->
  co_alive o = true ->
  exists w' evs,
    connect auto_reconnect skip o w = Some (true, w', evs) /\
    evs = refresh_events o ++
          EvMqttConnect (getClientId (device w)) (jwt_at_connect w o) skip ::
          EvSubscribe (getConfigTopic (device w)) 1 ::
          EvSubscribe (getCommandsTopic (device w)) 0 ::
          announce_events w /\
    filter is_subscribe evs =
      [EvSubscribe (getConfigTopic (device w)) 1;
       EvSubscribe (getCommandsTopic (device w)) 0] /\
    filter is_publish evs =
      (if logConnect w
       then [EvPublish (getStateTopic (device w)) "connected" false 0;
             EvPublish (getEventsTopic (device w) ++ "/events")%string
               (getDeviceId (device w) ++ "-connected")%string false 0]
       else []).
Proof.
  intros Hc Hr Ha.
  assert (Hok : attempt_succeeds o = true)
    by (unfold attempt_succeeds; rewrite Hr, Ha; reflexivity).
  rewrite (connect_run _ _ _ _ _ Hc).
  unfold connect_world, connect_events. rewrite Hok.
  eexists; eexists. split; [reflexivity|]. split; [reflexivity|].
  unfold refresh_events, announce_events.
  destruct (jwt_expiring (co_now o) (co_exp o)), (logConnect w);
    split; reflexivity.
Qed.

Lemma connect_success_side_effects_witness :
  exists w' evs,
    connect true false obs_accepted sample_session = Some (true, w', evs) /\
    evs = refresh_events obs_accepted ++
          EvMqttConnect (getClientId (device sample_session))
            (jwt_at_connect sample_session obs_accepted) false ::
          EvSubscribe (getConfigTopic (device sample_session)) 1 ::
          EvSubscribe (getCommandsTopic (device sample_session)) 0 ::
          announce_events sample_session /\
    filter is_subscribe evs =
      [EvSubscribe (getConfigTopic (device sample_session)) 1;
       EvSubscribe (getCommandsTopic (device sample_session)) 0] /\
    filter is_publish evs =
      (if logConnect sample_session
       then [EvPublish (getStateTopic (device sample_session)) "connected" false 0;
             EvPublish (getEventsTopic (device sample_session) ++ "/events")%string
               (getDeviceId (device sample_session) ++ "-connected")%string false 0]
       else []).
Proof.
  apply (connect_success_side_effects true false obs_accepted sample_session
           sample_client); reflexivity.
Defined.

(** ** The tick and the backoff window *)

(** C2. On a disconnected session the tick always returns, and it makes a
    connect attempt exactly when [autoReconnect] is set, the clock is past
    [backoff_until_millis] and the network link is up. Hence an attempt is
    made only when now >= backoff_until_millis, [autoReconnect] is true and
    [isNetworkConnected] holds, and never while now < backoff_until_millis. *)
Theorem loop_no_premature_reconnect (lo : loop_obs) (w : World)
    (c : MQTTClientWithCookie) :
  mqttClient w = Some c ->
  mq_connected c = false ->
  exists w' evs,
    loop lo w = Some (tt, w', evs) /\
    existsb is_mqtt_connect evs =
      autoReconnect w && backoff_elapsed (lo_now lo) (backoff_until_millis w)
      && lo_net lo /\
    (existsb is_mqtt_connect evs = true ->
       backoff_until_millis w <= lo_now lo /\
       autoReconnect w = true /\ lo_net lo = true) /\
    (lo_now lo < backoff_until_millis w -> existsb is_mqtt_connect evs = false).
Proof.
  intros Hc Hdown.
  assert (Hno : mq_connected c && jwt_expiring (lo_now lo) (lo_exp lo) = false)
    by (rewrite Hdown; reflexivity).
  pose proof (loop_no_refresh_run lo w c Hc Hno) as Hrun. cbv zeta in Hrun.
  rewrite Hdown in Hrun. rewrite andb_true_r in Hrun.
  rewrite Hrun. eexists; eexists. split; [reflexivity|].
  assert (Hchar :
    existsb is_mqtt_connect
      ((if autoReconnect w &&
           backoff_elapsed (lo_now lo) (backoff_until_millis w) && lo_net lo
        then connect_events false (lo_conn lo) w else []) ++
       EvMqttLoop ::
       pumped_calls
         (if autoReconnect w &&
             backoff_elapsed (lo_now lo) (backoff_until_millis w) && lo_net lo
          then connect_world (lo_conn lo) c w else w)
         (if autoReconnect w &&
             backoff_elapsed (lo_now lo) (backoff_until_millis w) && lo_net lo
          then set_returnCode (co_rc (lo_conn lo))
                 (set_connected (attempt_succeeds (lo_conn lo)) c)
          else c)
         (lo_inbox lo)) =
    autoReconnect w && backoff_elapsed (lo_now lo) (backoff_until_millis w)
    && lo_net lo).
  { rewrite existsb_app. simpl. rewrite pumped_calls_no_handshake.
    destruct (autoReconnect w &&
              backoff_elapsed (lo_now lo) (backoff_until_millis w) && lo_net lo).
    - rewrite connect_events_one_handshake. reflexivity.
    - reflexivity. }
  split; [exact Hchar|]. rewrite Hchar. unfold backoff_elapsed. split.
  - intros H. apply andb_true_iff in H as [H Hnet].
    apply andb_true_iff in H as [Har Hel].
    apply Z.gtb_lt in Hel. repeat split; [lia|assumption|assumption].
  - intros Hlt.
    assert (E : (lo_now lo >? backoff_until_millis w) = false).
    { destruct (lo_now lo >? backoff_until_millis w) eqn:E; [|reflexivity].
      apply Z.gtb_lt in E. lia. }
    rewrite E, andb_false_r. reflexivity.
Qed.

Lemma loop_no_premature_reconnect_witness :
  exists w' evs,
    loop tick_before_deadline sample_backing_off = Some (tt, w', evs) /\
    existsb is_mqtt_connect evs =
      autoReconnect sample_backing_off &&
      backoff_elapsed (lo_now tick_before_deadline)
        (backoff_until_millis sample_backing_off)
      && lo_net tick_before_deadline /\
    (existsb is_mqtt_connect evs = true ->
       backoff_until_millis sample_backing_off <= lo_now tick_before_deadline /\
       autoReconnect sample_backing_off = true /\ lo_net tick_before_deadline = true) /\
    (lo_now tick_before_deadline < backoff_until_millis sample_backing_off ->
       existsb is_mqtt_connect evs = false).
Proof.
  apply (loop_no_premature_reconnect tick_before_deadline sample_backing_off
           sample_rejected_client); reflexivity.
Defined.

(** ** Failed connect with an authentication return code *)

(** C5. When a connect attempt fails and the return code is bad user name
    or password, or not authorized, the code makes exactly one [createJWT]
    call after the handshake, and makes it before it arms the backoff
    window: what connect does after the handshake is that call, then the
    assignment of [backoff_until_millis], and nothing else. The window is
    armed as for any other failure ([backoff_until_millis] is the arming
    time plus the new [backoff_ms]), the device holds a new token, and a
    later tick whose clock has not passed [backoff_until_millis] makes no
    connect attempt. *)
Theorem auth_failure_regenerates_once (auto_reconnect skip : bool)
    (o : connect_obs) (w : World) (c : MQTTClientWithCookie) :
  mqttClient w = Some c ->
  attempt_succeeds o = false ->
  co_rc o = LWMQTT_BAD_USERNAME_OR_PASSWORD \/ co_rc o = LWMQTT_NOT_AUTHORIZED ->
  exists w',
    connect auto_reconnect skip o w =
      Some (false, w',
            refresh_events o ++
            [EvMqttConnect (getClientId (device w)) (jwt_at_connect w o) skip;
             EvCreateJWT;
             EvBackoffArmed (backoff_until_millis w')]) /\
    backoff_ms w' = next_backoff (backoff_ms w) (co_jitter o) /\
    backoff_until_millis w' = to_ulong (co_now_arm o + backoff_ms w') /\
    getJWT (device w') = S (jwt_at_connect w o) /\
    forall lo : loop_obs,
      lo_now lo <= backoff_until_millis w' ->
      exists w'' evs,
        loop lo w' = Some (tt, w'', evs) /\
        existsb is_mqtt_connect evs = false.
Proof.
  intros Hc Hfail Hrc.
  assert (Hauth : is_auth_failure (co_rc o) = true)
    by (destruct Hrc as [-> | ->]; reflexivity).
  pose proof (connect_run auto_reconnect skip o w c Hc) as Hrun.
  unfold connect_events, auth_events in Hrun.
  rewrite Hfail, Hauth in Hrun.
  assert (Hb : backoff_ms (connect_world o c w) =
               next_backoff (backoff_ms w) (co_jitter o))
    by (rewrite connect_world_backoff_ms, Hfail; reflexivity).
  assert (Hu : backoff_until_millis (connect_world o c w) =
               to_ulong (co_now_arm o + next_backoff (backoff_ms w) (co_jitter o)))
    by (rewrite connect_world_backoff_until, Hfail; reflexivity).
  exists (connect_world o c w).
  split; [rewrite Hu; exact Hrun|].
  split; [exact Hb|]. split; [rewrite Hb; exact Hu|].
  split.
  { unfold connect_world, after_auth_check, after_handshake, after_refresh,
      jwt_at_connect.
    rewrite Hfail, Hauth.
    destruct (jwt_expiring (co_now o) (co_exp o)); reflexivity. }
  intros lo Hlo.
  assert (Hc' : mqttClient (connect_world o c w) =
                Some (set_returnCode (co_rc o) (set_connected false c)))
    by (rewrite connect_world_client, Hfail; reflexivity).
  assert (Hno : mq_connected (set_returnCode (co_rc o) (set_connected false c)) &&
                jwt_expiring (lo_now lo) (lo_exp lo) = false) by reflexivity.
  pose proof (loop_no_refresh_run lo _ _ Hc' Hno) as Hloop. cbv zeta in Hloop.
  assert (Hel : backoff_elapsed (lo_now lo)
                  (backoff_until_millis (connect_world o c w)) = false).
  { unfold backoff_elapsed.
    destruct (lo_now lo >? backoff_until_millis (connect_world o c w)) eqn:E;
      [|reflexivity].
    apply Z.gtb_lt in E. lia. }
  rewrite Hel, andb_false_r in Hloop. cbn [andb app] in Hloop.
  rewrite Hloop. eexists; eexists. split; [reflexivity|].
  cbn [existsb is_mqtt_connect orb]. apply pumped_calls_no_handshake.
Qed.

Lemma auth_failure_regenerates_once_witness :
  exists w',
    connect true false obs_not_authorized sample_session =
      Some (false, w',
            [EvMqttConnect (getClientId sample_device) 0 false; EvCreateJWT;
             EvBackoffArmed 6200]) /\
    backoff_ms w' = 1000 /\
    backoff_until_millis w' = 6200.
Proof.
  destruct (auth_failure_regenerates_once true false obs_not_authorized
              sample_session sample_client)
    as (w' & Hrun & Hb & Hu & _).
  - reflexivity.
  - reflexivity.
  - right. reflexivity.
  - assert (Hu' : backoff_until_millis w' = 6200)
      by (rewrite Hu, Hb; reflexivity).
    exists w'. split; [rewrite Hu' in Hrun; exact Hrun|].
    split; [exact Hb|exact Hu'].
Defined.

(** ** Token refresh by the tick *)

(** C3 (as amended). When the tick finds the client connected and
    now + 60 s strictly greater than the expiry, the sum being taken in the
    32-bit counter, it disconnects the protocol client and calls connect at
    once, whatever [backoff_until_millis], [autoReconnect] and the network
    link are: the calls made start with the disconnect, then the token
    regeneration exactly when the expiry test of connect holds on the
    readings connect makes itself (its clock + 60 s, in the 32-bit counter,
    strictly greater than the expiry it reads), then the handshake, with no
    publish before it. That test holds whenever connect reads the same
    expiry and a clock that is not behind the tick's and whose sum with
    60 s stays below 2^32. *)
Theorem loop_refreshes_expiring_token (lo : loop_obs) (w : World)
    (c : MQTTClientWithCookie) :
  mqttClient w = Some c ->
  mq_connected c = true ->
  to_ulong (lo_now lo + 60000) > lo_exp lo ->
  exists w' rest,
    loop lo w =
      Some (tt, w',
            EvMqttDisconnect :: refresh_events (lo_conn lo) ++
            EvMqttConnect (getClientId (device w))
              (jwt_at_connect w (lo_conn lo)) false :: rest) /\
    existsb is_publish (EvMqttDisconnect :: refresh_events (lo_conn lo)) = false /\
    (to_ulong (co_now (lo_conn lo) + 60000) > co_exp (lo_conn lo) ->
     refresh_events (lo_conn lo) = [EvCreateJWT] /\
     jwt_at_connect w (lo_conn lo) = S (getJWT (device w))) /\
    (to_ulong (co_now (lo_conn lo) + 60000) <= co_exp (lo_conn lo) ->
     refresh_events (lo_conn lo) = [] /\
     jwt_at_connect w (lo_conn lo) = getJWT (device w)) /\
    (co_exp (lo_conn lo) = lo_exp lo ->
     0 <= lo_now lo <= co_now (lo_conn lo) ->
     co_now (lo_conn lo) + 60000 < ULONG_MODULUS ->
     refresh_events (lo_conn lo) = [EvCreateJWT] /\
     jwt_at_connect w (lo_conn lo) = S (getJWT (device w))).
Proof.
  intros Hc Hup Hexp.
  assert (Hexp' : jwt_expiring (lo_now lo) (lo_exp lo) = true)
    by (unfold jwt_expiring; apply Z.gtb_lt; lia).
  pose proof (loop_refresh_run lo w c Hc Hup Hexp') as Hrun. cbv zeta in Hrun.
  rewrite Hrun. unfold connect_events. rewrite <- app_assoc. simpl app.
  assert (Hyes : to_ulong (co_now (lo_conn lo) + 60000) > co_exp (lo_conn lo) ->
                 refresh_events (lo_conn lo) = [EvCreateJWT] /\
                 jwt_at_connect w (lo_conn lo) = S (getJWT (device w))).
  { intros H. unfold refresh_events, jwt_at_connect, jwt_expiring.
    assert (E : (to_ulong (co_now (lo_conn lo) + 60000) >? co_exp (lo_conn lo))
                = true) by (apply Z.gtb_lt; lia).
    rewrite E. split; reflexivity. }
  eexists; eexists. split; [reflexivity|]. split; [|split; [exact Hyes|split]].
  - unfold refresh_events.
    destruct (jwt_expiring (co_now (lo_conn lo)) (co_exp (lo_conn lo)));
      reflexivity.
  - intros H. unfold refresh_events, jwt_at_connect, jwt_expiring.
    assert (E : (to_ulong (co_now (lo_conn lo) + 60000) >? co_exp (lo_conn lo))
                = false) by (rewrite Z.gtb_ltb; apply Z.ltb_ge; lia).
    rewrite E. split; reflexivity.
  - intros Hsame Hclock Hnowrap. apply Hyes.
    unfold to_ulong in *.
    rewrite Z.mod_small by (unfold ULONG_MODULUS in *; lia).
    rewrite Z.mod_small in Hexp by (unfold ULONG_MODULUS in *; lia).
    lia.
Qed.

Lemma loop_refreshes_expiring_token_witness :
  exists w' rest,
    loop tick_past_margin sample_connected =
      Some (tt, w',
            EvMqttDisconnect :: EvCreateJWT ::
            EvMqttConnect (getClientId sample_device) 1 false :: rest).
Proof.
  destruct (loop_refreshes_expiring_token tick_past_margin sample_connected
              sample_connected_client)
    as (w' & rest & Hrun & _ & _).
  - reflexivity.
  - reflexivity.
  - reflexivity.
  - exists w', rest. exact Hrun.
Defined.

(** C3 (as stated) fails in two ways. On the boundary: the client is
    connected and now + 60 s equals the expiry, yet the tick neither
    disconnects nor connects; it only drives the protocol client. And on
    the refresh path the token need not be regenerated: the tick reads the
    clock 60001 ms before the counter wraps, connect reads it 5 ms later
    (it has not wrapped) and the same expiry, but its own sum wraps to 4,
    so the tick disconnects and connects with the old token, without any
    [createJWT]. *)
Lemma loop_refresh_boundary_counterexample :
  mqttClient sample_connected = Some sample_connected_client /\
  mq_connected sample_connected_client = true /\
  lo_now tick_at_margin + 60000 >= lo_exp tick_at_margin /\
  loop tick_at_margin sample_connected = Some (tt, sample_connected, [EvMqttLoop]) /\
  ~ (exists w' rest,
       loop tick_at_margin sample_connected =
       Some (tt, w', EvMqttDisconnect :: rest)) /\
  lo_now tick_wrap_between + 60000 >= lo_exp tick_wrap_between /\
  lo_now tick_wrap_between <= co_now (lo_conn tick_wrap_between) < ULONG_MODULUS /\
  co_exp (lo_conn tick_wrap_between) = lo_exp tick_wrap_between /\
  match loop tick_wrap_between sample_connected with
  | Some (_, _, evs) =>
      existsb is_mqtt_disconnect evs && existsb is_mqtt_connect evs &&
      negb (existsb is_createJWT evs) &&
      match handshake_token evs with
      | Some t => Nat.eqb t (getJWT (device sample_connected))
      | None => false
      end
  | None => false
  end = true.
Proof.
  split; [reflexivity|]. split; [reflexivity|].
  split; [vm_compute; discriminate|].
  assert (H : loop tick_at_margin sample_connected =
              Some (tt, sample_connected, [EvMqttLoop])) by reflexivity.
  split; [exact H|].
  split; [intros (w' & rest & H'); rewrite H in H'; discriminate|].
  split; [vm_compute; discriminate|].
  split; [vm_compute; split; [discriminate|reflexivity]|].
  split; [reflexivity|].
  vm_compute. reflexivity.
Qed.

(** ** The elapsed test and the wrap-around of the clock *)




(** ** Growth of the backoff *)

Lemma ladder_bounds (k : nat) :
  EXP_BACKOFF_MIN_MS <= ladder k <= EXP_BACKOFF_MAX_MS.
Proof.
  unfold ladder, EXP_BACKOFF_MIN_MS, EXP_BACKOFF_MAX_MS.
  assert (0 < 2 ^ Z.of_nat k) by (apply Z.pow_pos_nonneg; lia).
  lia.
Qed.

Lemma ladder_step (k : nat) :
  ladder (S k) = Z.min (ladder k * 2) EXP_BACKOFF_MAX_MS.
Proof.
  unfold ladder, EXP_BACKOFF_MIN_MS, EXP_BACKOFF_MAX_MS.
  rewrite Nat2Z.inj_succ, Z.pow_succ_r by lia.
  assert (0 < 2 ^ Z.of_nat k) by (apply Z.pow_pos_nonneg; lia).
  lia.
Qed.

Lemma ladder_below_cap (k : nat) :
  ladder k * 2 <= EXP_BACKOFF_MAX_MS \/ ladder k = EXP_BACKOFF_MAX_MS.
Proof.
  destruct (le_lt_dec 5 k) as [Hbig|Hsmall].
  - right. unfold ladder, EXP_BACKOFF_MIN_MS, EXP_BACKOFF_MAX_MS.
    assert (2 ^ 5 <= 2 ^ Z.of_nat k) by (apply Z.pow_le_mono_r; lia).
    change (2 ^ 5) with 32 in *. lia.
  - left. do 5 (destruct k as [|k]; [vm_compute; discriminate|]). lia.
Qed.

Lemma next_backoff_ladder (n : nat) :
  next_backoff (backoff_after n) 0 = backoff_after (S n).
Proof.
  destruct n as [|k]; [reflexivity|].
  cbn [backoff_after]. rewrite ladder_step.
  pose proof (ladder_bounds k) as [Hlo Hhi].
  pose proof (ladder_below_cap k) as Hcap.
  unfold next_backoff, EXP_BACKOFF_FACTOR.
  destruct (Z.ltb_spec (ladder k) EXP_BACKOFF_MIN_MS); [lia|].
  unfold EXP_BACKOFF_MAX_MS in *.
  destruct (Z.ltb_spec (ladder k) 32000); lia.
Qed.

Lemma connect_attempts_failures (calls : list (bool * bool * connect_obs)) :
  forall (w : World) (c : MQTTClientWithCookie) (n : nat),
    mqttClient w = Some c ->
    backoff_ms w = backoff_after n ->
    Forall (fun a => attempt_succeeds (snd a) = false /\ co_jitter (snd a) = 0)
      calls ->
    exists w' c' evs,
      connect_attempts calls w =
        Some (map backoff_after (seq (S n) (List.length calls)), w', evs) /\
      mqttClient w' = Some c' /\
      backoff_ms w' = backoff_after (n + List.length calls).
Proof.
  induction calls as [|[[ar skip] o] rest IH]; intros w c n Hc Hb Hall.
  - exists w, c, []. rewrite Nat.add_0_r. repeat split; assumption.
  - inversion Hall as [|a l [Hfail Hj] Hrest]; subst. simpl in Hfail, Hj.
    pose proof (connect_run ar skip o w c Hc) as Hrun.
    assert (Hb1 : backoff_ms (connect_world o c w) = backoff_after (S n)).
    { rewrite connect_world_backoff_ms, Hfail, Hj, Hb. apply next_backoff_ladder. }
    destruct (IH (connect_world o c w) _ (S n) (connect_world_client o c w) Hb1 Hrest)
      as (w' & c' & evs & Hrec & Hc' & Hb').
    exists w', c', (connect_events skip o w ++ evs).
    split; [|split; [exact Hc'|]].
    + cbn [connect_attempts].
      rewrite (bind_run _ _ _ _ _ _ Hrun).
      unfold bind at 1. unfold gets at 1. rewrite Hb1.
      rewrite (bind_run _ _ _ _ _ _ Hrec). unfold ret.
      cbn [List.length seq map]. rewrite !app_nil_r. reflexivity.
    + rewrite Hb'. cbn [List.length]. f_equal. lia.
Qed.

(** The run without jitter: from a session that is not backing off, a
    series of connect calls that all fail with every [random] draw 0 gives
    MIN, then twice the previous value capped at MAX; a successful connect
    made next resets [backoff_ms] to 0. *)
Lemma backoff_growth (calls : list (bool * bool * connect_obs))
    (w : World) (c : MQTTClientWithCookie)
    (auto_reconnect skip : bool) (o_ok : connect_obs) :
  mqttClient w = Some c ->
  backoff_ms w = 0 ->
  Forall (fun a => attempt_succeeds (snd a) = false /\ co_jitter (snd a) = 0)
    calls ->
  attempt_succeeds o_ok = true ->
  exists bs w' evs,
    connect_attempts calls w = Some (bs, w', evs) /\
    List.length bs = List.length calls /\
    (forall b, nth_error bs 0 = Some b -> b = EXP_BACKOFF_MIN_MS) /\
    (forall i prev b,
        nth_error bs i = Some prev ->
        nth_error bs (S i) = Some b ->
        EXP_BACKOFF_MIN_MS <= prev /\
        b = Z.min (prev * EXP_BACKOFF_FACTOR) EXP_BACKOFF_MAX_MS) /\
    (forall b, In b bs -> b <= EXP_BACKOFF_MAX_MS) /\
    exists w'' evs',
      connect auto_reconnect skip o_ok w' = Some (true, w'', evs') /\
      backoff_ms w'' = 0.
Proof.
  intros Hc Hb Hall Hok.
  destruct (connect_attempts_failures calls w c 0 Hc Hb Hall)
    as (w' & c' & evs & Hrun & Hc' & _).
  exists (map backoff_after (seq 1 (List.length calls))), w', evs.
  split; [exact Hrun|].
  split; [rewrite length_map, length_seq; reflexivity|].
  assert (Hnth : forall i b,
             nth_error (map backoff_after (seq 1 (List.length calls))) i = Some b ->
             b = ladder i).
  { intros i b. rewrite nth_error_map, nth_error_seq.
    destruct (i <? List.length calls)%nat; [|discriminate].
    cbn. intros [= <-]. reflexivity. }
  split; [intros b Hb0; apply Hnth in Hb0; subst b; reflexivity|].
  split.
  { intros i prev b Hprev Hnext.
    apply Hnth in Hprev. apply Hnth in Hnext. subst.
    split; [apply ladder_bounds|apply ladder_step]. }
  split.
  { intros b Hin. apply In_nth_error in Hin as [i Hi].
    apply Hnth in Hi. subst b. apply ladder_bounds. }
  rewrite (connect_run auto_reconnect skip o_ok w' c' Hc'). rewrite Hok.
  eexists; eexists. split; [reflexivity|].
  rewrite connect_world_backoff_ms, Hok. reflexivity.
Qed.

Lemma backoff_growth_witness :
  exists w' evs,
    connect_attempts (repeat (true, false, obs_unavailable 0) 7) sample_session =
      Some ([1000; 2000; 4000; 8000; 16000; 32000; 32000], w', evs) /\
    exists w'' evs',
      connect true false obs_accepted w' = Some (true, w'', evs') /\
      backoff_ms w'' = 0.
Proof.
  destruct (backoff_growth (repeat (true, false, obs_unavailable 0) 7)
              sample_session sample_client true false obs_accepted)
    as (bs & w' & evs & Hrun & _ & _ & _ & _ & Hreset).
  - reflexivity.
  - reflexivity.
  - repeat constructor.
  - reflexivity.
  - exists w', evs. split; [|exact Hreset].
    rewrite Hrun. f_equal. f_equal. f_equal.
    assert (E : connect_attempts (repeat (true, false, obs_unavailable 0) 7)
                  sample_session =
                Some ([1000; 2000; 4000; 8000; 16000; 32000; 32000],
                      result_world (connect_attempts
                                      (repeat (true, false, obs_unavailable 0) 7)
                                      sample_session) sample_session,
                      match connect_attempts
                              (repeat (true, false, obs_unavailable 0) 7)
                              sample_session with
                      | Some (_, _, e) => e
                      | None => []
                      end)) by (vm_compute; reflexivity).
    rewrite E in Hrun. congruence.
Defined.

(** ** The auto-reconnect flag *)

(** Rules to show that a method keeps a reflexive and transitive relation,
    step by step. *)
Section Keeps.

Variable R : World -> World -> Prop.
Hypothesis R_refl : forall w, R w w.
Hypothesis R_trans : forall w1 w2 w3, R w1 w2 -> R w2 w3 -> R w1 w3.

Lemma keeps_bind {A B} (m : M A) (k : A -> M B) :
  keeps R m -> (forall a, keeps R (k a)) -> keeps R (bind m k).
Proof.
  intros Hm Hk w b w2 e H. unfold bind in H.
  destruct (m w) as [[[a w1] e1]|] eqn:E1; [|discriminate].
  destruct (k a w1) as [[[b' w2'] e2]|] eqn:E2; [|discriminate].
  inversion H; subst. eapply R_trans; [eapply Hm, E1|eapply Hk, E2].
Qed.

Lemma keeps_ret {A} (a : A) : keeps R (ret a).
Proof. intros w a' w' e H. inversion H; subst. apply R_refl. Qed.

Lemma keeps_gets {A} (f : World -> A) : keeps R (gets f).
Proof. intros w a' w' e H. inversion H; subst. apply R_refl. Qed.

Lemma keeps_emit (ev : Event) : keeps R (emit ev).
Proof. intros w a' w' e H. inversion H; subst. apply R_refl. Qed.

Lemma keeps_crash {A} : keeps R (@crash A).
Proof. intros w a' w' e H. discriminate H. Qed.

Lemma keeps_modify (f : World -> World) :
  (forall w, R w (f w)) -> keeps R (modify f).
Proof. intros Hf w a' w' e H. inversion H; subst. apply Hf. Qed.

Lemma keeps_with_client {A} (f : MQTTClientWithCookie -> M A) :
  (forall c, keeps R (f c)) -> keeps R (with_client f).
Proof.
  intros Hf w a w' e H. unfold with_client in H.
  destruct (mqttClient w) as [c|]; [|discriminate]. eapply Hf, H.
Qed.

Lemma keeps_update_client (f : MQTTClientWithCookie -> MQTTClientWithCookie) :
  (forall w c, mqttClient w = Some c -> R w (set_mqttClient (Some (f c)) w)) ->
  keeps R (update_client f).
Proof.
  intros Hf w a w' e H. unfold update_client, with_client, modify in H.
  destruct (mqttClient w) as [c|] eqn:E; [|discriminate].
  inversion H; subst. apply Hf, E.
Qed.

Lemma keeps_new_object :
  (forall w h l, R w (set_next_handle h (set_live l w))) -> keeps R new_object.
Proof. intros Hf w a w' e H. inversion H; subst. apply Hf. Qed.

Lemma keeps_delete_object (h : handle) :
  (forall w l, R w (set_live l w)) -> keeps R (delete_object h).
Proof.
  intros Hf w a w' e H. unfold delete_object in H.
  destruct (in_dec Nat.eq_dec h (live w)); [|discriminate].
  inversion H; subst. apply Hf.
Qed.

End Keeps.

Lemma flag_frame_refl (w : World) : flag_frame w w.
Proof. split; auto. Qed.

Lemma flag_frame_trans (w1 w2 w3 : World) :
  flag_frame w1 w2 -> flag_frame w2 w3 -> flag_frame w1 w3.
Proof. intros [H1 H2] [H3 H4]. split; [congruence|auto]. Qed.

Ltac flag_frame_field :=
  let w := fresh "w" in
  intros w; intros; destruct w; unfold flag_frame, client_up in *; simpl in *;
  subst; simpl;
  (split; [reflexivity|intros Hup; try discriminate Hup; auto]).

Ltac keeps_flag_frame :=
  repeat first
    [ apply keeps_ret; exact flag_frame_refl
    | apply keeps_gets; exact flag_frame_refl
    | apply keeps_emit; exact flag_frame_refl
    | apply keeps_modify; flag_frame_field
    | apply keeps_new_object; flag_frame_field
    | apply keeps_delete_object; flag_frame_field
    | apply keeps_update_client; flag_frame_field
    | apply keeps_with_client; intro
    | apply keeps_bind; [exact flag_frame_trans| |intro]
    | match goal with
      | |- keeps _ (match ?x with _ => _ end) => destruct x
      end ].

Lemma mq_disconnect_keeps (ok : bool) : keeps flag_frame (mq_disconnect ok).
Proof. unfold mq_disconnect, mq_is_connected. keeps_flag_frame. Qed.

Lemma mq_publish_keeps (ok : bool) (topic payload : string) (retained : bool)
    (qos : Z) :
  keeps flag_frame (mq_publish ok topic payload retained qos).
Proof. unfold mq_publish, mq_is_connected. keeps_flag_frame. Qed.

Lemma setup_keeps (bufsize keepAlive_sec timeout_ms : Z) :
  keeps flag_frame (setup bufsize keepAlive_sec timeout_ms).
Proof. unfold setup, mq_begin. keeps_flag_frame. Qed.

Lemma cleanup_keeps : keeps flag_frame cleanup.
Proof.
  unfold cleanup. keeps_flag_frame; try apply mq_disconnect_keeps;
    keeps_flag_frame.
Qed.

Lemma onMessageReceived_keeps (topic payload : string) :
  keeps flag_frame (onMessageReceived topic payload).
Proof.
  intros w a w' e H. rewrite onMessageReceived_run in H.
  inversion H; subst. apply flag_frame_refl.
Qed.

Lemma link_down_keeps : keeps flag_frame link_down.
Proof.
  intros w a w' e H. unfold link_down in H.
  destruct (mqttClient w) as [c|] eqn:E; inversion H; subst.
  - destruct w; unfold flag_frame, client_up; simpl in *; subst; simpl.
    split; [reflexivity|discriminate].
  - apply flag_frame_refl.
Qed.

(** Operations other than connect, disconnect and the tick leave the flag
    alone and do not bring the client up. *)
Lemma run_op_other (op : Op) :
  match op with
  | OpConnect _ _ _ | OpDisconnect _ | OpLoop _ => False
  | _ => True
  end ->
  keeps flag_frame (run_op op).
Proof.
  intros Hop. destruct op; try contradiction; clear Hop; unfold run_op.
  all: try apply cleanup_keeps.
  all: try apply onMessageReceived_keeps.
  all: try apply link_down_keeps.
  all: unfold publishTelemetry, publishTelemetry_qos, publishTelemetry_raw,
    publishTelemetry_sub, publishTelemetry_sub_qos, publishTelemetry_sub_raw,
    publishState, publishState_raw, setLogConnect, setUseLts,
    setCommandCallback, setConfigCallback, setMessageCallback, connected,
    getLastConnectReturnCode, getLastConnectReturnCodeAsString,
    mq_is_connected, mq_get_returnCode.
  all: keeps_flag_frame;
    try apply setup_keeps; try apply mq_publish_keeps; keeps_flag_frame.
Qed.

Lemma connect_without_client (auto_reconnect skip : bool) (o : connect_obs)
    (w : World) :
  mqttClient w = None -> connect auto_reconnect skip o w = None.
Proof.
  intros H. destruct w; simpl in H; subst. unfold_methods. simpl.
  destruct (jwt_expiring (co_now o) (co_exp o)); reflexivity.
Qed.

Lemma disconnect_run (ok : bool) (w : World) :
  disconnect ok w =
  match mqttClient w with
  | Some c =>
      Some (mq_connected c && ok,
            set_mqttClient (Some (set_connected false c)) (set_autoReconnect false w),
            [EvMqttDisconnect])
  | None => None
  end.
Proof.
  destruct w. unfold_methods. simpl. destruct mqttClient0; reflexivity.
Qed.

Lemma loop_without_client (lo : loop_obs) (w : World) :
  mqttClient w = None -> loop lo w = None.
Proof.
  intros H. unfold loop, bind, mq_is_connected, with_client. rewrite H. reflexivity.
Qed.

Lemma flag_frame_keeps_invariant (w w' : World) :
  flag_frame w w' -> up_implies_autoReconnect w -> up_implies_autoReconnect w'.
Proof.
  intros [Hflag Hup] Hinv H'. rewrite Hflag. apply Hinv, Hup, H'.
Qed.

Lemma run_op_autoReconnect (op : Op) (w w' : World) (evs : list Event) :
  up_implies_autoReconnect w ->
  run_op op w = Some (tt, w', evs) ->
  match op with
  | OpConnect _ _ _ => autoReconnect w' = true
  | OpDisconnect _ => autoReconnect w' = false
  | _ => autoReconnect w' = autoReconnect w
  end /\
  up_implies_autoReconnect w'.
Proof.
  intros Hinv Hrun.
  assert (Hother :
            match op with
            | OpConnect _ _ _ | OpDisconnect _ | OpLoop _ => False
            | _ => True
            end ->
            autoReconnect w' = autoReconnect w /\ up_implies_autoReconnect w').
  { intros Hop. pose proof (run_op_other op Hop w tt w' evs Hrun) as Hf.
    split; [apply Hf|eapply flag_frame_keeps_invariant; eassumption]. }
  destruct op; try (apply Hother; exact I); clear Hother; unfold run_op in Hrun.
  - (* connect *)
    destruct (mqttClient w) as [c|] eqn:Hc.
    + rewrite (bind_run _ _ _ _ _ _ (connect_run _ _ _ _ _ Hc)) in Hrun.
      inversion Hrun; subst.
      pose proof (connect_world_autoReconnect o c w) as Har.
      split; [exact Har|intros _; exact Har].
    + unfold bind in Hrun. rewrite connect_without_client in Hrun by exact Hc.
      discriminate.
  - (* disconnect *)
    unfold bind in Hrun. rewrite disconnect_run in Hrun.
    destruct (mqttClient w) as [c|]; [|discriminate].
    inversion Hrun; subst. split; [reflexivity|].
    unfold up_implies_autoReconnect, client_up. simpl. discriminate.
  - (* loop *)
    destruct (mqttClient w) as [c|] eqn:Hc;
      [|rewrite loop_without_client in Hrun by exact Hc; discriminate].
    destruct (mq_connected c && jwt_expiring (lo_now lo) (lo_exp lo)) eqn:Hbranch.
    + apply andb_true_iff in Hbranch as [Hup Hexp].
      rewrite (loop_refresh_run lo w c Hc Hup Hexp) in Hrun.
      inversion Hrun; subst.
      pose proof (connect_world_autoReconnect (lo_conn lo) (set_connected false c)
                    (set_mqttClient (Some (set_connected false c)) w)) as Har.
      split; [|intros _; exact Har].
      rewrite Har. symmetry. apply Hinv. unfold client_up. rewrite Hc. exact Hup.
    + rewrite (loop_no_refresh_run lo w c Hc Hbranch) in Hrun.
      inversion Hrun as [[Hw He]]. clear Hrun He.
      destruct (autoReconnect w && negb (mq_connected c) &&
                backoff_elapsed (lo_now lo) (backoff_until_millis w) &&
                lo_net lo) eqn:Hretry.
      * pose proof (connect_world_autoReconnect (lo_conn lo) c w) as Har.
        split; [|intros _; exact Har].
        rewrite Har. symmetry.
        apply andb_true_iff in Hretry as [Hretry _].
        apply andb_true_iff in Hretry as [Hretry _].
        apply andb_true_iff in Hretry as [Hretry _]. exact Hretry.
      * split; [reflexivity|exact Hinv].
Qed.

Lemma reachable_up_implies_autoReconnect (dev : CloudIoTCoreDevice) (w : World) :
  reachable dev w -> up_implies_autoReconnect w.
Proof.
  induction 1 as [|w w' op evs _ IH Hrun].
  - unfold up_implies_autoReconnect, client_up. simpl. discriminate.
  - eapply run_op_autoReconnect; eassumption.
Qed.

Lemma sample_connected_reachable : reachable sample_device sample_connected.
Proof.
  apply reachable_step
    with (w := sample_session) (op := OpConnect true false obs_accepted)
         (evs := result_events (connect true false obs_accepted sample_session)).
  - apply reachable_step
      with (w := GCloudIoTMqtt sample_device) (op := OpSetup 512 180 1000)
           (evs := result_events (setup 512 180 1000 (GCloudIoTMqtt sample_device))).
    + apply reachable_new.
    + vm_compute. reflexivity.
  - vm_compute. reflexivity.
Qed.

(** ** Cleanup *)

Lemma cleanup_nothing_owned (w : World) :
  mqttClient w = None -> netClient w = None -> certList w = None ->
  cleanup w = Some (tt, w, []).
Proof.
  intros H1 H2 H3. destruct w; simpl in *; subst. reflexivity.
Qed.

Lemma released_nothing_owned (w : World) :
  owned w = [] -> released w = w.
Proof.
  unfold owned, released. destruct w; simpl.
  destruct mqttClient0, netClient0, certList0; simpl; try discriminate.
  reflexivity.
Qed.

Ltac resolve_delete :=
  match goal with
  | |- context [in_dec Nat.eq_dec ?h ?l] =>
      let Hn := fresh "Hn" in
      destruct (in_dec Nat.eq_dec h l) as [_|Hn];
      [|exfalso; apply Hn; repeat apply in_in_remove; intuition congruence]
  end.

Lemma cleanup_run (w : World) :
  owned_live w ->
  cleanup w =
  Some (tt, released w,
        match mqttClient w with Some _ => [EvMqttDisconnect] | None => [] end).
Proof.
  intros [Hnodup Hincl]. unfold owned, released in *.
  destruct w; simpl in *.
  destruct mqttClient0 as [c|], netClient0 as [n|], certList0 as [l|];
    simpl in *;
    repeat match goal with
    | H : NoDup (_ :: _) |- _ => inversion H; subst; clear H
    end;
    simpl in *;
    repeat match goal with
    | H : incl (_ :: _) _ |- _ => apply incl_cons_inv in H as [? H]
    end;
    unfold_methods; simpl;
    repeat (resolve_delete; simpl);
    reflexivity.
Qed.

Lemma released_live (w : World) (h : handle) :
  In h (owned w) -> ~ In h (live (released w)).
Proof.
  unfold owned, released. destruct w; simpl.
  destruct mqttClient0 as [c|], netClient0 as [n|], certList0 as [l|];
    simpl; intros Hin Hlive;
    repeat match goal with
    | H : In _ (remove _ _ _) |- _ => apply in_remove in H as [H ?]
    end;
    intuition congruence.
Qed.

(** C8. On a session whose owning pointers are distinct and point to live
    objects (in particular one on which setup was never called, which owns
    nothing), cleanup meets no error and leaves the protocol client, the
    transport client and the certificate list null and their objects
    released; it changes nothing and calls nothing when nothing is owned;
    a second cleanup right after, from the destructor or not, meets no
    error, changes nothing and calls nothing. *)
Theorem cleanup_idempotent (w : World) :
  owned_live w ->
  exists w1 evs,
    cleanup w = Some (tt, w1, evs) /\
    mqttClient w1 = None /\ netClient w1 = None /\ certList w1 = None /\
    (forall h, In h (owned w) -> ~ In h (live w1)) /\
    (owned w = [] -> w1 = w /\ evs = []) /\
    cleanup w1 = Some (tt, w1, []) /\
    destructor w1 = Some (tt, w1, []) /\
    (cleanup;; cleanup) w = cleanup w.
Proof.
  intros Hown. pose proof (cleanup_run w Hown) as Hrun.
  assert (Hagain : cleanup (released w) = Some (tt, released w, []))
    by (apply cleanup_nothing_owned; reflexivity).
  exists (released w). eexists. split; [exact Hrun|].
  repeat (split; [reflexivity|]).
  split; [intros h; apply released_live|].
  split.
  { intros Hnone. split; [apply released_nothing_owned, Hnone|].
    unfold owned in Hnone. destruct (mqttClient w); [discriminate|reflexivity]. }
  split; [exact Hagain|]. split; [exact Hagain|].
  rewrite (bind_run _ _ _ _ _ _ Hrun), Hagain, Hrun, app_nil_r. reflexivity.
Qed.

Lemma never_set_up_owned_live (dev : CloudIoTCoreDevice) :
  owned_live (GCloudIoTMqtt dev).
Proof. split; [constructor|intros h []]. Qed.

Lemma sample_connected_owned_live : owned_live sample_connected.
Proof.
  split.
  - vm_compute. repeat constructor; simpl; intuition discriminate.
  - intros h Hin. vm_compute in Hin. vm_compute. intuition.
Qed.

Lemma cleanup_idempotent_witness :
  (exists w1 evs,
     cleanup sample_connected = Some (tt, w1, evs) /\
     mqttClient w1 = None /\ netClient w1 = None /\ certList w1 = None /\
     cleanup w1 = Some (tt, w1, [])) /\
  cleanup (GCloudIoTMqtt sample_device) = Some (tt, GCloudIoTMqtt sample_device, []).
Proof.
  split.
  - destruct (cleanup_idempotent sample_connected sample_connected_owned_live)
      as (w1 & evs & Hrun & Hm & Hn & Hc & _ & _ & Hagain & _).
    exists w1, evs. repeat split; assumption.
  - reflexivity.
Defined.

(** Every reachable session meets the hypothesis of the theorem above. *)

Lemma heap_frame_refl (w : World) : heap_frame w w.
Proof. repeat split. Qed.

Lemma heap_frame_trans (w1 w2 w3 : World) :
  heap_frame w1 w2 -> heap_frame w2 w3 -> heap_frame w1 w3.
Proof. intros (H1 & H2 & H3) (H4 & H5 & H6). repeat split; congruence. Qed.

Ltac heap_frame_field :=
  let w := fresh "w" in
  intros w; intros; destruct w; unfold heap_frame, owned in *; simpl in *;
  subst; simpl; repeat split; reflexivity.

Ltac keeps_heap_frame :=
  repeat first
    [ apply keeps_ret; exact heap_frame_refl
    | apply keeps_gets; exact heap_frame_refl
    | apply keeps_emit; exact heap_frame_refl
    | apply keeps_modify; heap_frame_field
    | apply keeps_update_client; heap_frame_field
    | apply keeps_with_client; intro
    | apply keeps_bind; [exact heap_frame_trans| |intro]
    | match goal with
      | |- keeps _ (match ?x with _ => _ end) => destruct x
      end ].

Lemma connect_keeps_heap (auto_reconnect skip : bool) (o : connect_obs) :
  keeps heap_frame (connect auto_reconnect skip o).
Proof.
  unfold connect, onConnect, regenerate_on_auth_failure, arm_backoff,
    publishState, publishTelemetry_sub, mq_subscribe, mq_publish, mq_connect,
    mq_is_connected, mq_get_returnCode, createJWT.
  keeps_heap_frame.
Qed.

Lemma mq_loop_keeps_heap (inbox : list (string * string)) :
  keeps heap_frame (mq_loop inbox).
Proof.
  intros w a w' e H. destruct (mqttClient w) as [c|] eqn:Hc.
  - rewrite (mq_loop_run inbox w c Hc) in H. inversion H; subst.
    apply heap_frame_refl.
  - unfold mq_loop, with_client in H. rewrite Hc in H. discriminate.
Qed.

Lemma deliver_keeps_heap (c : MQTTClientWithCookie) (inbox : list (string * string)) :
  keeps heap_frame (deliver c inbox).
Proof.
  intros w a w' e H. rewrite deliver_run in H. inversion H; subst.
  apply heap_frame_refl.
Qed.

Lemma loop_keeps_heap (lo : loop_obs) : keeps heap_frame (loop lo).
Proof.
  unfold loop, mq_disconnect, mq_is_connected.
  keeps_heap_frame; apply deliver_keeps_heap.
Qed.

Lemma run_op_keeps_heap (op : Op) :
  match op with
  | OpSetup _ _ _ | OpCleanup => False
  | _ => True
  end ->
  keeps heap_frame (run_op op).
Proof.
  intros Hop. destruct op; try contradiction; clear Hop; unfold run_op.
  all: try apply loop_keeps_heap.
  all: try (intros w a w' e H; rewrite onMessageReceived_run in H;
            inversion H; subst; apply heap_frame_refl).
  all: try (intros w a w' e H; unfold link_down in H;
            destruct (mqttClient w) eqn:E; inversion H; subst;
            [destruct w; unfold heap_frame, owned; simpl in *; subst;
             repeat split; reflexivity
            |apply heap_frame_refl]).
  all: unfold publishTelemetry, publishTelemetry_qos, publishTelemetry_raw,
    publishTelemetry_sub, publishTelemetry_sub_qos, publishTelemetry_sub_raw,
    publishState, publishState_raw, setLogConnect, setUseLts,
    setCommandCallback, setConfigCallback, setMessageCallback, connected,
    getLastConnectReturnCode, getLastConnectReturnCodeAsString, disconnect,
    mq_disconnect, mq_publish, mq_is_connected, mq_get_returnCode.
  all: keeps_heap_frame; try apply connect_keeps_heap; keeps_heap_frame.
Qed.

Lemma setup_run (bufsize keepAlive_sec timeout_ms : Z) (w : World) :
  setup bufsize keepAlive_sec timeout_ms w =
  Some (true, after_setup w, setup_events keepAlive_sec timeout_ms w).
Proof. destruct w. reflexivity. Qed.

Lemma setup_heap_ok (bufsize keepAlive_sec timeout_ms : Z) (w w' : World)
    (b : bool) (evs : list Event) :
  heap_ok w ->
  setup bufsize keepAlive_sec timeout_ms w = Some (b, w', evs) ->
  heap_ok w'.
Proof.
  intros [_ Hbound] H. rewrite setup_run in H.
  inversion H; subst; clear H.
  unfold heap_ok, owned_live, owned, after_setup. simpl. split; [split|].
  - repeat constructor; simpl; intros H;
      repeat (destruct H as [H|H]; [lia|]); exact H.
  - intros h Hin. simpl in *.
    repeat (destruct Hin as [Hin|Hin]; [subst h; auto|]). destruct Hin.
  - intros h [<-|[<-|[<-|Hin]]]; try lia. apply Hbound in Hin. lia.
Qed.

Lemma cleanup_heap_ok (w w' : World) (evs : list Event) :
  heap_ok w -> cleanup w = Some (tt, w', evs) -> heap_ok w'.
Proof.
  intros [Hown Hbound] H. rewrite (cleanup_run w Hown) in H.
  inversion H; subst; clear H. split.
  - split; [constructor|intros h []].
  - intros h Hin. apply Hbound. revert Hin.
    unfold released. destruct w; simpl.
    destruct mqttClient0, netClient0, certList0; simpl; intros Hin;
      repeat match goal with
      | H : In _ (remove _ _ _) |- _ => apply in_remove in H as [H _]
      end; exact Hin.
Qed.

Lemma heap_frame_heap_ok (w w' : World) :
  heap_frame w w' -> heap_ok w -> heap_ok w'.
Proof.
  intros (Ho & Hl & Hn) [[Hnd Hincl] Hbound].
  unfold heap_ok, owned_live. rewrite Ho, Hl, Hn. auto.
Qed.

Lemma reachable_heap_ok (dev : CloudIoTCoreDevice) (w : World) :
  reachable dev w -> heap_ok w.
Proof.
  induction 1 as [|w w' op evs _ IH Hrun].
  - split; [apply never_set_up_owned_live|intros h []].
  - assert (Hother :
              match op with
              | OpSetup _ _ _ | OpCleanup => False
              | _ => True
              end -> heap_ok w').
    { intros Hop. eapply heap_frame_heap_ok; [|exact IH].
      eapply (run_op_keeps_heap op Hop), Hrun. }
    destruct op; try (apply Hother; exact I); clear Hother; unfold run_op in Hrun.
    + unfold bind in Hrun.
      destruct (setup bufsize keepAlive_sec timeout_ms w) as [[[b w1] e1]|] eqn:E;
        [|discriminate].
      simpl in Hrun. inversion Hrun; subst. eapply setup_heap_ok; eassumption.
    + eapply cleanup_heap_ok; eassumption.
Qed.

Lemma reachable_owned_live (dev : CloudIoTCoreDevice) (w : World) :
  reachable dev w -> owned_live w.
Proof. intros H. apply (reachable_heap_ok dev w H). Qed.

(** ** The broker host *)

(** C9 (code defect). Whatever [setUseLts] was given before, [setup] sets
    the flag back to true before it tests it, and connects the protocol
    client to the LTS host: with [setUseLts(false)] before [setup] the
    non-LTS host is never targeted. *)
Theorem setup_ignores_setUseLts (w : World) (enabled : bool)
    (bufsize keepAlive_sec timeout_ms : Z) :
  exists w' c evs,
    (setUseLts enabled;; setup bufsize keepAlive_sec timeout_ms) w =
      Some (true, w', evs) /\
    filter is_begin evs = [EvBegin CLOUD_IOT_CORE_MQTT_HOST_LTS] /\
    useLts w' = true /\
    mqttClient w' = Some c /\
    mq_host c = Some CLOUD_IOT_CORE_MQTT_HOST_LTS.
Proof.
  eexists; eexists; eexists. split.
  - unfold bind, setUseLts, modify. rewrite setup_run. reflexivity.
  - repeat split.
Qed.

(** With jitter the doubling is applied to a value that already carries the
    earlier draws, and the last doubling below MAX overshoots it. *)
Example backoff_with_jitter_overshoots :
  option_map fst
    (option_map fst
       (connect_attempts (repeat (true, false, obs_unavailable 499) 6)
          sample_session)) =
  Some [1499; 3497; 7493; 15485; 31469; 63437].
Proof. vm_compute. reflexivity. Qed.

(** * Further properties of the code *)

(** ** Null protocol client *)

Ltac unfold_simple_ops :=
  unfold publishTelemetry, publishTelemetry_qos, publishTelemetry_raw,
    publishTelemetry_sub, publishTelemetry_sub_qos, publishTelemetry_sub_raw,
    publishState, publishState_raw, setLogConnect, setUseLts,
    setCommandCallback, setConfigCallback, setMessageCallback, connected,
    getLastConnectReturnCode, getLastConnectReturnCodeAsString, link_down,
    mq_publish, mq_is_connected, mq_get_returnCode, with_client, crash,
    bind, ret, gets, modify, emit.

Ltac unfold_simple_ops_in H :=
  unfold publishTelemetry, publishTelemetry_qos, publishTelemetry_raw,
    publishTelemetry_sub, publishTelemetry_sub_qos, publishTelemetry_sub_raw,
    publishState, publishState_raw, setLogConnect, setUseLts,
    setCommandCallback, setConfigCallback, setMessageCallback, connected,
    getLastConnectReturnCode, getLastConnectReturnCodeAsString, link_down,
    mq_publish, mq_is_connected, mq_get_returnCode, with_client, crash,
    bind, ret, gets, modify, emit in H.

Lemma loop_returns (lo : loop_obs) (w : World) (c : MQTTClientWithCookie) :
  mqttClient w = Some c -> loop lo w <> None.
Proof.
  intros Hc.
  destruct (mq_connected c && jwt_expiring (lo_now lo) (lo_exp lo)) eqn:E.
  - apply andb_true_iff in E as [Hup Hexp].
    rewrite (loop_refresh_run lo w c Hc Hup Hexp). discriminate.
  - rewrite (loop_no_refresh_run lo w c Hc E). discriminate.
Qed.

Lemma run_op_with_client (op : Op) (w : World) (c : MQTTClientWithCookie) :
  heap_ok w -> mqttClient w = Some c -> run_op op w <> None.
Proof.
  intros [Hown _] Hc. destruct op; unfold run_op.
  - unfold bind. rewrite setup_run. discriminate.
  - rewrite (cleanup_run w Hown). discriminate.
  - rewrite (bind_run _ _ _ _ _ _ (connect_run _ _ _ _ _ Hc)). discriminate.
  - unfold_simple_ops. rewrite Hc. discriminate.
  - unfold bind. rewrite disconnect_run, Hc. discriminate.
  - apply (loop_returns lo w c Hc).
  - unfold_simple_ops. rewrite Hc. discriminate.
  - unfold_simple_ops. rewrite Hc. discriminate.
  - unfold_simple_ops. rewrite Hc. discriminate.
  - unfold_simple_ops. rewrite Hc. discriminate.
  - unfold_simple_ops. rewrite Hc. discriminate.
  - unfold_simple_ops. rewrite Hc. discriminate.
  - unfold_simple_ops. rewrite Hc. discriminate.
  - unfold_simple_ops. rewrite Hc. discriminate.
  - discriminate.
  - discriminate.
  - discriminate.
  - discriminate.
  - discriminate.
  - unfold_simple_ops. rewrite Hc. discriminate.
  - unfold_simple_ops. rewrite Hc. discriminate.
  - rewrite onMessageReceived_run. discriminate.
  - discriminate.
  - unfold link_down. rewrite Hc. discriminate.
Qed.

Lemma run_op_without_client (op : Op) (w : World) :
  heap_ok w -> mqttClient w = None ->
  (run_op op w = None <-> needs_client op = true).
Proof.
  intros [Hown _] Hc.
  destruct op; unfold run_op; cbn [needs_client];
    try (split; [reflexivity|intros _]);
    try (split; [|discriminate]).
  - unfold bind. rewrite setup_run. discriminate.
  - rewrite (cleanup_run w Hown). discriminate.
  - unfold bind. rewrite connect_without_client by exact Hc. reflexivity.
  - unfold_simple_ops. rewrite Hc. reflexivity.
  - unfold bind. rewrite disconnect_run, Hc. reflexivity.
  - apply loop_without_client, Hc.
  - unfold_simple_ops. rewrite Hc. reflexivity.
  - unfold_simple_ops. rewrite Hc. reflexivity.
  - unfold_simple_ops. rewrite Hc. reflexivity.
  - unfold_simple_ops. rewrite Hc. reflexivity.
  - unfold_simple_ops. rewrite Hc. reflexivity.
  - unfold_simple_ops. rewrite Hc. reflexivity.
  - unfold_simple_ops. rewrite Hc. reflexivity.
  - unfold_simple_ops. rewrite Hc. reflexivity.
  - discriminate.
  - discriminate.
  - discriminate.
  - discriminate.
  - discriminate.
  - unfold_simple_ops. rewrite Hc. reflexivity.
  - unfold_simple_ops. rewrite Hc. reflexivity.
  - rewrite onMessageReceived_run. discriminate.
  - discriminate.
  - unfold link_down. rewrite Hc. discriminate.
Qed.

(** X1. On a session whose heap is well formed (every reachable session),
    an operation goes wrong exactly when it dereferences [mqttClient] while
    the pointer is null, that is before [setup] or after [cleanup]: connect,
    connected, disconnect, the tick, the publishes and the return code
    accessors have no null guard; setup, cleanup, the setters and message
    dispatch never go wrong. *)
Theorem operation_fails_iff_null_client (op : Op) (w : World) :
  heap_ok w ->
  (run_op op w = None <-> needs_client op = true /\ mqttClient w = None).
Proof.
  intros Hok. destruct (mqttClient w) as [c|] eqn:Hc.
  - split.
    + intros H. exfalso. exact (run_op_with_client op w c Hok Hc H).
    + intros [_ H]. discriminate H.
  - rewrite (run_op_without_client op w Hok Hc). tauto.
Qed.

Lemma operation_fails_iff_null_client_witness :
  run_op (OpConnect true false obs_accepted) (GCloudIoTMqtt sample_device) = None /\
  run_op (OpLoop tick_at_margin) (GCloudIoTMqtt sample_device) = None.
Proof.
  pose proof (reachable_heap_ok sample_device _ (reachable_new sample_device))
    as Hok.
  split.
  - apply (proj2 (operation_fails_iff_null_client
                    (OpConnect true false obs_accepted)
                    (GCloudIoTMqtt sample_device) Hok)).
    split; reflexivity.
  - apply (proj2 (operation_fails_iff_null_client (OpLoop tick_at_margin)
                    (GCloudIoTMqtt sample_device) Hok)).
    split; reflexivity.
Defined.

(** ** Ownership of heap objects *)

Lemma released_live_iff (w : World) (h : handle) :
  In h (live (released w)) <-> In h (live w) /\ ~ In h (owned w).
Proof.
  unfold owned, released. destruct w; simpl.
  destruct mqttClient0 as [c|], netClient0 as [n|], certList0 as [l|]; simpl;
    (split;
     [intros Hin;
      repeat match goal with
      | H : In _ (remove _ _ _) |- _ => apply in_remove in H as [H ?]
      end; split; [exact Hin|intuition congruence]
     |intros [Hin Hnot]; repeat apply in_in_remove; auto; intros ->; apply Hnot;
      auto]).
Qed.

(** X2. On every session reached from the constructor, cleanup returns,
    leaves the session owning nothing, and releases exactly the objects the
    session owned: an object is live afterwards if and only if it was live
    before and not owned. Everything else in the session (backoff state,
    flags, handlers, device) is as before; in particular [autoReconnect]
    is not cleared. *)
Theorem cleanup_releases_exactly_owned (dev : CloudIoTCoreDevice) (w : World) :
  reachable dev w ->
  exists w1 evs,
    cleanup w = Some (tt, w1, evs) /\
    owned w1 = [] /\
    (forall h, In h (live w1) <-> In h (live w) /\ ~ In h (owned w)) /\
    backoff_ms w1 = backoff_ms w /\
    backoff_until_millis w1 = backoff_until_millis w /\
    autoReconnect w1 = autoReconnect w /\
    useLts w1 = useLts w /\
    registrations w1 = registrations w /\
    device w1 = device w.
Proof.
  intros Hreach. pose proof (reachable_owned_live dev w Hreach) as Hown.
  rewrite (cleanup_run w Hown). eexists; eexists. split; [reflexivity|].
  split; [reflexivity|]. split; [intros h; apply released_live_iff|].
  repeat split.
Qed.

Lemma cleanup_releases_exactly_owned_witness :
  exists w1 evs,
    cleanup sample_connected = Some (tt, w1, evs) /\
    owned w1 = [] /\
    autoReconnect w1 = true.
Proof.
  destruct (cleanup_releases_exactly_owned sample_device sample_connected
              sample_connected_reachable)
    as (w1 & evs & Hrun & Hown & _ & _ & _ & Har & _).
  exists w1, evs. split; [exact Hrun|]. split; [exact Hown|].
  rewrite Har. reflexivity.
Defined.

(** X3. [setup] allocates three fresh objects and takes them as the
    session's, without releasing what the session owned before: on a
    session with a well-formed heap, the objects owned before setup are
    still live after it and no longer owned, and they are still live after
    a cleanup that follows. A second setup leaks the objects of the first. *)
Theorem setup_leaks_previous_objects (bufsize keepAlive_sec timeout_ms : Z)
    (w : World) :
  heap_ok w ->
  exists w' evs,
    setup bufsize keepAlive_sec timeout_ms w = Some (true, w', evs) /\
    heap_ok w' /\
    List.length (owned w') = 3%nat /\
    (forall h, In h (owned w') -> ~ In h (live w)) /\
    (forall h, In h (owned w) -> In h (live w') /\ ~ In h (owned w')) /\
    exists w'' evs',
      cleanup w' = Some (tt, w'', evs') /\
      forall h, In h (owned w) -> In h (live w'').
Proof.
  intros Hok. pose proof Hok as [[Hnodup Hincl] Hbound].
  rewrite setup_run.
  assert (Hok' : heap_ok (after_setup w))
    by (eapply (setup_heap_ok bufsize keepAlive_sec timeout_ms);
        [exact Hok|apply setup_run]).
  assert (Hold : forall h, In h (owned w) ->
                 In h (live (after_setup w)) /\ ~ In h (owned (after_setup w))).
  { intros h Hin. apply Hincl in Hin. pose proof (Hbound h Hin) as Hlt.
    unfold after_setup, owned; simpl. split; [auto|].
    intros [H|[H|[H|[]]]]; lia. }
  exists (after_setup w), (setup_events keepAlive_sec timeout_ms w).
  split; [reflexivity|]. split; [exact Hok'|].
  split; [reflexivity|]. split.
  { intros h Hin Hlive. apply Hbound in Hlive.
    unfold after_setup, owned in Hin; simpl in Hin.
    destruct Hin as [H|[H|[H|[]]]]; lia. }
  split; [exact Hold|].
  destruct Hok' as [Hown' _].
  rewrite (cleanup_run _ Hown').
  exists (released (after_setup w)), [EvMqttDisconnect].
  split; [reflexivity|].
  intros h Hin. apply released_live_iff. apply Hold, Hin.
Qed.

Lemma setup_leaks_previous_objects_witness :
  exists w' evs,
    setup 512 180 1000 sample_connected = Some (true, w', evs) /\
    forall h, In h (owned sample_connected) -> In h (live w') /\ ~ In h (owned w').
Proof.
  destruct (setup_leaks_previous_objects 512 180 1000 sample_connected
              (reachable_heap_ok sample_device _ sample_connected_reachable))
    as (w' & evs & Hrun & _ & _ & _ & Hold & _).
  exists w', evs. split; [exact Hrun|exact Hold].
Defined.

(** ** What operations leave alone *)

Section KeepsMore.

Variable R : World -> World -> Prop.
Hypothesis R_refl : forall w, R w w.

Lemma keeps_deliver (c : MQTTClientWithCookie) (inbox : list (string * string)) :
  keeps R (deliver c inbox).
Proof.
  intros w a w' e H. rewrite deliver_run in H. inversion H; subst. apply R_refl.
Qed.

Lemma keeps_link_down :
  (forall w c, mqttClient w = Some c ->
               R w (set_mqttClient (Some (set_connected false c)) w)) ->
  keeps R link_down.
Proof.
  intros Hf w a w' e H. unfold link_down in H.
  destruct (mqttClient w) as [c|] eqn:E; inversion H; subst.
  - apply Hf, E.
  - apply R_refl.
Qed.

End KeepsMore.

Ltac keeps_steps refl trans field :=
  repeat first
    [ apply keeps_ret; exact refl
    | apply keeps_gets; exact refl
    | apply keeps_emit; exact refl
    | apply keeps_deliver; exact refl
    | apply keeps_link_down; [exact refl|field]
    | apply keeps_modify; field
    | apply keeps_new_object; field
    | apply keeps_delete_object; field
    | apply keeps_update_client; field
    | apply keeps_with_client; intro
    | apply keeps_bind; [exact trans| |intro]
    | match goal with
      | |- keeps _ (match ?x with _ => _ end) => destruct x
      end ].

Lemma registrations_frame_refl (w : World) : registrations_frame w w.
Proof. reflexivity. Qed.

Lemma registrations_frame_trans (w1 w2 w3 : World) :
  registrations_frame w1 w2 -> registrations_frame w2 w3 ->
  registrations_frame w1 w3.
Proof. unfold registrations_frame. congruence. Qed.

Ltac registrations_field :=
  let w := fresh "w" in
  intros w; intros; destruct w; unfold registrations_frame, registrations;
  reflexivity.

Lemma run_op_keeps_registrations (op : Op) :
  match op with
  | OpSetLogConnect _ | OpSetMessageCallback _
  | OpSetCommandCallback _ | OpSetConfigCallback _ => False
  | _ => True
  end ->
  keeps registrations_frame (run_op op).
Proof.
  intros Hop. destruct op; try contradiction; clear Hop; unfold run_op.
  all: keeps_steps registrations_frame_refl registrations_frame_trans
         ltac:(registrations_field).
Qed.

(** X4. The three handlers and the announce flag are changed by their own
    setter only: after any operation that returns, each of them is the
    value its setter was given if the operation is that setter, and the
    value it had before otherwise. Setup, cleanup, connect, disconnect and
    the tick never drop or replace a registration. *)
Theorem registrations_changed_only_by_setters (op : Op) (w w' : World)
    (evs : list Event) :
  run_op op w = Some (tt, w', evs) ->
  commandCB w' =
    match op with OpSetCommandCallback cb => cb | _ => commandCB w end /\
  configCB w' =
    match op with OpSetConfigCallback cb => cb | _ => configCB w end /\
  messageCB w' =
    match op with OpSetMessageCallback cb => cb | _ => messageCB w end /\
  logConnect w' =
    match op with OpSetLogConnect enabled => enabled | _ => logConnect w end.
Proof.
  intros Hrun.
  assert (Hother :
            match op with
            | OpSetLogConnect _ | OpSetMessageCallback _
            | OpSetCommandCallback _ | OpSetConfigCallback _ => False
            | _ => True
            end ->
            commandCB w' = commandCB w /\ configCB w' = configCB w /\
            messageCB w' = messageCB w /\ logConnect w' = logConnect w).
  { intros Hop.
    pose proof (run_op_keeps_registrations op Hop w tt w' evs Hrun) as Hf.
    unfold registrations_frame, registrations in Hf.
    injection Hf as H1 H2 H3 H4. auto. }
  destruct op; try (apply Hother; exact I); clear Hother;
    inversion Hrun; subst; repeat split.
Qed.

Lemma registrations_changed_only_by_setters_witness :
  messageCB
    (result_world (cleanup sample_with_handlers) sample_with_handlers) =
  Some 30%nat.
Proof.
  destruct (registrations_changed_only_by_setters OpCleanup sample_with_handlers
              (result_world (cleanup sample_with_handlers) sample_with_handlers)
              (result_events (cleanup sample_with_handlers)))
    as (_ & _ & Hm & _).
  - vm_compute. reflexivity.
  - rewrite Hm. reflexivity.
Defined.

Lemma same_identity_refl (d : CloudIoTCoreDevice) : same_identity d d.
Proof. repeat split. Qed.

Lemma connect_world_device (o : connect_obs) (c : MQTTClientWithCookie) (w : World) :
  same_identity (device w) (device (connect_world o c w)) /\
  getJWT (device (connect_world o c w)) =
    (getJWT (device w) + tokens_minted o)%nat.
Proof.
  unfold connect_world, after_auth_check, after_handshake, after_refresh,
    tokens_minted.
  destruct (attempt_succeeds o), (is_auth_failure (co_rc o)),
    (jwt_expiring (co_now o) (co_exp o)); simpl;
    (split; [repeat split|lia]).
Qed.

Lemma tokens_minted_bound (o : connect_obs) : (tokens_minted o <= 2)%nat.
Proof.
  unfold tokens_minted.
  destruct (jwt_expiring (co_now o) (co_exp o)),
    (negb (attempt_succeeds o) && is_auth_failure (co_rc o)); simpl; lia.
Qed.

Lemma device_same_refl (w : World) : device_same w w.
Proof. reflexivity. Qed.

Lemma device_same_trans (w1 w2 w3 : World) :
  device_same w1 w2 -> device_same w2 w3 -> device_same w1 w3.
Proof. unfold device_same. congruence. Qed.

Ltac device_same_field :=
  let w := fresh "w" in
  intros w; intros; destruct w; unfold device_same; reflexivity.

Lemma run_op_keeps_device (op : Op) :
  match op with
  | OpConnect _ _ _ | OpLoop _ => False
  | _ => True
  end ->
  keeps device_same (run_op op).
Proof.
  intros Hop. destruct op; try contradiction; clear Hop; unfold run_op.
  all: keeps_steps device_same_refl device_same_trans ltac:(device_same_field).
Qed.

(** X5. No operation changes the identifiers or the topics of the device,
    and the token generation never goes back. Only connect and the tick
    mint tokens: a connect mints one token if its expiry test holds and one
    more if it fails on an authentication return code, so at most two;
    every other operation leaves the device untouched. *)
Theorem device_identity_stable (op : Op) (w w' : World) (evs : list Event) :
  run_op op w = Some (tt, w', evs) ->
  same_identity (device w) (device w') /\
  (getJWT (device w) <= getJWT (device w') <= getJWT (device w) + 2)%nat /\
  match op with
  | OpConnect _ _ o => getJWT (device w') = (getJWT (device w) + tokens_minted o)%nat
  | OpLoop _ => True
  | _ => device w' = device w
  end.
Proof.
  intros Hrun.
  assert (Hother :
            match op with
            | OpConnect _ _ _ | OpLoop _ => False
            | _ => True
            end -> device w' = device w).
  { intros Hop. exact (run_op_keeps_device op Hop w tt w' evs Hrun). }
  assert (Hsame : device w' = device w ->
                  same_identity (device w) (device w') /\
                  (getJWT (device w) <= getJWT (device w')
                   <= getJWT (device w) + 2)%nat).
  { intros ->. split; [apply same_identity_refl|lia]. }
  destruct op;
    try (split; [apply Hsame, Hother, I|split; [apply Hsame, Hother, I|]];
         apply Hother; exact I);
    clear Hother; unfold run_op in Hrun.
  - (* connect *)
    destruct (mqttClient w) as [c|] eqn:Hc.
    + rewrite (bind_run _ _ _ _ _ _ (connect_run _ _ _ _ _ Hc)) in Hrun.
      inversion Hrun; subst.
      destruct (connect_world_device o c w) as [Hid Hjwt].
      pose proof (tokens_minted_bound o).
      split; [exact Hid|]. split; [lia|exact Hjwt].
    + unfold bind in Hrun. rewrite connect_without_client in Hrun by exact Hc.
      discriminate.
  - (* loop *)
    destruct (mqttClient w) as [c|] eqn:Hc;
      [|rewrite loop_without_client in Hrun by exact Hc; discriminate].
    destruct (mq_connected c && jwt_expiring (lo_now lo) (lo_exp lo)) eqn:Hbranch.
    + apply andb_true_iff in Hbranch as [Hup Hexp].
      rewrite (loop_refresh_run lo w c Hc Hup Hexp) in Hrun.
      inversion Hrun; subst.
      destruct (connect_world_device (lo_conn lo) (set_connected false c)
                  (set_mqttClient (Some (set_connected false c)) w))
        as [Hid Hjwt].
      pose proof (tokens_minted_bound (lo_conn lo)).
      change (device (set_mqttClient (Some (set_connected false c)) w))
        with (device w) in *.
      split; [exact Hid|]. split; [lia|exact I].
    + rewrite (loop_no_refresh_run lo w c Hc Hbranch) in Hrun.
      inversion Hrun as [[Hw He]]. clear Hrun He.
      destruct (autoReconnect w && negb (mq_connected c) &&
                backoff_elapsed (lo_now lo) (backoff_until_millis w) &&
                lo_net lo).
      * destruct (connect_world_device (lo_conn lo) c w) as [Hid Hjwt].
        pose proof (tokens_minted_bound (lo_conn lo)).
        split; [exact Hid|]. split; [lia|exact I].
      * split; [apply same_identity_refl|]. split; [lia|exact I].
Qed.

Lemma device_identity_stable_witness :
  getJWT
    (device (result_world (connect true false obs_not_authorized sample_session)
               sample_session)) = 1%nat /\
  getCommandsTopic
    (device (result_world (connect true false obs_not_authorized sample_session)
               sample_session)) = getCommandsTopic sample_device.
Proof.
  destruct (device_identity_stable (OpConnect true false obs_not_authorized)
              sample_session
              (result_world (connect true false obs_not_authorized sample_session)
                 sample_session)
              (result_events (connect true false obs_not_authorized sample_session)))
    as ((_ & _ & _ & _ & Hcmd & _) & _ & Hjwt).
  - vm_compute. reflexivity.
  - split; [rewrite Hjwt; reflexivity|rewrite Hcmd; reflexivity].
Defined.

(** ** Bounds of the backoff, jitter included *)

Lemma next_backoff_bounds (b jitter : Z) :
  b = 0 \/ EXP_BACKOFF_MIN_MS <= b <= BACKOFF_CEILING ->
  0 <= jitter < EXP_BACKOFF_JITTER_MS ->
  EXP_BACKOFF_MIN_MS <= next_backoff b jitter <= BACKOFF_CEILING /\
  b <= next_backoff b jitter /\
  (b < EXP_BACKOFF_MAX_MS -> b < next_backoff b jitter) /\
  (EXP_BACKOFF_MAX_MS <= b -> next_backoff b jitter = b).
Proof.
  unfold next_backoff, BACKOFF_CEILING, EXP_BACKOFF_MIN_MS, EXP_BACKOFF_MAX_MS,
    EXP_BACKOFF_FACTOR, EXP_BACKOFF_JITTER_MS.
  intros Hb Hj.
  destruct (Z.ltb_spec b 1000); [lia|].
  destruct (Z.ltb_spec b 32000); lia.
Qed.

Lemma to_ulong_is_ulong (z : Z) : is_ulong (to_ulong z).
Proof.
  unfold is_ulong, to_ulong. apply Z.mod_pos_bound. reflexivity.
Qed.

Lemma backoff_same_refl (w : World) : backoff_same w w.
Proof. split; reflexivity. Qed.

Lemma backoff_same_trans (w1 w2 w3 : World) :
  backoff_same w1 w2 -> backoff_same w2 w3 -> backoff_same w1 w3.
Proof. intros [H1 H2] [H3 H4]. split; congruence. Qed.

Ltac backoff_same_field :=
  let w := fresh "w" in
  intros w; intros; destruct w; unfold backoff_same; split; reflexivity.

Lemma run_op_keeps_backoff (op : Op) :
  match op with
  | OpSetup _ _ _ | OpConnect _ _ _ | OpLoop _ => False
  | _ => True
  end ->
  keeps backoff_same (run_op op).
Proof.
  intros Hop. destruct op; try contradiction; clear Hop; unfold run_op.
  all: keeps_steps backoff_same_refl backoff_same_trans ltac:(backoff_same_field).
Qed.

Lemma connect_world_in_bounds (o : connect_obs) (c : MQTTClientWithCookie)
    (w : World) :
  jitter_in_range o -> backoff_in_bounds w -> backoff_in_bounds (connect_world o c w).
Proof.
  intros Hj [Hb Hu]. unfold backoff_in_bounds.
  rewrite connect_world_backoff_ms, connect_world_backoff_until.
  destruct (attempt_succeeds o).
  - split; [left; reflexivity|exact Hu].
  - split; [right; apply (next_backoff_bounds _ _ Hb Hj)|apply to_ulong_is_ulong].
Qed.

Lemma run_op_in_bounds (op : Op) (w w' : World) (evs : list Event) :
  op_jitter_in_range op ->
  backoff_in_bounds w ->
  run_op op w = Some (tt, w', evs) ->
  backoff_in_bounds w'.
Proof.
  intros Hj Hb Hrun.
  assert (Hother :
            match op with
            | OpSetup _ _ _ | OpConnect _ _ _ | OpLoop _ => False
            | _ => True
            end -> backoff_in_bounds w').
  { intros Hop. destruct (run_op_keeps_backoff op Hop w tt w' evs Hrun) as [H1 H2].
    unfold backoff_in_bounds. rewrite H1, H2. exact Hb. }
  destruct op; try (apply Hother; exact I); clear Hother; unfold run_op in Hrun;
    cbn [op_jitter_in_range] in Hj.
  - unfold bind in Hrun. rewrite setup_run in Hrun. inversion Hrun; subst.
    split; [left; reflexivity|]. unfold is_ulong, ULONG_MODULUS. simpl. lia.
  - destruct (mqttClient w) as [c|] eqn:Hc.
    + rewrite (bind_run _ _ _ _ _ _ (connect_run _ _ _ _ _ Hc)) in Hrun.
      inversion Hrun; subst. apply connect_world_in_bounds; assumption.
    + unfold bind in Hrun. rewrite connect_without_client in Hrun by exact Hc.
      discriminate.
  - destruct (mqttClient w) as [c|] eqn:Hc;
      [|rewrite loop_without_client in Hrun by exact Hc; discriminate].
    destruct (mq_connected c && jwt_expiring (lo_now lo) (lo_exp lo)) eqn:Hbranch.
    + apply andb_true_iff in Hbranch as [Hup Hexp].
      rewrite (loop_refresh_run lo w c Hc Hup Hexp) in Hrun.
      inversion Hrun; subst. apply connect_world_in_bounds; assumption.
    + rewrite (loop_no_refresh_run lo w c Hc Hbranch) in Hrun.
      inversion Hrun as [[Hw He]]. clear Hrun He.
      destruct (autoReconnect w && negb (mq_connected c) &&
                backoff_elapsed (lo_now lo) (backoff_until_millis w) &&
                lo_net lo).
      * apply connect_world_in_bounds; assumption.
      * exact Hb.
Qed.

(** X6. Whatever operations are run from the constructor, with [random]
    drawing from 0 to 499, [backoff_ms] is either 0 or between MIN (1000)
    and 64497, and [backoff_until_millis] fits the 32-bit counter. The code
    has no clamp at MAX: 64497, the last doubling below MAX plus the
    largest jitter, is the bound it keeps. *)
Theorem backoff_stays_in_bounds (dev : CloudIoTCoreDevice) (ops : list Op)
    (w' : World) (evs : list Event) :
  Forall op_jitter_in_range ops ->
  run_ops ops (GCloudIoTMqtt dev) = Some (tt, w', evs) ->
  (backoff_ms w' = 0 \/ EXP_BACKOFF_MIN_MS <= backoff_ms w' <= 64497) /\
  0 <= backoff_until_millis w' < 2 ^ 32.
Proof.
  intros Hall Hrun.
  assert (Hgen : forall ops w w' evs,
             Forall op_jitter_in_range ops ->
             backoff_in_bounds w ->
             run_ops ops w = Some (tt, w', evs) ->
             backoff_in_bounds w').
  { clear. induction ops as [|op rest IH]; intros w w' evs Hall Hb Hrun.
    - inversion Hrun; subst. exact Hb.
    - inversion Hall as [|a l Hop Hrest]; subst.
      cbn [run_ops] in Hrun. unfold bind in Hrun.
      destruct (run_op op w) as [[[[] w1] e1]|] eqn:E1; [|discriminate].
      destruct (run_ops rest w1) as [[[[] w2] e2]|] eqn:E2; [|discriminate].
      inversion Hrun; subst.
      eapply IH; [exact Hrest| |exact E2].
      eapply run_op_in_bounds; eassumption. }
  assert (Hinit : backoff_in_bounds (GCloudIoTMqtt dev)).
  { split; [left; reflexivity|]. unfold is_ulong, ULONG_MODULUS. simpl. lia. }
  exact (Hgen ops _ w' evs Hall Hinit Hrun).
Qed.

Lemma backoff_stays_in_bounds_witness :
  backoff_ms
    (result_world
       (run_ops (OpSetup 512 180 1000 ::
                 repeat (OpConnect true false (obs_unavailable 499)) 6)
          (GCloudIoTMqtt sample_device))
       (GCloudIoTMqtt sample_device)) = 63437.
Proof.
  destruct (backoff_stays_in_bounds sample_device
              (OpSetup 512 180 1000 ::
               repeat (OpConnect true false (obs_unavailable 499)) 6)
              (result_world
                 (run_ops (OpSetup 512 180 1000 ::
                           repeat (OpConnect true false (obs_unavailable 499)) 6)
                    (GCloudIoTMqtt sample_device))
                 (GCloudIoTMqtt sample_device))
              (result_events
                 (run_ops (OpSetup 512 180 1000 ::
                           repeat (OpConnect true false (obs_unavailable 499)) 6)
                    (GCloudIoTMqtt sample_device))))
    as [_ _].
  - repeat constructor; vm_compute; intuition discriminate.
  - vm_compute. reflexivity.
  - vm_compute. reflexivity.
Defined.

(** ** Waiting after a failure *)

Lemma loop_idle_run (lo : loop_obs) (w : World) (c : MQTTClientWithCookie) :
  mqttClient w = Some c ->
  mq_connected c = false ->
  autoReconnect w && backoff_elapsed (lo_now lo) (backoff_until_millis w)
  && lo_net lo = false ->
  loop lo w = Some (tt, w, [EvMqttLoop]).
Proof.
  intros Hc Hdown Hidle.
  assert (Hno : mq_connected c && jwt_expiring (lo_now lo) (lo_exp lo) = false)
    by (rewrite Hdown; reflexivity).
  rewrite (loop_no_refresh_run lo w c Hc Hno).
  rewrite Hdown, andb_true_r, Hidle. unfold pumped_calls. rewrite Hdown.
  reflexivity.
Qed.

(** X7. A connect that fails always arms a window of at least MIN: with
    [random] in range, [backoff_ms] in its bounds and no overflow of the
    counter, the new [backoff_ms] is at least 1000 and not less than the
    previous one, and a tick that comes no later than 1000 ms after the
    arming time makes no connect attempt and leaves the session as it
    is. *)
Theorem failed_connect_waits_at_least_min (auto_reconnect skip : bool)
    (o : connect_obs) (lo : loop_obs) (w : World) (c : MQTTClientWithCookie) :
  mqttClient w = Some c ->
  attempt_succeeds o = false ->
  jitter_in_range o ->
  backoff_ms w = 0 \/ EXP_BACKOFF_MIN_MS <= backoff_ms w <= BACKOFF_CEILING ->
  0 <= co_now_arm o ->
  co_now_arm o + BACKOFF_CEILING < ULONG_MODULUS ->
  lo_now lo <= co_now_arm o + EXP_BACKOFF_MIN_MS ->
  exists w1 evs1,
    connect auto_reconnect skip o w = Some (false, w1, evs1) /\
    EXP_BACKOFF_MIN_MS <= backoff_ms w1 /\
    backoff_ms w <= backoff_ms w1 /\
    backoff_until_millis w1 = co_now_arm o + backoff_ms w1 /\
    loop lo w1 = Some (tt, w1, [EvMqttLoop]).
Proof.
  intros Hc Hfail Hj Hb Hnow Hfit Hlo.
  rewrite (connect_run auto_reconnect skip o w c Hc). rewrite Hfail.
  destruct (next_backoff_bounds _ _ Hb Hj) as ([Hmin Hmax] & Hmono & _).
  assert (Hb1 : backoff_ms (connect_world o c w) =
                next_backoff (backoff_ms w) (co_jitter o))
    by (rewrite connect_world_backoff_ms, Hfail; reflexivity).
  assert (Hu1 : backoff_until_millis (connect_world o c w) =
                co_now_arm o + next_backoff (backoff_ms w) (co_jitter o)).
  { rewrite connect_world_backoff_until, Hfail. unfold to_ulong.
    apply Z.mod_small. unfold EXP_BACKOFF_MIN_MS in *. lia. }
  eexists; eexists. split; [reflexivity|].
  rewrite Hb1. split; [exact Hmin|]. split; [exact Hmono|]. split; [exact Hu1|].
  apply (loop_idle_run lo _ (set_returnCode (co_rc o) (set_connected false c))).
  - rewrite connect_world_client, Hfail. reflexivity.
  - reflexivity.
  - rewrite Hu1. unfold backoff_elapsed.
    assert (E : (lo_now lo >? co_now_arm o +
                               next_backoff (backoff_ms w) (co_jitter o)) = false).
    { rewrite Z.gtb_ltb. apply Z.ltb_ge. lia. }
    rewrite E, andb_false_r. reflexivity.
Qed.

Lemma failed_connect_waits_at_least_min_witness :
  exists w1 evs1,
    connect true false obs_not_authorized_jitter sample_session =
      Some (false, w1, evs1) /\
    backoff_until_millis w1 = 5200 + backoff_ms w1 /\
    loop tick_before_deadline w1 = Some (tt, w1, [EvMqttLoop]).
Proof.
  destruct (failed_connect_waits_at_least_min true false obs_not_authorized_jitter
              tick_before_deadline sample_session sample_client)
    as (w1 & evs1 & Hrun & _ & _ & Hu & Hloop).
  - reflexivity.
  - reflexivity.
  - vm_compute. split; [discriminate|reflexivity].
  - left. reflexivity.
  - vm_compute. discriminate.
  - vm_compute. reflexivity.
  - vm_compute. discriminate.
  - exists w1, evs1. split; [exact Hrun|]. split; [exact Hu|exact Hloop].
Defined.

(** ** Explicit disconnect *)

(** X8. After an explicit disconnect no tick reconnects: on a set-up
    session, disconnect makes one disconnect call on the protocol client,
    and any series of ticks that follows only drives the protocol client,
    once per tick, and leaves the session exactly as disconnect left it,
    whatever the clock, the token expiry and the network link are. *)
Theorem no_reconnect_after_disconnect (ok : bool) (los : list loop_obs)
    (w : World) (c : MQTTClientWithCookie) :
  mqttClient w = Some c ->
  exists w1,
    disconnect ok w = Some (mq_connected c && ok, w1, [EvMqttDisconnect]) /\
    autoReconnect w1 = false /\
    client_up w1 = false /\
    ticks los w1 = Some (tt, w1, repeat EvMqttLoop (List.length los)).
Proof.
  intros Hc. rewrite disconnect_run, Hc.
  eexists. split; [reflexivity|]. split; [reflexivity|].
  split; [reflexivity|].
  set (w1 := set_mqttClient _ _).
  induction los as [|lo rest IH]; [reflexivity|].
  cbn [ticks List.length repeat].
  assert (Hloop : loop lo w1 = Some (tt, w1, [EvMqttLoop])).
  { apply (loop_idle_run lo w1 (set_connected false c)); reflexivity. }
  rewrite (bind_run _ _ _ _ _ _ Hloop), IH. reflexivity.
Qed.

Lemma no_reconnect_after_disconnect_witness :
  exists w1,
    disconnect true sample_connected = Some (true, w1, [EvMqttDisconnect]) /\
    ticks [tick_past_margin; tick_after_wrap_arming] w1 =
      Some (tt, w1, [EvMqttLoop; EvMqttLoop]).
Proof.
  destruct (no_reconnect_after_disconnect true
              [tick_past_margin; tick_after_wrap_arming]
              sample_connected sample_connected_client)
    as (w1 & Hd & _ & _ & Ht).
  - reflexivity.
  - exists w1. split; [exact Hd|exact Ht].
Defined.

(** ** Shape of a tick *)

(** X9. On a session with a protocol client the tick always returns. Its
    calls are: first either nothing, or one connect attempt (preceded by a
    disconnect on the refresh path), with exactly one handshake; then
    exactly one [mqttClient->loop()]; then handler calls only, and none at
    all when the client is not connected at that point. *)
Theorem loop_shape (lo : loop_obs) (w : World) (c : MQTTClientWithCookie) :
  mqttClient w = Some c ->
  exists w' before calls,
    loop lo w = Some (tt, w', before ++ EvMqttLoop :: calls) /\
    (before = [] \/
     List.length (filter is_mqtt_connect before) = 1%nat) /\
    (forall e, In e before -> is_callback e = false /\ e <> EvMqttLoop) /\
    (forall e, In e calls -> is_callback e = true) /\
    (client_up w' = false -> calls = []).
Proof.
  intros Hc.
  assert (Hone : forall skip o w0,
             List.length (filter is_mqtt_connect (connect_events skip o w0)) = 1%nat).
  { intros skip o w0. unfold connect_events, refresh_events, auth_events,
      announce_events.
    destruct (jwt_expiring (co_now o) (co_exp o)), (attempt_succeeds o),
      (is_auth_failure (co_rc o)), (logConnect w0); reflexivity. }
  assert (Hplain : forall skip o w0 e,
             In e (connect_events skip o w0) ->
             is_callback e = false /\ e <> EvMqttLoop).
  { intros skip o w0 e. unfold connect_events, refresh_events, auth_events,
      announce_events.
    destruct (jwt_expiring (co_now o) (co_exp o)), (attempt_succeeds o),
      (is_auth_failure (co_rc o)), (logConnect w0); simpl;
      intuition (subst; try reflexivity; discriminate). }
  assert (Hquiet : forall w0 c0 inbox,
             mqttClient w0 = Some c0 -> client_up w0 = false ->
             pumped_calls w0 c0 inbox = []).
  { intros w0 c0 inbox H0 Hup. unfold client_up in Hup. rewrite H0 in Hup.
    unfold pumped_calls. rewrite Hup. reflexivity. }
  destruct (mq_connected c && jwt_expiring (lo_now lo) (lo_exp lo)) eqn:Hbranch.
  - apply andb_true_iff in Hbranch as [Hup Hexp].
    rewrite (loop_refresh_run lo w c Hc Hup Hexp).
    eexists. exists (EvMqttDisconnect :: connect_events false (lo_conn lo) w).
    eexists. split; [reflexivity|]. split; [right; apply (Hone false)|].
    split.
    { intros e [<-|Hin]; [split; [reflexivity|discriminate]|].
      eapply Hplain, Hin. }
    split; [intros e; apply pumped_calls_callbacks|].
    apply Hquiet, connect_world_client.
  - rewrite (loop_no_refresh_run lo w c Hc Hbranch).
    destruct (autoReconnect w && negb (mq_connected c) &&
              backoff_elapsed (lo_now lo) (backoff_until_millis w) && lo_net lo).
    + eexists. exists (connect_events false (lo_conn lo) w). eexists.
      split; [reflexivity|]. split; [right; apply (Hone false)|].
      split; [intros e; apply Hplain|].
      split; [intros e; apply pumped_calls_callbacks|].
      apply Hquiet, connect_world_client.
    + exists w, [], (pumped_calls w c (lo_inbox lo)).
      split; [reflexivity|]. split; [left; reflexivity|].
      split; [intros e []|].
      split; [intros e; apply pumped_calls_callbacks|].
      apply Hquiet, Hc.
Qed.

Lemma loop_shape_witness :
  exists w' before calls,
    loop tick_past_margin sample_connected =
      Some (tt, w', before ++ EvMqttLoop :: calls) /\
    List.length (filter is_mqtt_connect before) = 1%nat.
Proof.
  destruct (loop_shape tick_past_margin sample_connected sample_connected_client)
    as (w' & before & calls & Hrun & Hbefore & _).
  - reflexivity.
  - exists w', before, calls. split; [exact Hrun|].
    destruct Hbefore as [->|H]; [|exact H].
    exfalso. assert (E : loop tick_past_margin sample_connected =
                         Some (tt, result_world (loop tick_past_margin sample_connected)
                                     sample_connected,
                               result_events (loop tick_past_margin sample_connected)))
      by (vm_compute; reflexivity).
    rewrite E in Hrun. vm_compute in Hrun. discriminate Hrun.
Defined.

(** X10. A tick on a connected session whose token is not about to expire
    (now + 60 s, in the 32-bit counter, is at most the expiry) changes
    nothing in the session and calls nothing but [mqttClient->loop()] and
    the handlers of the messages it pumps: no disconnect, no connect, no
    token, no publish, whatever [autoReconnect], the backoff window and the
    network link are. *)
Theorem loop_steady_state (lo : loop_obs) (w : World) (c : MQTTClientWithCookie) :
  mqttClient w = Some c ->
  mq_connected c = true ->
  to_ulong (lo_now lo + 60000) <= lo_exp lo ->
  loop lo w = Some (tt, w, EvMqttLoop :: pumped_calls w c (lo_inbox lo)) /\
  forall e, In e (pumped_calls w c (lo_inbox lo)) -> is_callback e = true.
Proof.
  intros Hc Hup Hfresh.
  assert (Hno : mq_connected c && jwt_expiring (lo_now lo) (lo_exp lo) = false).
  { rewrite Hup. unfold jwt_expiring. rewrite Z.gtb_ltb. apply Z.ltb_ge. lia. }
  rewrite (loop_no_refresh_run lo w c Hc Hno).
  rewrite Hup. rewrite andb_false_r. simpl.
  split; [reflexivity|intros e; apply pumped_calls_callbacks].
Qed.

Lemma loop_steady_state_witness :
  loop tick_at_margin sample_connected = Some (tt, sample_connected, [EvMqttLoop]).
Proof.
  destruct (loop_steady_state tick_at_margin sample_connected
              sample_connected_client) as [Hrun _].
  - reflexivity.
  - reflexivity.
  - vm_compute. discriminate.
  - rewrite Hrun. reflexivity.
Defined.

(** ** Edge cases of the dispatch *)

Lemma startsWith_refl (s : string) : startsWith s s = true.
Proof.
  rewrite startsWith_prefix. apply prefix_correct.
  induction s as [|a s IH]; simpl; [reflexivity|]. f_equal. exact IH.
Qed.

Lemma startsWith_empty (s : string) : startsWith s "" = true.
Proof. rewrite startsWith_prefix. destruct s; reflexivity. Qed.

Lemma startsWith_longer (s t : string) :
  (String.length s < String.length t)%nat -> startsWith s t = false.
Proof.
  intros H. unfold startsWith.
  apply Nat.ltb_lt in H. rewrite H. reflexivity.
Qed.

(** X11. The dispatch tests whether the registered topic starts with the
    arrived one, so an arrived topic longer than both the commands topic
    and the config topic passes neither test: it goes to the generic
    handler if there is one and is dropped otherwise. In particular a
    message on a sub-folder of the commands topic never reaches the command
    handler (when it is also longer than the config topic). *)
Theorem long_topic_goes_to_generic_handler (w : World) (topic payload : string) :
  (String.length (getCommandsTopic (device w)) < String.length topic)%nat ->
  (String.length (getConfigTopic (device w)) < String.length topic)%nat ->
  onMessageReceived topic payload w =
    Some (tt, w, invoke_if_registered (messageCB w) topic payload) /\
  selected_handler w topic = messageCB w.
Proof.
  intros Hcmd Hcfg. split.
  - rewrite onMessageReceived_run. unfold routed_calls.
    rewrite <- !startsWith_prefix.
    rewrite (startsWith_longer _ _ Hcmd), (startsWith_longer _ _ Hcfg).
    reflexivity.
  - unfold selected_handler.
    rewrite (startsWith_longer _ _ Hcmd), (startsWith_longer _ _ Hcfg).
    reflexivity.
Qed.

Lemma long_topic_goes_to_generic_handler_witness :
  onMessageReceived "/devices/d1/commands/reboot" "now" sample_with_handlers =
  Some (tt, sample_with_handlers,
        [EvCallback 30%nat "/devices/d1/commands/reboot" "now"]).
Proof.
  destruct (long_topic_goes_to_generic_handler sample_with_handlers
              "/devices/d1/commands/reboot" "now") as [Hrun _].
  - vm_compute. lia.
  - vm_compute. lia.
  - rewrite Hrun. reflexivity.
Defined.

(** X12. Exact and empty topics. A message whose topic is the commands
    topic itself, or the empty topic, is given to the command handler (or
    dropped if none is registered). A message whose topic is the config
    topic itself is given to the config handler only if the commands topic
    does not start with the config topic; if it does, the command handler
    gets it, the first test winning. *)
Theorem exact_and_empty_topics (w : World) (payload : string) :
  let cmd := getCommandsTopic (device w) in
  let cfg := getConfigTopic (device w) in
  onMessageReceived cmd payload w =
    Some (tt, w, invoke_if_registered (commandCB w) cmd payload) /\
  onMessageReceived "" payload w =
    Some (tt, w, invoke_if_registered (commandCB w) "" payload) /\
  onMessageReceived cfg payload w =
    Some (tt, w,
          invoke_if_registered
            (if startsWith cmd cfg then commandCB w else configCB w)
            cfg payload).
Proof.
  intros cmd cfg; subst cmd cfg.
  rewrite !onMessageReceived_run. unfold routed_calls.
  rewrite <- !startsWith_prefix.
  rewrite !startsWith_refl, !startsWith_empty.
  repeat split.
  destruct (startsWith (getCommandsTopic (device w)) (getConfigTopic (device w)));
    reflexivity.
Qed.

(** ** Delivery of pumped messages *)

Lemma c_str_no_zero (s : string) :
  (forall a, In a (list_ascii_of_string s) -> a <> Ascii.zero) -> c_str s = s.
Proof.
  induction s as [|a s IH]; intros H; simpl; [reflexivity|].
  destruct (Ascii.eqb_spec a Ascii.zero) as [->|_].
  - exfalso. apply (H Ascii.zero); [left; reflexivity|reflexivity].
  - f_equal. apply IH. intros b Hb. apply H. right. exact Hb.
Qed.

Lemma c_str_cut (s tail : string) :
  c_str s = s -> c_str (s ++ String Ascii.zero tail) = s.
Proof.
  induction s as [|a s IH]; simpl; intros H; [reflexivity|].
  destruct (Ascii.eqb a Ascii.zero); [discriminate H|].
  injection H as H. f_equal. apply IH, H.
Qed.

(** X13. [mqttClient->loop()] on a connected client hands every pumped
    message to [onMessageReceived] through [gciot_onMessageAdv], in
    arrival order, and the session is not changed. The handler does not
    get the bytes as they arrived: topic and payload are each the text of
    their buffer up to its first zero byte, the number of bytes given by
    the library being ignored, so a payload with a zero byte in it arrives
    cut there, and one without arrives whole. At most one handler call is
    made per message; when the three handlers are registered exactly one
    call is made per message, in order, the handler being selected by the
    text of the topic. *)
Theorem mq_loop_delivers_in_order (inbox : list (string * string)) (w : World)
    (c : MQTTClientWithCookie) :
  mqttClient w = Some c ->
  mq_connected c = true ->
  mq_cookie c = true ->
  exists calls,
    mq_loop inbox w = Some (tt, w, EvMqttLoop :: calls) /\
    (List.length calls <= List.length inbox)%nat /\
    (forall f g h,
        commandCB w = Some f -> configCB w = Some g -> messageCB w = Some h ->
        calls =
        map (fun m =>
               EvCallback
                 (if startsWith (getCommandsTopic (device w)) (c_str (fst m))
                  then f
                  else if startsWith (getConfigTopic (device w)) (c_str (fst m))
                  then g
                  else h)
                 (c_str (fst m)) (c_str (snd m)))
            inbox) /\
    (forall s tail,
        (forall a, In a (list_ascii_of_string s) -> a <> Ascii.zero) ->
        c_str s = s /\ c_str (s ++ String Ascii.zero tail) = s).
Proof.
  intros Hc Hup Hcookie.
  rewrite (mq_loop_run inbox w c Hc). unfold pumped_calls.
  rewrite Hup, Hcookie. cbn [andb].
  eexists. split; [reflexivity|]. split; [|split].
  - induction inbox as [|m rest IH]; [simpl; lia|].
    cbn [flat_map]. rewrite length_app. cbn [List.length].
    assert (List.length (routed_calls w (c_str (fst m)) (c_str (snd m))) <= 1)%nat.
    { unfold routed_calls, invoke_if_registered.
      destruct (String.prefix (c_str (fst m)) (getCommandsTopic (device w)));
        [destruct (commandCB w)|
         destruct (String.prefix (c_str (fst m)) (getConfigTopic (device w)));
         [destruct (configCB w)|destruct (messageCB w)]]; simpl; lia. }
    lia.
  - intros f g h Hf Hg Hh.
    induction inbox as [|m rest IH]; [reflexivity|].
    cbn [flat_map map]. rewrite IH. unfold routed_calls at 1.
    rewrite <- !startsWith_prefix, Hf, Hg, Hh.
    destruct (startsWith (getCommandsTopic (device w)) (c_str (fst m)));
      [|destruct (startsWith (getConfigTopic (device w)) (c_str (fst m)))];
      reflexivity.
  - intros s tail Hs. pose proof (c_str_no_zero s Hs) as E.
    split; [exact E|apply c_str_cut, E].
Qed.

Lemma mq_loop_delivers_in_order_witness :
  mq_loop [("/devices/d1/config", String.append "v2" (String Ascii.zero "rest"));
           ("/devices/d1/commands", "go"); ("/other", "x")]%string
    sample_with_handlers =
  Some (tt, sample_with_handlers,
        [EvMqttLoop;
         EvCallback 20%nat "/devices/d1/config" "v2";
         EvCallback 10%nat "/devices/d1/commands" "go";
         EvCallback 30%nat "/other" "x"]).
Proof.
  destruct (mq_loop_delivers_in_order
              [("/devices/d1/config", String.append "v2" (String Ascii.zero "rest"));
               ("/devices/d1/commands", "go"); ("/other", "x")]%string
              sample_with_handlers sample_connected_client)
    as (calls & Hrun & _ & Hall & _).
  - reflexivity.
  - reflexivity.
  - reflexivity.
  - rewrite Hrun.
    rewrite (Hall 10%nat 20%nat 30%nat eq_refl eq_refl eq_refl). reflexivity.
Defined.

(** ** Where publishes go *)

Section Emits.

Variable P : Event -> Prop.

Lemma emits_bind {A B} (m : M A) (k : A -> M B) :
  emits P m -> (forall a, emits P (k a)) -> emits P (bind m k).
Proof.
  intros Hm Hk w b w2 e H. unfold bind in H.
  destruct (m w) as [[[a w1] e1]|] eqn:E1; [|discriminate].
  destruct (k a w1) as [[[b' w2'] e2]|] eqn:E2; [|discriminate].
  inversion H; subst. apply Forall_app. split; [eapply Hm, E1|eapply Hk, E2].
Qed.

Lemma emits_ret {A} (a : A) : emits P (ret a).
Proof. intros w a' w' e H. inversion H; subst. constructor. Qed.

Lemma emits_gets {A} (f : World -> A) : emits P (gets f).
Proof. intros w a' w' e H. inversion H; subst. constructor. Qed.

Lemma emits_modify (f : World -> World) : emits P (modify f).
Proof. intros w a' w' e H. inversion H; subst. constructor. Qed.

Lemma emits_emit (ev : Event) : P ev -> emits P (emit ev).
Proof. intros Hev w a' w' e H. inversion H; subst. repeat constructor. exact Hev. Qed.

Lemma emits_with_client {A} (f : MQTTClientWithCookie -> M A) :
  (forall c, emits P (f c)) -> emits P (with_client f).
Proof.
  intros Hf w a w' e H. unfold with_client in H.
  destruct (mqttClient w) as [c|]; [|discriminate]. eapply Hf, H.
Qed.

Lemma emits_new_object : emits P new_object.
Proof. intros w a w' e H. inversion H; subst. constructor. Qed.

Lemma emits_delete_object (h : handle) : emits P (delete_object h).
Proof.
  intros w a w' e H. unfold delete_object in H.
  destruct (in_dec Nat.eq_dec h (live w)); [|discriminate].
  inversion H; subst. constructor.
Qed.

Lemma emits_link_down : emits P link_down.
Proof.
  intros w a w' e H. unfold link_down in H.
  destruct (mqttClient w); inversion H; subst; constructor.
Qed.

End Emits.

Ltac emits_no_publish :=
  repeat first
    [ apply emits_ret
    | apply emits_gets
    | apply emits_modify
    | apply emits_new_object
    | apply emits_delete_object
    | apply emits_link_down
    | apply emits_emit; reflexivity
    | apply emits_with_client; intro
    | apply emits_bind; [|intro]
    | match goal with
      | |- emits _ (match ?x with _ => _ end) => destruct x
      end ].

Lemma prefix_append (s t : string) : String.prefix s (s ++ t) = true.
Proof.
  induction s as [|a s IH]; simpl.
  - destruct t; reflexivity.
  - destruct (Ascii.ascii_dec a a); [exact IH|congruence].
Qed.

Lemma prefix_refl (s : string) : String.prefix s s = true.
Proof.
  induction s as [|a s IH]; simpl; [reflexivity|].
  destruct (Ascii.ascii_dec a a); [exact IH|congruence].
Qed.

Lemma not_a_publish_well_targeted (d : CloudIoTCoreDevice) (evs : list Event) :
  Forall not_a_publish evs -> Forall (publish_well_targeted d) evs.
Proof.
  apply Forall_impl. intros e He. destruct e; try exact I. discriminate He.
Qed.

Lemma callbacks_well_targeted (d : CloudIoTCoreDevice) (evs : list Event) :
  (forall e, In e evs -> is_callback e = true) ->
  Forall (publish_well_targeted d) evs.
Proof.
  intros H. apply Forall_forall. intros e He. apply H in He.
  destruct e; try exact I. discriminate He.
Qed.

Lemma connect_events_well_targeted (skip : bool) (o : connect_obs) (w : World) :
  Forall (publish_well_targeted (device w)) (connect_events skip o w).
Proof.
  unfold connect_events, refresh_events, auth_events, announce_events.
  apply Forall_forall. intros e He.
  destruct (jwt_expiring (co_now o) (co_exp o)), (attempt_succeeds o),
    (is_auth_failure (co_rc o)), (logConnect w);
    simpl in He;
    repeat (destruct He as [<-|He]; [try exact I|]);
    try contradiction;
    (split; [reflexivity|
             first [left; reflexivity|right; apply prefix_append]]).
Qed.

Lemma run_op_no_publish (op : Op) :
  match op with
  | OpSetup _ _ _ | OpCleanup | OpConnected | OpDisconnect _
  | OpSetLogConnect _ | OpSetUseLts _ | OpSetMessageCallback _
  | OpSetCommandCallback _ | OpSetConfigCallback _
  | OpGetLastConnectReturnCode | OpGetLastConnectReturnCodeAsString
  | OpIsNetworkConnected | OpLinkDown => True
  | _ => False
  end ->
  emits not_a_publish (run_op op).
Proof.
  intros Hop. destruct op; try contradiction; clear Hop; unfold run_op.
  all: emits_no_publish.
Qed.

(** X14. No operation ever publishes a retained message, and every publish
    an operation makes goes either to the state topic of the device or to a
    topic that starts with its events topic; this covers the eight publish
    methods and the announcement of connect, also when the tick connects. *)
Theorem publishes_well_targeted (op : Op) (w w' : World) (evs : list Event) :
  run_op op w = Some (tt, w', evs) ->
  forall topic payload retained qos,
    In (EvPublish topic payload retained qos) evs ->
    retained = false /\
    (topic = getStateTopic (device w) \/
     String.prefix (getEventsTopic (device w)) topic = true).
Proof.
  intros Hrun.
  assert (Hall : Forall (publish_well_targeted (device w)) evs).
  { assert (Hquiet :
              match op with
              | OpSetup _ _ _ | OpCleanup | OpConnected | OpDisconnect _
              | OpSetLogConnect _ | OpSetUseLts _ | OpSetMessageCallback _
              | OpSetCommandCallback _ | OpSetConfigCallback _
              | OpGetLastConnectReturnCode | OpGetLastConnectReturnCodeAsString
              | OpIsNetworkConnected | OpLinkDown => True
              | _ => False
              end -> Forall (publish_well_targeted (device w)) evs).
    { intros Hop. apply not_a_publish_well_targeted.
      exact (run_op_no_publish op Hop w tt w' evs Hrun). }
    destruct op; try (apply Hquiet; exact I); clear Hquiet;
      unfold run_op in Hrun.
    - (* connect *)
      destruct (mqttClient w) as [c|] eqn:Hc.
      + rewrite (bind_run _ _ _ _ _ _ (connect_run _ _ _ _ _ Hc)) in Hrun.
        inversion Hrun; subst. rewrite app_nil_r.
        apply connect_events_well_targeted.
      + unfold bind in Hrun. rewrite connect_without_client in Hrun by exact Hc.
        discriminate.
    - (* loop *)
      destruct (mqttClient w) as [c|] eqn:Hc;
        [|rewrite loop_without_client in Hrun by exact Hc; discriminate].
      destruct (mq_connected c && jwt_expiring (lo_now lo) (lo_exp lo)) eqn:Hb.
      + apply andb_true_iff in Hb as [Hup Hexp].
        rewrite (loop_refresh_run lo w c Hc Hup Hexp) in Hrun.
        inversion Hrun; subst. constructor; [exact I|].
        apply Forall_app. split; [apply connect_events_well_targeted|].
        constructor; [exact I|].
        apply callbacks_well_targeted. intros e. apply pumped_calls_callbacks.
      + rewrite (loop_no_refresh_run lo w c Hc Hb) in Hrun.
        inversion Hrun; subst. apply Forall_app. split.
        * destruct (autoReconnect w && negb (mq_connected c) &&
                    backoff_elapsed (lo_now lo) (backoff_until_millis w) &&
                    lo_net lo);
            [apply connect_events_well_targeted|constructor].
        * constructor; [exact I|].
          apply callbacks_well_targeted. intros e. apply pumped_calls_callbacks.
    - unfold_simple_ops_in Hrun. destruct (mqttClient w); inversion Hrun; subst.
      constructor; [split; [reflexivity|right; apply prefix_refl]|constructor].
    - unfold_simple_ops_in Hrun. destruct (mqttClient w); inversion Hrun; subst.
      constructor; [split; [reflexivity|right; apply prefix_refl]|constructor].
    - unfold_simple_ops_in Hrun. destruct (mqttClient w); inversion Hrun; subst.
      constructor; [split; [reflexivity|right; apply prefix_refl]|constructor].
    - unfold_simple_ops_in Hrun. destruct (mqttClient w); inversion Hrun; subst.
      constructor; [split; [reflexivity|right; apply prefix_append]|constructor].
    - unfold_simple_ops_in Hrun. destruct (mqttClient w); inversion Hrun; subst.
      constructor; [split; [reflexivity|right; apply prefix_append]|constructor].
    - unfold_simple_ops_in Hrun. destruct (mqttClient w); inversion Hrun; subst.
      constructor; [split; [reflexivity|right; apply prefix_append]|constructor].
    - unfold_simple_ops_in Hrun. destruct (mqttClient w); inversion Hrun; subst.
      constructor; [split; [reflexivity|left; reflexivity]|constructor].
    - unfold_simple_ops_in Hrun. destruct (mqttClient w); inversion Hrun; subst.
      constructor; [split; [reflexivity|left; reflexivity]|constructor].
    - rewrite onMessageReceived_run in Hrun. inversion Hrun; subst.
      apply callbacks_well_targeted. intros e. apply routed_calls_callbacks. }
  intros topic payload retained qos Hin.
  rewrite Forall_forall in Hall. exact (Hall _ Hin).
Qed.

Lemma publishes_well_targeted_witness :
  In (EvPublish "/devices/d1/events/events" "d1-connected" false 0)
    (result_events (run_op (OpConnect true false obs_accepted) sample_session)) /\
  String.prefix (getEventsTopic (device sample_session))
    "/devices/d1/events/events" = true.
Proof.
  assert (Hin : In (EvPublish "/devices/d1/events/events" "d1-connected" false 0)
                  (result_events
                     (run_op (OpConnect true false obs_accepted) sample_session)))
    by (vm_compute; repeat (first [left; reflexivity|right])).
  split; [exact Hin|].
  destruct (publishes_well_targeted (OpConnect true false obs_accepted)
              sample_session
              (result_world (run_op (OpConnect true false obs_accepted)
                               sample_session) sample_session)
              (result_events (run_op (OpConnect true false obs_accepted)
                                sample_session)))
    with (topic := "/devices/d1/events/events"%string)
         (payload := "d1-connected"%string) (retained := false) (qos := 0)
    as [_ [Hstate|Hevents]].
  - vm_compute. reflexivity.
  - exact Hin.
  - vm_compute in Hstate. discriminate Hstate.
  - exact Hevents.
Defined.

(** ** Connect called directly *)

Lemma connect_events_handshake (skip : bool) (o : connect_obs) (w : World) :
  List.length (filter is_mqtt_connect (connect_events skip o w)) = 1%nat /\
  handshake_token (connect_events skip o w) = Some (jwt_at_connect w o).
Proof.
  unfold connect_events, refresh_events, auth_events, announce_events.
  destruct (jwt_expiring (co_now o) (co_exp o)), (attempt_succeeds o),
    (is_auth_failure (co_rc o)), (logConnect w); split; reflexivity.
Qed.

(** X15. A direct call of connect on a set-up session is subject neither
    to the backoff window nor to the network check nor to [autoReconnect]:
    it always makes exactly one handshake, with the token the device holds
    after the expiry test of connect (the regenerated one when the test
    holds), and returns whether the handshake succeeded with the client
    reporting connected. *)
Theorem connect_always_attempts (auto_reconnect skip : bool) (o : connect_obs)
    (w : World) (c : MQTTClientWithCookie) :
  mqttClient w = Some c ->
  exists w' evs,
    connect auto_reconnect skip o w = Some (co_result o && co_alive o, w', evs) /\
    List.length (filter is_mqtt_connect evs) = 1%nat /\
    handshake_token evs =
      Some (if jwt_expiring (co_now o) (co_exp o)
            then S (getJWT (device w)) else getJWT (device w)) /\
    (jwt_expiring (co_now o) (co_exp o) = true ->
     exists rest, evs = EvCreateJWT :: rest).
Proof.
  intros Hc. rewrite (connect_run auto_reconnect skip o w c Hc).
  destruct (connect_events_handshake skip o w) as [Hone Htok].
  eexists; eexists. split; [reflexivity|]. split; [exact Hone|].
  split; [exact Htok|].
  intros Hexp. unfold connect_events, refresh_events. rewrite Hexp.
  eexists. reflexivity.
Qed.

Lemma connect_always_attempts_witness :
  exists w' evs,
    connect false false obs_accepted sample_armed_near_wrap = Some (true, w', evs) /\
    List.length (filter is_mqtt_connect evs) = 1%nat.
Proof.
  destruct (connect_always_attempts false false obs_accepted sample_armed_near_wrap
              sample_rejected_client)
    as (w' & evs & Hrun & Hone & _).
  - reflexivity.
  - exists w', evs. split; [exact Hrun|exact Hone].
Defined.

(** X16. After a connect that failed on an authentication return code, the
    next connect presents a newer token than the one that was rejected:
    the token generation of its handshake is strictly greater. *)
Theorem next_attempt_uses_fresh_token (ar1 skip1 ar2 skip2 : bool)
    (o1 o2 : connect_obs) (w : World) (c : MQTTClientWithCookie) :
  mqttClient w = Some c ->
  attempt_succeeds o1 = false ->
  co_rc o1 = LWMQTT_BAD_USERNAME_OR_PASSWORD \/ co_rc o1 = LWMQTT_NOT_AUTHORIZED ->
  exists w1 evs1 w2 evs2 rejected presented,
    connect ar1 skip1 o1 w = Some (false, w1, evs1) /\
    connect ar2 skip2 o2 w1 = Some (attempt_succeeds o2, w2, evs2) /\
    handshake_token evs1 = Some rejected /\
    handshake_token evs2 = Some presented /\
    (rejected < presented)%nat.
Proof.
  intros Hc Hfail Hrc.
  assert (Hauth : is_auth_failure (co_rc o1) = true)
    by (destruct Hrc as [-> | ->]; reflexivity).
  pose proof (connect_run ar1 skip1 o1 w c Hc) as Hrun1. rewrite Hfail in Hrun1.
  pose proof (connect_run ar2 skip2 o2 _ _ (connect_world_client o1 c w)) as Hrun2.
  destruct (connect_events_handshake skip1 o1 w) as [_ Htok1].
  destruct (connect_events_handshake skip2 o2 (connect_world o1 c w)) as [_ Htok2].
  destruct (connect_world_device o1 c w) as [_ Hjwt].
  do 6 eexists. split; [exact Hrun1|]. split; [exact Hrun2|].
  split; [exact Htok1|]. split; [exact Htok2|].
  unfold jwt_at_connect. rewrite Hjwt. unfold tokens_minted.
  rewrite Hfail, Hauth. simpl.
  destruct (jwt_expiring (co_now o1) (co_exp o1)),
    (jwt_expiring (co_now o2) (co_exp o2)); lia.
Qed.

Lemma next_attempt_uses_fresh_token_witness :
  exists w1 evs1 w2 evs2 rejected presented,
    connect true false obs_not_authorized sample_session = Some (false, w1, evs1) /\
    connect true false obs_accepted w1 =
      Some (attempt_succeeds obs_accepted, w2, evs2) /\
    handshake_token evs1 = Some rejected /\
    handshake_token evs2 = Some presented /\
    (rejected < presented)%nat.
Proof.
  apply (next_attempt_uses_fresh_token true false true false
           obs_not_authorized obs_accepted sample_session sample_client).
  - reflexivity.
  - reflexivity.
  - right. reflexivity.
Defined.

(** ** Labels of the status accessors *)

(** X17. Right after a connect attempt, failed or not,
    [getLastConnectReturnCode] yields the return code that attempt left and
    [getLastConnectReturnCodeAsString] its label, without any call or
    change. The labels tell the codes apart: two attempts with the same
    label left the same code, and the label is "OK" for the accepted code
    only. *)
Theorem return_code_accessors_report_last_attempt (auto_reconnect skip : bool)
    (o : connect_obs) (w : World) (c : MQTTClientWithCookie) :
  mqttClient w = Some c ->
  (connect auto_reconnect skip o;; getLastConnectReturnCode) w =
    Some (co_rc o, connect_world o c w, connect_events skip o w) /\
  exists label,
    (connect auto_reconnect skip o;; getLastConnectReturnCodeAsString) w =
      Some (label, connect_world o c w, connect_events skip o w) /\
    (label = "OK"%string <-> co_rc o = LWMQTT_CONNECTION_ACCEPTED) /\
    forall o' label',
      (connect auto_reconnect skip o';; getLastConnectReturnCodeAsString) w =
        Some (label', connect_world o' c w, connect_events skip o' w) ->
      label' = label -> co_rc o' = co_rc o.
Proof.
  intros Hc.
  assert (Hcode : forall o0,
             getLastConnectReturnCode (connect_world o0 c w) =
             Some (co_rc o0, connect_world o0 c w, [])).
  { intros o0. unfold getLastConnectReturnCode, mq_get_returnCode, with_client.
    rewrite connect_world_client. reflexivity. }
  assert (Hlabel : forall o0,
             exists l,
               getLastConnectReturnCodeAsString (connect_world o0 c w) =
                 Some (l, connect_world o0 c w, []) /\
               (l = "OK"%string <-> co_rc o0 = LWMQTT_CONNECTION_ACCEPTED) /\
               forall o1 l1,
                 getLastConnectReturnCodeAsString (connect_world o1 c w) =
                   Some (l1, connect_world o1 c w, []) ->
                 l1 = l -> co_rc o1 = co_rc o0).
  { intros o0.
    unfold getLastConnectReturnCodeAsString, mq_get_returnCode, with_client,
      bind, ret.
    rewrite connect_world_client. cbn [mq_returnCode set_returnCode].
    eexists. split; [reflexivity|]. split.
    - destruct (co_rc o0); split; intros H; try reflexivity; discriminate H.
    - intros o1 l1. rewrite connect_world_client.
      cbn [mq_returnCode set_returnCode]. intros Hrun Heq.
      injection Hrun as Hl. subst l1.
      destruct (co_rc o1), (co_rc o0); try reflexivity; discriminate Heq. }
  split.
  - rewrite (bind_run _ _ _ _ _ _ (connect_run _ _ _ _ _ Hc)), Hcode, app_nil_r.
    reflexivity.
  - destruct (Hlabel o) as (l & Hrun & Hok & Hinj).
    exists l. split; [|split; [exact Hok|]].
    + rewrite (bind_run _ _ _ _ _ _ (connect_run _ _ _ _ _ Hc)), Hrun, app_nil_r.
      reflexivity.
    + intros o' label' Hrun' Heq.
      rewrite (bind_run _ _ _ _ _ _ (connect_run _ _ _ _ _ Hc)) in Hrun'.
      destruct (Hlabel o') as (l' & Hrun1 & _ & _).
      rewrite Hrun1 in Hrun'. injection Hrun' as Hl. subst label'.
      exact (Hinj o' l' Hrun1 Heq).
Qed.

Lemma return_code_accessors_report_last_attempt_witness :
  (connect true false obs_not_authorized;; getLastConnectReturnCode) sample_session =
  Some (LWMQTT_NOT_AUTHORIZED,
        connect_world obs_not_authorized sample_client sample_session,
        connect_events false obs_not_authorized sample_session).
Proof.
  destruct (return_code_accessors_report_last_attempt true false
              obs_not_authorized sample_session sample_client) as [Hcode _].
  - reflexivity.
  - exact Hcode.
Defined.

(** X18. [getLastErrorCodeAsString] needs the protocol client (it goes
    wrong on a null pointer) and otherwise changes nothing and calls
    nothing. Its labels tell the thirteen error codes of its [switch]
    apart; any other value of the error code, success included, is
    labelled "Unknown error", and only such a value is. *)
Theorem error_labels_identify_codes (w : World) (c : MQTTClientWithCookie)
    (e1 e2 : lwmqtt_err_t) :
  mqttClient w = Some c ->
  exists l1 l2,
    getLastErrorCodeAsString e1 w = Some (l1, w, []) /\
    getLastErrorCodeAsString e2 w = Some (l2, w, []) /\
    (l1 = l2 -> e1 = e2) /\
    (l1 = "Unknown error"%string <-> e1 = lwmqtt_err_unlisted) /\
    forall w0, mqttClient w0 = None -> getLastErrorCodeAsString e1 w0 = None.
Proof.
  intros Hc. unfold getLastErrorCodeAsString, with_client, ret. rewrite Hc.
  eexists; eexists. split; [reflexivity|]. split; [reflexivity|].
  split; [|split].
  - destruct e1, e2; intros H; try reflexivity; discriminate H.
  - destruct e1; split; intros H; try reflexivity; discriminate H.
  - intros w0 H0. rewrite H0. reflexivity.
Qed.

Lemma error_labels_identify_codes_witness :
  getLastErrorCodeAsString LWMQTT_NETWORK_TIMEOUT sample_session =
  Some ("LWMQTT_NETWORK_TIMEOUT"%string, sample_session, []).
Proof.
  destruct (error_labels_identify_codes sample_session sample_client
              LWMQTT_NETWORK_TIMEOUT lwmqtt_err_unlisted)
    as (l1 & l2 & H1 & _).
  - reflexivity.
  - reflexivity.
Defined.

(** ** A refresh that fails *)

(** X19. When the tick disconnects to refresh the token and the connect it
    makes fails, the session is left disconnected with [autoReconnect]
    set and the backoff window armed like after any failure; a later tick
    whose clock is past [backoff_until_millis], with the network link up,
    makes a new connect attempt, and one that is not past it makes none. *)
Theorem failed_refresh_is_retried (lo lo2 : loop_obs) (w : World)
    (c : MQTTClientWithCookie) :
  mqttClient w = Some c ->
  mq_connected c = true ->
  jwt_expiring (lo_now lo) (lo_exp lo) = true ->
  attempt_succeeds (lo_conn lo) = false ->
  exists w1 evs1 w2 evs2,
    loop lo w = Some (tt, w1, evs1) /\
    client_up w1 = false /\
    autoReconnect w1 = true /\
    backoff_ms w1 = next_backoff (backoff_ms w) (co_jitter (lo_conn lo)) /\
    backoff_until_millis w1 =
      to_ulong (co_now_arm (lo_conn lo) + backoff_ms w1) /\
    loop lo2 w1 = Some (tt, w2, evs2) /\
    existsb is_mqtt_connect evs2 =
      (lo_now lo2 >? backoff_until_millis w1) && lo_net lo2.
Proof.
  intros Hc Hup Hexp Hfail.
  rewrite (loop_refresh_run lo w c Hc Hup Hexp).
  set (c0 := set_connected false c).
  set (w1 := connect_world (lo_conn lo) c0 (set_mqttClient (Some c0) w)).
  set (c1 := set_returnCode (co_rc (lo_conn lo))
               (set_connected (attempt_succeeds (lo_conn lo)) c0)).
  assert (Hc1 : mqttClient w1 = Some c1) by apply connect_world_client.
  assert (Hdown : mq_connected c1 = false) by (unfold c1; simpl; exact Hfail).
  assert (Har : autoReconnect w1 = true) by apply connect_world_autoReconnect.
  assert (Hb : backoff_ms w1 = next_backoff (backoff_ms w) (co_jitter (lo_conn lo))).
  { unfold w1. rewrite connect_world_backoff_ms, Hfail. reflexivity. }
  assert (Hu : backoff_until_millis w1 =
               to_ulong (co_now_arm (lo_conn lo) + backoff_ms w1)).
  { rewrite Hb. unfold w1. rewrite connect_world_backoff_until, Hfail.
    reflexivity. }
  assert (Hno : mq_connected c1 && jwt_expiring (lo_now lo2) (lo_exp lo2) = false)
    by (rewrite Hdown; reflexivity).
  pose proof (loop_no_refresh_run lo2 w1 c1 Hc1 Hno) as Hrun2. cbv zeta in Hrun2.
  rewrite Har, Hdown in Hrun2. cbn [negb andb] in Hrun2.
  exists w1. eexists. eexists. eexists.
  split; [reflexivity|].
  split; [unfold client_up; rewrite Hc1; exact Hdown|].
  split; [exact Har|]. split; [exact Hb|]. split; [exact Hu|].
  split; [exact Hrun2|].
  rewrite existsb_app. cbn [existsb is_mqtt_connect orb].
  rewrite pumped_calls_no_handshake, orb_false_r.
  unfold backoff_elapsed.
  destruct ((lo_now lo2 >? backoff_until_millis w1) && lo_net lo2).
  - apply connect_events_one_handshake.
  - reflexivity.
Qed.

Lemma failed_refresh_is_retried_witness :
  exists w1 evs1 w2 evs2,
    loop tick_refresh_rejected sample_connected = Some (tt, w1, evs1) /\
    autoReconnect w1 = true /\
    loop tick_after_wrap_arming w1 = Some (tt, w2, evs2) /\
    existsb is_mqtt_connect evs2 =
      (lo_now tick_after_wrap_arming >? backoff_until_millis w1) &&
      lo_net tick_after_wrap_arming.
Proof.
  destruct (failed_refresh_is_retried tick_refresh_rejected tick_after_wrap_arming
              sample_connected sample_connected_client)
    as (w1 & evs1 & w2 & evs2 & H1 & _ & Har & _ & _ & H2 & Hex).
  - reflexivity.
  - reflexivity.
  - reflexivity.
  - reflexivity.
  - exists w1, evs1, w2, evs2.
    split; [exact H1|]. split; [exact Har|]. split; [exact H2|exact Hex].
Defined.

(** * The session over whole runs *)

(** ** The auto-reconnect flag over all operations *)

(** C7. On every session reached from the constructor through the public
    operations: an operation that returns leaves [autoReconnect] true when
    it is connect, whatever its [auto_reconnect] argument, false when it
    is disconnect, and unchanged when it is anything else (setup, cleanup,
    the tick, the publishes, the setters, the accessors, message
    dispatch); and once the session is set up every operation does
    return, so that connect does set the flag and disconnect does clear
    it. *)
Theorem autoReconnect_set_by_connect_cleared_by_disconnect
    (dev : CloudIoTCoreDevice) (w : World) (op : Op) :
  reachable dev w ->
  (forall w' evs,
      run_op op w = Some (tt, w', evs) ->
      match op with
      | OpConnect _ _ _ => autoReconnect w' = true
      | OpDisconnect _ => autoReconnect w' = false
      | _ => autoReconnect w' = autoReconnect w
      end) /\
  (forall c, mqttClient w = Some c ->
             exists w' evs, run_op op w = Some (tt, w', evs)) /\
  (forall c auto_reconnect skip o,
      mqttClient w = Some c ->
      exists w' evs,
        connect auto_reconnect skip o w = Some (attempt_succeeds o, w', evs) /\
        autoReconnect w' = true) /\
  (forall c ok,
      mqttClient w = Some c ->
      exists w',
        disconnect ok w = Some (mq_connected c && ok, w', [EvMqttDisconnect]) /\
        autoReconnect w' = false).
Proof.
  intros Hreach.
  pose proof (reachable_up_implies_autoReconnect dev w Hreach) as Hinv.
  pose proof (reachable_heap_ok dev w Hreach) as Hheap.
  split; [|split; [|split]].
  - intros w' evs Hrun. eapply run_op_autoReconnect; eassumption.
  - intros c Hc. pose proof (run_op_with_client op w c Hheap Hc) as Hret.
    destruct (run_op op w) as [[[[] w'] evs]|]; [|contradiction].
    exists w', evs. reflexivity.
  - intros c auto_reconnect skip o Hc.
    rewrite (connect_run auto_reconnect skip o w c Hc).
    eexists; eexists. split; [reflexivity|apply connect_world_autoReconnect].
  - intros c ok Hc. rewrite disconnect_run, Hc.
    eexists. split; reflexivity.
Qed.

Lemma autoReconnect_set_by_connect_cleared_by_disconnect_witness :
  (exists w' evs,
     run_op (OpDisconnect true) sample_connected = Some (tt, w', evs) /\
     autoReconnect w' = false) /\
  (exists w' evs,
     run_op (OpConnect false false obs_accepted) sample_session =
       Some (tt, w', evs) /\
     autoReconnect w' = true) /\
  (exists w' evs,
     run_op (OpLoop tick_past_margin) sample_connected = Some (tt, w', evs) /\
     autoReconnect w' = autoReconnect sample_connected).
Proof.
  assert (Hsession : reachable sample_device sample_session).
  { apply reachable_step
      with (w := GCloudIoTMqtt sample_device) (op := OpSetup 512 180 1000)
           (evs := result_events (setup 512 180 1000 (GCloudIoTMqtt sample_device))).
    - apply reachable_new.
    - vm_compute. reflexivity. }
  split; [|split].
  - destruct (autoReconnect_set_by_connect_cleared_by_disconnect sample_device
                sample_connected (OpDisconnect true) sample_connected_reachable)
      as (Hflag & Hret & _).
    destruct (Hret sample_connected_client eq_refl) as (w' & evs & Hrun).
    exists w', evs. split; [exact Hrun|exact (Hflag w' evs Hrun)].
  - destruct (autoReconnect_set_by_connect_cleared_by_disconnect sample_device
                sample_session (OpConnect false false obs_accepted) Hsession)
      as (Hflag & Hret & _).
    destruct (Hret sample_client eq_refl) as (w' & evs & Hrun).
    exists w', evs. split; [exact Hrun|exact (Hflag w' evs Hrun)].
  - destruct (autoReconnect_set_by_connect_cleared_by_disconnect sample_device
                sample_connected (OpLoop tick_past_margin)
                sample_connected_reachable)
      as (Hflag & Hret & _).
    destruct (Hret sample_connected_client eq_refl) as (w' & evs & Hrun).
    exists w', evs. split; [exact Hrun|exact (Hflag w' evs Hrun)].
Defined.

(** ** Growth of the backoff, jitter included *)

Lemma connect_attempts_failures_jitter (calls : list (bool * bool * connect_obs)) :
  forall (w : World) (c : MQTTClientWithCookie),
    mqttClient w = Some c ->
    Forall (fun a => attempt_succeeds (snd a) = false) calls ->
    exists w' c' evs,
      connect_attempts calls w =
        Some (backoff_run (backoff_ms w) (map (fun a => co_jitter (snd a)) calls),
              w', evs) /\
      mqttClient w' = Some c'.
Proof.
  induction calls as [|[[ar skip] o] rest IH]; intros w c Hc Hall.
  - exists w, c, []. split; [reflexivity|exact Hc].
  - inversion Hall as [|a l Hfail Hrest]; subst. simpl in Hfail.
    pose proof (connect_run ar skip o w c Hc) as Hrun.
    assert (Hb1 : backoff_ms (connect_world o c w) =
                  next_backoff (backoff_ms w) (co_jitter o))
      by (rewrite connect_world_backoff_ms, Hfail; reflexivity).
    destruct (IH (connect_world o c w) _ (connect_world_client o c w) Hrest)
      as (w' & c' & evs & Hrec & Hc').
    exists w', c', (connect_events skip o w ++ evs).
    split; [|exact Hc'].
    cbn [connect_attempts].
    rewrite (bind_run _ _ _ _ _ _ Hrun).
    unfold bind at 1. unfold gets at 1.
    rewrite (bind_run _ _ _ _ _ _ Hrec). unfold ret.
    rewrite Hb1. cbn [map backoff_run snd]. rewrite !app_nil_r. reflexivity.
Qed.

Lemma backoff_run_length (js : list Z) :
  forall b, List.length (backoff_run b js) = List.length js.
Proof.
  induction js as [|j rest IH]; intros b; simpl; [reflexivity|].
  rewrite IH. reflexivity.
Qed.

Lemma backoff_run_first (js : list Z) (b j x : Z) :
  nth_error js 0 = Some j ->
  nth_error (backoff_run b js) 0 = Some x ->
  x = next_backoff b j.
Proof.
  destruct js as [|j0 rest]; simpl; [discriminate|].
  intros [= ->] [= <-]. reflexivity.
Qed.

Lemma backoff_run_next (js : list Z) :
  forall (b : Z) (i : nat) (prev j x : Z),
    nth_error (backoff_run b js) i = Some prev ->
    nth_error js (S i) = Some j ->
    nth_error (backoff_run b js) (S i) = Some x ->
    x = next_backoff prev j.
Proof.
  induction js as [|j0 rest IH]; intros b i prev j x Hprev Hj Hx.
  - destruct i; discriminate Hprev.
  - cbn [backoff_run] in Hprev, Hx. cbn [nth_error] in Hj, Hx.
    destruct i as [|i].
    + cbn [nth_error] in Hprev. injection Hprev as <-.
      eapply backoff_run_first; eassumption.
    + cbn [nth_error] in Hprev. eapply IH; eassumption.
Qed.

Lemma backoff_run_bounds (js : list Z) :
  forall b x,
    b = 0 \/ EXP_BACKOFF_MIN_MS <= b <= BACKOFF_CEILING ->
    Forall (fun j => 0 <= j < EXP_BACKOFF_JITTER_MS) js ->
    In x (backoff_run b js) ->
    EXP_BACKOFF_MIN_MS <= x <= BACKOFF_CEILING.
Proof.
  induction js as [|j rest IH]; intros b x Hb Hall Hin; [destruct Hin|].
  inversion Hall as [|a l Hj Hrest]; subst.
  destruct (next_backoff_bounds b j Hb Hj) as (Hrange & _).
  destruct Hin as [<-|Hin]; [exact Hrange|].
  eapply IH; [right; exact Hrange|exact Hrest|exact Hin].
Qed.

(** C1 (as amended). Take a session that is not backing off ([backoff_ms]
    is 0, as after [setup] and after every successful connect) and any
    series of connect calls that all fail, each with its [random] draw from
    0 to 499. The series runs to its end, and the values of [backoff_ms] it
    computes are: MIN (1000) plus the draw after the first failure; after
    each later failure, twice the previous value plus the draw while the
    previous value, which is at least MIN, is below MAX (32000), and the
    previous value unchanged once it is at or above MAX. There is no clamp:
    a value may exceed MAX, but never 64497. When every draw is 0 the
    values are MIN, then twice the previous value capped at MAX, and none
    exceeds MAX. A successful connect made next returns true and resets
    [backoff_ms] to 0. *)
Theorem backoff_growth_with_jitter (calls : list (bool * bool * connect_obs))
    (w : World) (c : MQTTClientWithCookie)
    (auto_reconnect skip : bool) (o_ok : connect_obs) :
  mqttClient w = Some c ->
  backoff_ms w = 0 ->
  Forall (fun a => attempt_succeeds (snd a) = false /\ jitter_in_range (snd a))
    calls ->
  attempt_succeeds o_ok = true ->
  exists bs w' evs,
    connect_attempts calls w = Some (bs, w', evs) /\
    List.length bs = List.length calls /\
    (forall a b,
        nth_error calls 0 = Some a -> nth_error bs 0 = Some b ->
        b = EXP_BACKOFF_MIN_MS + co_jitter (snd a)) /\
    (forall i prev a b,
        nth_error bs i = Some prev ->
        nth_error calls (S i) = Some a ->
        nth_error bs (S i) = Some b ->
        EXP_BACKOFF_MIN_MS <= prev /\
        b = if prev <? EXP_BACKOFF_MAX_MS
            then prev * EXP_BACKOFF_FACTOR + co_jitter (snd a)
            else prev) /\
    (forall b, In b bs -> EXP_BACKOFF_MIN_MS <= b <= 64497) /\
    (Forall (fun a => co_jitter (snd a) = 0) calls ->
     (forall b, nth_error bs 0 = Some b -> b = EXP_BACKOFF_MIN_MS) /\
     (forall i prev b,
         nth_error bs i = Some prev -> nth_error bs (S i) = Some b ->
         b = Z.min (prev * EXP_BACKOFF_FACTOR) EXP_BACKOFF_MAX_MS) /\
     (forall b, In b bs -> b <= EXP_BACKOFF_MAX_MS)) /\
    exists w'' evs',
      connect auto_reconnect skip o_ok w' = Some (true, w'', evs') /\
      backoff_ms w'' = 0.
Proof.
  intros Hc Hb Hall Hok.
  assert (Hfails : Forall (fun a => attempt_succeeds (snd a) = false) calls)
    by (eapply Forall_impl; [|exact Hall]; intros a [H _]; exact H).
  assert (Hjs : Forall (fun j => 0 <= j < EXP_BACKOFF_JITTER_MS)
                  (map (fun a => co_jitter (snd a)) calls)).
  { apply Forall_map. eapply Forall_impl; [|exact Hall].
    intros a [_ H]. exact H. }
  destruct (connect_attempts_failures_jitter calls w c Hc Hfails)
    as (w' & c' & evs & Hrun & Hc').
  rewrite Hb in Hrun.
  set (js := map (fun a => co_jitter (snd a)) calls) in *.
  assert (Hbounds : forall b, In b (backoff_run 0 js) ->
                              EXP_BACKOFF_MIN_MS <= b <= BACKOFF_CEILING).
  { intros b. apply backoff_run_bounds; [left; reflexivity|exact Hjs]. }
  exists (backoff_run 0 js), w', evs.
  split; [exact Hrun|].
  split; [rewrite backoff_run_length; apply length_map|].
  split.
  { intros a b Ha Hb0.
    assert (Hj : nth_error js 0 = Some (co_jitter (snd a)))
      by (unfold js; rewrite nth_error_map, Ha; reflexivity).
    rewrite (backoff_run_first js 0 _ b Hj Hb0). reflexivity. }
  split.
  { intros i prev a b Hprev Ha Hnext.
    assert (Hj : nth_error js (S i) = Some (co_jitter (snd a)))
      by (unfold js; rewrite nth_error_map, Ha; reflexivity).
    assert (Hmin : EXP_BACKOFF_MIN_MS <= prev)
      by (apply Hbounds; eapply nth_error_In; exact Hprev).
    split; [exact Hmin|].
    rewrite (backoff_run_next js 0 i prev _ b Hprev Hj Hnext).
    unfold next_backoff.
    destruct (Z.ltb_spec prev EXP_BACKOFF_MIN_MS); [lia|reflexivity]. }
  split; [exact Hbounds|].
  split.
  { intros Hzero.
    assert (Hall0 : Forall (fun a => attempt_succeeds (snd a) = false /\
                                     co_jitter (snd a) = 0) calls).
    { apply Forall_forall. intros a Ha. split.
      - rewrite Forall_forall in Hfails. apply Hfails, Ha.
      - rewrite Forall_forall in Hzero. apply Hzero, Ha. }
    destruct (backoff_growth calls w c auto_reconnect skip o_ok Hc Hb Hall0 Hok)
      as (bs0 & w0 & evs0 & Hrun0 & _ & Hfirst & Hstep & Hcap & _).
    rewrite Hrun in Hrun0. injection Hrun0 as Hbs _ _. rewrite Hbs.
    split; [exact Hfirst|]. split; [|exact Hcap].
    intros i prev b Hprev Hnext. apply (Hstep i prev b Hprev Hnext). }
  rewrite (connect_run auto_reconnect skip o_ok w' c' Hc'). rewrite Hok.
  eexists; eexists. split; [reflexivity|].
  rewrite connect_world_backoff_ms, Hok. reflexivity.
Qed.

Lemma backoff_growth_with_jitter_witness :
  exists bs w' evs,
    connect_attempts (repeat (true, false, obs_unavailable 499) 6) sample_session =
      Some (bs, w', evs) /\
    (forall b, In b bs -> EXP_BACKOFF_MIN_MS <= b <= 64497) /\
    exists w'' evs',
      connect true false obs_accepted w' = Some (true, w'', evs') /\
      backoff_ms w'' = 0.
Proof.
  destruct (backoff_growth_with_jitter (repeat (true, false, obs_unavailable 499) 6)
              sample_session sample_client true false obs_accepted)
    as (bs & w' & evs & Hrun & _ & _ & _ & Hbounds & _ & Hreset).
  - reflexivity.
  - reflexivity.
  - repeat constructor; vm_compute; discriminate.
  - reflexivity.
  - exists bs, w', evs. split; [exact Hrun|]. split; [exact Hbounds|exact Hreset].
Defined.

(** C1 (as stated) fails: six failures in a row from the sample session,
    each drawing 499, give 1499, 3497, 7493, 15485, 31469, 63437. The last
    value exceeds MAX, also with its own draw left out, and is not twice
    the previous value capped at MAX: the code doubles any value below MAX
    and has no clamp. *)
Lemma backoff_clamp_counterexample :
  attempt_succeeds (obs_unavailable 499) = false /\
  jitter_in_range (obs_unavailable 499) /\
  backoff_ms sample_session = 0 /\
  option_map (fun r => fst (fst r))
    (connect_attempts (repeat (true, false, obs_unavailable 499) 6)
       sample_session) =
  Some [1499; 3497; 7493; 15485; 31469; 63437] /\
  63437 - co_jitter (obs_unavailable 499) > EXP_BACKOFF_MAX_MS /\
  63437 - co_jitter (obs_unavailable 499) <>
    Z.min (31469 * EXP_BACKOFF_FACTOR) EXP_BACKOFF_MAX_MS.
Proof.
  split; [reflexivity|].
  split; [vm_compute; split; [discriminate|reflexivity]|].
  split; [reflexivity|].
  split; [vm_compute; reflexivity|].
  split; [vm_compute; reflexivity|vm_compute; discriminate].
Qed.
